(** * MQTT payload decoding core: CBOR / COSE Sign1 decoder, encoder,
      decoder resolution and the per-topic decoder cache.

    A shallow embedding of
    - [app/src/decoders/CborDecoder.ts]  (module [CborDecoder]),
    - [app/src/components/Sidebar/Publish/encoders/CborCoseEncoder.ts]
      (module [CborCoseEncoder]),
    - [app/src/decoders/index.ts] and the view model of a topic
      ([findDecoder], [TopicViewModel]).

    JavaScript values are an inductive type [jsval]; code that can throw
    lives in the [result] monad and [try ... catch] is [try_catch].  The
    npm packages and built-ins the code calls ([cbor], [js-base64],
    [JSON], [Buffer]) are the fields of the class [JsLib]; the module
    [NodeLib] gives an executable instance of it. *)

From Stdlib Require Import ZArith NArith List String Ascii Bool Lia.
From Stdlib Require Import Strings.Byte DecimalString.
Import ListNotations.

Local Open Scope string_scope.
Local Open Scope Z_scope.

Set Implicit Arguments.
#[local] Set Warnings "-register-all,-abstract-large-number".

(* ===================================================================== *)
(** * Exceptions *)

(** A thrown JavaScript value: an [Error] instance with its [message], or
    any other thrown value. *)
Inductive exn : Type :=
| JsError (message : string)
| JsThrown (description : string).

Inductive result (A : Type) : Type :=
| Ok (a : A)
| Throw (e : exn).

Arguments Ok {A} a.
Arguments Throw {A} e.

Definition bind {A B : Type} (m : result A) (k : A -> result B) : result B :=
  match m with
  | Ok a => k a
  | Throw e => Throw e
  end.

Declare Scope js_scope.
Delimit Scope js_scope with js.
Notation "x <- m ;; k" := (bind m (fun x => k))
  (at level 61, m at next level, right associativity) : js_scope.
Local Open Scope js_scope.

(** [try { body } catch (e) { handler e }] where both arms return. *)
Definition try_catch {A : Type} (body : result A) (handler : exn -> A) : A :=
  match body with
  | Ok a => a
  | Throw e => handler e
  end.

(** [try { body } catch { handler }] where the handler may throw again. *)
Definition try_or {A : Type} (body : result A) (handler : exn -> result A)
  : result A :=
  match body with
  | Ok a => Ok a
  | Throw e => handler e
  end.

(** [error instanceof Error ? error.message : 'Unknown error'] *)
Definition error_message (e : exn) : string :=
  match e with
  | JsError m => m
  | JsThrown _ => "Unknown error"
  end.

Definition TypeError (m : string) : exn := JsError m.
Definition RangeError (m : string) : exn := JsError m.

(* ===================================================================== *)
(** * JavaScript values *)

(** The values the code manipulates: what [JSON.parse] and [cbor.decode]
    return.  [JNum] carries the integer-valued numbers; [JBytes] is a
    [Buffer] / [Uint8Array]; [JObj] is a plain object with its own string
    keys in insertion order; [JMap] is a [Map] instance (a CBOR map with
    a key that is not a text string); [JTagged] is an instance of
    [cbor.Tagged] with its fields [tag] and [value]. *)
Inductive jsval : Type :=
| JUndefined
| JNull
| JBool (b : bool)
| JNum (n : Z)
| JBigInt (n : Z)
| JStr (s : string)
| JBytes (bs : list byte)
| JArr (items : list jsval)
| JObj (props : list (string * jsval))
| JMap (entries : list (jsval * jsval))
| JTagged (tag : Z) (value : jsval).

Definition byte_to_Z (b : byte) : Z := Z.of_N (Byte.to_N b).

Module Js.

(** Truthiness, as used by [if (x)], [!x], [x || y] and [x && y]. *)
Definition truthy (v : jsval) : bool :=
  match v with
  | JUndefined | JNull => false
  | JBool b => b
  | JNum n | JBigInt n => negb (n =? 0)
  | JStr s => negb (String.eqb s "")
  | JBytes _ | JArr _ | JObj _ | JMap _ | JTagged _ _ => true
  end.

(** [typeof v === 'object'] (true of [null] too). *)
Definition typeof_object (v : jsval) : bool :=
  match v with
  | JNull | JBytes _ | JArr _ | JObj _ | JMap _ | JTagged _ _ => true
  | JUndefined | JBool _ | JNum _ | JBigInt _ | JStr _ => false
  end.

Definition Array_isArray (v : jsval) : bool :=
  match v with JArr _ => true | _ => false end.

(** [v instanceof Uint8Array || v instanceof Buffer]: a [Buffer] is a
    [Uint8Array], so the two tests of the source agree on [JBytes]. *)
Definition instanceof_Uint8Array (v : jsval) : bool :=
  match v with JBytes _ => true | _ => false end.

Definition instanceof_Buffer (v : jsval) : bool :=
  match v with JBytes _ => true | _ => false end.

Definition is_null (v : jsval) : bool :=
  match v with JNull => true | _ => false end.

Fixpoint lookup (k : string) (props : list (string * jsval)) : option jsval :=
  match props with
  | [] => None
  | (k', v) :: rest => if String.eqb k k' then Some v else lookup k rest
  end.

(** [k in v] for an object [v]: the own keys of a plain object and the
    fields of a [Tagged] instance.  The code asks only for the keys
    [tag], [value] and [payload], which no array, [Buffer], [Map] or
    prototype has. *)
Definition has_prop (k : string) (v : jsval) : bool :=
  match v with
  | JObj props => match lookup k props with Some _ => true | None => false end
  | JTagged _ _ =>
      String.eqb k "tag" || String.eqb k "value" || String.eqb k "err"
  | _ => false
  end.

(** [v.k] where [v] is neither [null] nor [undefined]. *)
Definition get_prop (k : string) (v : jsval) : jsval :=
  match v with
  | JObj props => match lookup k props with Some x => x | None => JUndefined end
  | JTagged t x =>
      if String.eqb k "tag" then JNum t
      else if String.eqb k "value" then x
      else JUndefined
  | _ => JUndefined
  end.

(** [v === n] for a number literal [n]. *)
Definition strict_eq_num (v : jsval) (n : Z) : bool :=
  match v with JNum m => m =? n | _ => false end.

(** [const [a, b, c, d] = v]: the elements of an array, [undefined]
    past its end.  A value that is not iterable throws.  [parseCoseSign1]
    is reached with an array here; the other iterables (strings, [Map],
    [Buffer]) are taken to throw too. *)
Definition destructure4 (v : jsval)
  : result (jsval * jsval * jsval * jsval) :=
  match v with
  | JArr l =>
      Ok (nth 0 l JUndefined, nth 1 l JUndefined,
          nth 2 l JUndefined, nth 3 l JUndefined)
  | _ => Throw (TypeError "object is not iterable")
  end.

(** [v.length] *)
Definition length_of (v : jsval) : result jsval :=
  match v with
  | JUndefined | JNull =>
      Throw (TypeError "Cannot read properties of undefined (reading 'length')")
  | JBytes bs => Ok (JNum (Z.of_nat (List.length bs)))
  | JArr l => Ok (JNum (Z.of_nat (List.length l)))
  | JStr s => Ok (JNum (Z.of_nat (String.length s)))
  | _ => Ok JUndefined
  end.

(** [v.slice(0, n)] *)
Definition slice0 (n : nat) (v : jsval) : result jsval :=
  match v with
  | JBytes bs => Ok (JBytes (firstn n bs))
  | JArr l => Ok (JArr (firstn n l))
  | JStr s => Ok (JStr (String.substring 0 n s))
  | JUndefined | JNull =>
      Throw (TypeError "Cannot read properties of undefined (reading 'slice')")
  | _ => Throw (TypeError "slice is not a function")
  end.

(** [Array.from(v)]: the bytes of a buffer become numbers. *)
Definition Array_from (v : jsval) : result jsval :=
  match v with
  | JBytes bs => Ok (JArr (map (fun b => JNum (byte_to_Z b)) bs))
  | JArr l => Ok (JArr l)
  | JUndefined | JNull => Throw (TypeError "undefined is not iterable")
  | _ => Ok (JArr [])
  end.

(** [v > 0] *)
Definition gt0 (v : jsval) : bool :=
  match v with
  | JNum n | JBigInt n => 0 <? n
  | JBool b => b
  | _ => false
  end.

(** [Buffer.from(v)] for a buffer [v].  [parseCoseSign1] is reached with
    byte strings in these places; for any other value the call is taken
    to throw its [TypeError] (Node does so for numbers, [null] and plain
    objects; it would convert a string or an array). *)
Definition Buffer_from (v : jsval) : result (list byte) :=
  match v with
  | JBytes bs => Ok bs
  | _ => Throw (TypeError "The first argument must be of type string or an instance of Buffer")
  end.

End Js.

(* ===================================================================== *)
(** * Payloads and decoder envelopes *)

(** Modelled from the spec: the Payload class [Base64Message]
    ([backend/src/Model/Base64Message]), of which only the callers are
    among the sources.  A payload is an immutable byte buffer kept as its
    base64 text; [new Base64Message(text)] is the constructor. *)
Record Base64Message : Type := new_Base64Message { base64Message : string }.

(** Modelled from the spec: the enumeration [Decoder]
    ([backend/src/Model/Decoder]) of decoder tags, which has at least
    [NONE] and [CBOR]; the other decoders define their own tags. *)
Inductive Decoder : Type :=
| NONE
| CBOR
| OtherDecoder (name : string).

(** Modelled from the spec: the Decoded Envelope [DecoderEnvelope]
    ([app/src/decoders/DecoderEnvelope]),
    [{ message?: Base64Message, error?: string, decoder: Decoder }]. *)
Record DecoderEnvelope : Type := mkEnvelope {
  message : option Base64Message;
  error : option string;
  decoder : Decoder
}.

(* ===================================================================== *)
(** * The libraries the code calls *)

(** The functions of npm packages and of the JavaScript run time that the
    sources call.  Each field has the type the call has in the source;
    a call that can throw returns a [result]. *)
Class JsLib : Type := {
  (** [cbor.decode(buffer)]: the first (and only) data item of the
      buffer; throws on malformed, truncated or trailing data. *)
  cbor_decode : list byte -> result jsval;
  (** [cbor.encode(value)]; throws when the value cannot be written,
      as a [RangeError] of the run time on a value nested too deeply for
      the call stack. *)
  cbor_encode : jsval -> result (list byte);
  (** [JSON.parse(text)]; throws a [SyntaxError]. *)
  JSON_parse : string -> result jsval;
  (** [JSON.stringify(value, null, 2)]: [undefined] ([None]) for a value
      that has no JSON text; can throw (on a [BigInt]). *)
  JSON_stringify : jsval -> result (option string);
  (** [Base64.toUint8Array(text)] of js-base64 *)
  Base64_toUint8Array : string -> result (list byte);
  (** [Base64.fromUint8Array(bytes)] of js-base64 *)
  Base64_fromUint8Array : list byte -> string;
  (** [buffer.toString('utf8')] *)
  Buffer_toString_utf8 : list byte -> string;
  (** [message.toBuffer()] of [Base64Message] *)
  Base64Message_toBuffer : Base64Message -> result (list byte);
  (** [Base64Message.fromString(text)], applied to what
      [JSON.stringify] returned *)
  Base64Message_fromString : option string -> result Base64Message
}.

(* ===================================================================== *)
(** * CborDecoder.ts *)

Module CborDecoder.
Section WithLib.
Context {L : JsLib}.

Definition formats : list string := ["CBOR"].

(** [function isCoseSign1(decoded: any): boolean] *)
Definition isCoseSign1 (decoded : jsval) : bool :=
  let coseArray :=
    if Js.truthy decoded && Js.typeof_object decoded
       && Js.has_prop "tag" decoded && Js.has_prop "value" decoded
    then
      if Js.strict_eq_num (Js.get_prop "tag" decoded) 18
         || Js.strict_eq_num (Js.get_prop "tag" decoded) 98
      then Js.get_prop "value" decoded
      else decoded
    else decoded in
  match coseArray with
  | JArr items =>
      (Nat.eqb (List.length items) 4)
      && (Js.instanceof_Uint8Array (nth 0 items JUndefined)
          || Js.instanceof_Buffer (nth 0 items JUndefined))
      && Js.typeof_object (nth 1 items JUndefined)
      && negb (Js.is_null (nth 1 items JUndefined))
      && negb (Js.Array_isArray (nth 1 items JUndefined))
      && negb (Js.instanceof_Uint8Array (nth 1 items JUndefined))
      && negb (Js.instanceof_Buffer (nth 1 items JUndefined))
      && (Js.instanceof_Uint8Array (nth 2 items JUndefined)
          || Js.instanceof_Buffer (nth 2 items JUndefined)
          || Js.is_null (nth 2 items JUndefined))
      && (Js.instanceof_Uint8Array (nth 3 items JUndefined)
          || Js.instanceof_Buffer (nth 3 items JUndefined))
  | _ => false
  end.

(** The regular expression [/[\x00-\x08\x0E-\x1F\x7F-\x9F]/] tested on
    a text kept as UTF-8: a byte 00-08, 0E-1F or 7F, or one of the code
    points U+0080..U+009F, which UTF-8 writes C2 80 .. C2 9F. *)
Fixpoint has_control_char (s : list byte) : bool :=
  match s with
  | [] => false
  | c :: rest =>
      let n := byte_to_Z c in
      (n <=? 8) || ((14 <=? n) && (n <=? 31)) || (n =? 127)
      || match rest with
         | d :: _ =>
             (n =? 194) && (128 <=? byte_to_Z d) && (byte_to_Z d <=? 159)
         | [] => false
         end
      || has_control_char rest
  end.

(** The [protected_headers] entry: the nested CBOR of the first
    element, [{}] when it is empty, an error marker with at most 32 raw
    bytes when it does not decode. *)
Definition protected_headers_of (protectedBytes : jsval) : result jsval :=
  try_or
    (len <- Js.length_of protectedBytes ;;
     if Js.gt0 len then
       buf <- Js.Buffer_from protectedBytes ;;
       protectedDecoded <- cbor_decode buf ;;
       Ok protectedDecoded
     else Ok (JObj []))
    (fun _ =>
       head <- Js.slice0 32 protectedBytes ;;
       raw <- Js.Array_from head ;;
       Ok (JObj [("_decode_error", JStr "Failed to decode protected headers");
                 ("_raw_bytes", raw)])).

(** The [payload] entry: nested CBOR, else printable text, else a
    length and a preview of at most 32 bytes; [null] when the payload
    is [null] or empty. *)
Definition payload_of (payloadBytes : jsval) : result jsval :=
  nonempty <- (if Js.is_null payloadBytes then Ok false
               else len <- Js.length_of payloadBytes ;; Ok (Js.gt0 len)) ;;
  if nonempty : bool then
    try_or
      (buf <- Js.Buffer_from payloadBytes ;;
       payloadDecoded <- cbor_decode buf ;;
       Ok (JObj [("_type", JStr "cbor"); ("_decoded", payloadDecoded)]))
      (fun _ =>
         try_or
           (buf <- Js.Buffer_from payloadBytes ;;
            let payloadString := Buffer_toString_utf8 buf in
            if negb (String.eqb payloadString "")
               && negb (has_control_char (list_byte_of_string payloadString))
            then Ok (JObj [("_type", JStr "string");
                           ("_decoded", JStr payloadString)])
            else Throw (JsError "Not printable text"))
           (fun _ =>
              len <- Js.length_of payloadBytes ;;
              head <- Js.slice0 32 payloadBytes ;;
              preview <- Js.Array_from head ;;
              Ok (JObj [("_type", JStr "binary");
                        ("_length", len);
                        ("_preview", preview)])))
  else Ok JNull.

(** [function parseCoseSign1(decoded: any): any] *)
Definition parseCoseSign1 (decoded : jsval) : jsval :=
  try_catch
    (let '(tag, coseArray) :=
       if Js.truthy decoded && Js.typeof_object decoded
          && Js.has_prop "tag" decoded && Js.has_prop "value" decoded
       then (Js.get_prop "tag" decoded, Js.get_prop "value" decoded)
       else (JNull, decoded) in
     elements <- Js.destructure4 coseArray ;;
     let '(protectedBytes, unprotectedHeaders, payloadBytes, signatureBytes)
       := elements in
     sigLength <- Js.length_of signatureBytes ;;
     sigHead <- Js.slice0 16 signatureBytes ;;
     sigPreview <- Js.Array_from sigHead ;;
     protected <- protected_headers_of protectedBytes ;;
     payload <- payload_of payloadBytes ;;
     Ok (JObj [("_cose_structure", JStr "COSE_Sign1");
               ("_cbor_tag", tag);
               ("protected_headers", protected);
               ("unprotected_headers", unprotectedHeaders);
               ("payload", payload);
               ("signature_info",
                 JObj [("length", sigLength); ("preview", sigPreview)])]))
    (fun e =>
       JObj [("_cose_structure", JStr "COSE_Sign1");
             ("_parse_error", JStr "Failed to parse COSE Sign1 structure");
             ("_error_details", JStr (error_message e));
             ("_raw_structure", decoded)]).

(** The value that [decode] hands to [JSON.stringify]: the diagnostic
    object of a COSE Sign1 message, the decoded tree otherwise. *)
Definition rendered_structure (decoded : jsval) : jsval :=
  if isCoseSign1 decoded then parseCoseSign1 decoded else decoded.

(** [canDecodeData(data: Base64Message): boolean] *)
Definition canDecodeData (data : Base64Message) : bool :=
  try_catch
    (buffer <- Base64Message_toBuffer data ;;
     match buffer with
     | [] => Ok false
     | firstByte :: _ =>
         let majorType := Z.land (Z.shiftr (byte_to_Z firstByte) 5) 7 in
         if (majorType <? 0) || (majorType >? 7) then Ok false
         else
           _ <- cbor_decode buffer ;;
           Ok true
     end)
    (fun _ => false).

(** [decode(input: Base64Message, format?: CborFormats | string)] *)
Definition decode (input : Base64Message) (format : option string)
  : DecoderEnvelope :=
  try_catch
    (buffer <- Base64Message_toBuffer input ;;
     decoded <- cbor_decode buffer ;;
     if isCoseSign1 decoded then
       let coseStructure := parseCoseSign1 decoded in
       jsonString <- JSON_stringify coseStructure ;;
       msg <- Base64Message_fromString jsonString ;;
       Ok {| message := Some msg; error := None; decoder := CBOR |}
     else
       jsonString <- JSON_stringify decoded ;;
       msg <- Base64Message_fromString jsonString ;;
       Ok {| message := Some msg; error := None; decoder := CBOR |})
    (fun e =>
       {| message := None;
          error := Some ("Failed to decode CBOR: " ++ error_message e);
          decoder := NONE |}).

End WithLib.
End CborDecoder.

(* ===================================================================== *)
(** * CborCoseEncoder.ts *)

(** The double quote character, and a text between double quotes. *)
Definition dquote : string := String "034"%char EmptyString.
Definition quoted (s : string) : string := dquote ++ s ++ dquote.

Module HexText.

Definition is_hex_digit (c : ascii) : bool :=
  let n := Z.of_nat (nat_of_ascii c) in
  ((48 <=? n) && (n <=? 57)) || ((65 <=? n) && (n <=? 70))
  || ((97 <=? n) && (n <=? 102)).

Definition hex_value (c : ascii) : Z :=
  let n := Z.of_nat (nat_of_ascii c) in
  if (48 <=? n) && (n <=? 57) then n - 48
  else if (65 <=? n) && (n <=? 70) then n - 55
  else n - 87.

(** [s.replace(/^0x/, '')] *)
Definition strip_0x (s : string) : string :=
  match s with
  | String "0" (String "x" rest) => rest
  | _ => s
  end.

(** Number of leading bytes that write one white space character of
    the class [\s] in UTF-8 (0 when the text does not start with one):
    tab, line feed, vertical tab, form feed, carriage return, space,
    U+00A0, U+1680, U+2000..U+200A, U+2028, U+2029, U+202F, U+205F,
    U+3000 and U+FEFF. *)
Definition space_width (s : string) : nat :=
  match s with
  | EmptyString => 0%nat
  | String c rest =>
      let n := nat_of_ascii c in
      if ((9 <=? n) && (n <=? 13))%nat || (n =? 32)%nat then 1%nat
      else
        match rest with
        | String d rest' =>
            let m := nat_of_ascii d in
            if (n =? 194)%nat && (m =? 160)%nat then 2%nat
            else
              match rest' with
              | String e _ =>
                  let k := nat_of_ascii e in
                  if ((n =? 225) && (m =? 154) && (k =? 128))%nat
                     || ((n =? 226) && (m =? 128)
                         && (((128 <=? k) && (k <=? 138))
                             || (k =? 168) || (k =? 169) || (k =? 175)))%nat
                     || ((n =? 226) && (m =? 129) && (k =? 159))%nat
                     || ((n =? 227) && (m =? 128) && (k =? 128))%nat
                     || ((n =? 239) && (m =? 187) && (k =? 191))%nat
                  then 3%nat else 0%nat
              | EmptyString => 0%nat
              end
        | EmptyString => 0%nat
        end
  end.

(** [s.replace(/\s/g, '')]; [skip] counts the bytes still to drop of
    the white space character being removed. *)
Fixpoint strip_spaces_from (skip : nat) (s : string) : string :=
  match s with
  | EmptyString => EmptyString
  | String c rest =>
      match skip with
      | S k => strip_spaces_from k rest
      | O =>
          match space_width s with
          | O => String c (strip_spaces_from 0 rest)
          | S k => strip_spaces_from k rest
          end
      end
  end.

Definition strip_spaces (s : string) : string := strip_spaces_from 0 s.

(** [/^[0-9A-Fa-f]*$/.test(s)] *)
Fixpoint all_hex (s : string) : bool :=
  match s with
  | EmptyString => true
  | String c rest => is_hex_digit c && all_hex rest
  end.

(** [s.match(/.{1,2}/g)?.map(byte => parseInt(byte, 16)) || []] on a
    text of hex digits: pairs of digits from the left, the last digit
    alone when the length is odd. *)
Fixpoint pairs (s : string) : list byte :=
  let to_byte (n : Z) : byte :=
    match Byte.of_N (Z.to_N n) with Some b => b | None => x00 end in
  match s with
  | EmptyString => []
  | String c EmptyString => [to_byte (hex_value c)]
  | String c (String d rest) =>
      to_byte (16 * hex_value c + hex_value d) :: pairs rest
  end.

End HexText.

Module CborCoseEncoder.

(** [interface EncodingResult] *)
Record EncodingResult : Type := mkResult {
  success : bool;
  data : option string;
  error : option string
}.

Definition failure (msg : string) : EncodingResult :=
  {| success := false; data := None; error := Some msg |}.

(** The result of a successful encoding, and the results of the outer
    [catch] of [encodeCbor] and of [encodeCoseSign1]. *)
Definition encoded (base64String : string) : EncodingResult :=
  {| success := true; data := Some base64String; error := None |}.

Definition cbor_encoding_failed (e : exn) : EncodingResult :=
  failure ("CBOR encoding failed: " ++ error_message e).

Definition cose_encoding_failed (e : exn) : EncodingResult :=
  failure ("COSE Sign1 encoding failed: " ++ error_message e).

Definition invalid_json_message : string :=
  "COSE input must be valid JSON with structure: {"
  ++ quoted "protected_headers" ++ ": {...}, "
  ++ quoted "unprotected_headers" ++ ": {...}, "
  ++ quoted "payload" ++ ": {...}, "
  ++ quoted "signature" ++ ": " ++ quoted "..." ++ "}".

Definition not_object_message : string := "COSE input must be a JSON object".

Definition missing_payload_message : string :=
  "COSE input must contain a " ++ quoted "payload" ++ " field".

Definition bad_signature_message : string :=
  "Signature must be valid base64 or hex string".

Section WithLib.
Context {L : JsLib}.

(** [export function encodeCbor(input: string): EncodingResult] *)
Definition encodeCbor (input : string) : EncodingResult :=
  try_catch
    (data <- try_or (JSON_parse input) (fun _ => Ok (JStr input)) ;;
     cborBuffer <- cbor_encode data ;;
     let base64String := Base64_fromUint8Array cborBuffer in
     Ok {| success := true; data := Some base64String; error := None |})
    (fun e => failure ("CBOR encoding failed: " ++ error_message e)).

(** [Base64.toUint8Array(coseData.signature)]: js-base64 starts with
    [signature.replace(...)], a [TypeError] when the signature is not a
    string. *)
Definition signature_from_base64 (signature : jsval) : result (list byte) :=
  match signature with
  | JStr s => Base64_toUint8Array s
  | _ => Throw (TypeError "a.replace is not a function")
  end.

(** The hex attempt of [encodeCoseSign1]. *)
Definition signature_from_hex (signature : jsval) : result (list byte) :=
  match signature with
  | JStr s =>
      let hexString := HexText.strip_spaces (HexText.strip_0x s) in
      if negb (HexText.all_hex hexString)
      then Throw (JsError "Invalid hex format")
      else Ok (HexText.pairs hexString)
  | _ => Throw (TypeError "coseData.signature.replace is not a function")
  end.

(** The [signatureBytes] of [encodeCoseSign1]: [inl] is the early
    return of the inner [catch]. *)
Definition signature_bytes (signature : jsval)
  : EncodingResult + list byte :=
  if Js.truthy signature then
    match signature_from_base64 signature with
    | Ok bs => inr bs
    | Throw _ =>
        match signature_from_hex signature with
        | Ok bs => inr bs
        | Throw _ => inl (failure bad_signature_message)
        end
    end
  else inr [].

(** [a || {}] *)
Definition or_empty_object (a : jsval) : jsval :=
  if Js.truthy a then a else JObj [].

(** The tagged value [new cbor.Tagged(18, coseArray)] that
    [encodeCoseSign1] encodes, on
    [[protectedBytes, unprotectedHeaders, payloadBytes, signatureBytes]]. *)
Definition taggedCose (protectedBytes : list byte) (unprotectedHeaders : jsval)
           (payloadBytes signatureBytes : list byte) : jsval :=
  let coseArray :=
    [JBytes protectedBytes; unprotectedHeaders;
     JBytes payloadBytes; JBytes signatureBytes] in
  JTagged 18 (JArr coseArray).

(** [export function encodeCoseSign1(input: string): EncodingResult] *)
Definition encodeCoseSign1 (input : string) : EncodingResult :=
  try_catch
    (match JSON_parse input with
     | Throw _ => Ok (failure invalid_json_message)
     | Ok coseData =>
         if negb (Js.truthy coseData) || negb (Js.typeof_object coseData)
         then Ok (failure not_object_message)
         else if negb (Js.has_prop "payload" coseData)
         then Ok (failure missing_payload_message)
         else
           let protectedHeaders :=
             or_empty_object (Js.get_prop "protected_headers" coseData) in
           let unprotectedHeaders :=
             or_empty_object (Js.get_prop "unprotected_headers" coseData) in
           protectedBytes <- cbor_encode protectedHeaders ;;
           payloadBytes <- cbor_encode (Js.get_prop "payload" coseData) ;;
           match signature_bytes (Js.get_prop "signature" coseData) with
           | inl early => Ok early
           | inr signatureBytes =>
               cborBuffer <-
                 cbor_encode (taggedCose protectedBytes unprotectedHeaders
                                payloadBytes signatureBytes) ;;
               let base64String := Base64_fromUint8Array cborBuffer in
               Ok {| success := true; data := Some base64String;
                     error := None |}
           end
     end)
    (fun e => failure ("COSE Sign1 encoding failed: " ++ error_message e)).

(** [export function formatCoseTemplate(existingPayload?: string): string] *)
Definition formatCoseTemplate (existingPayload : option string)
  : result (option string) :=
  let example := JObj [("example", JStr "data"); ("value", JNum 42)] in
  let payload :=
    match existingPayload with
    | Some text =>
        if Js.truthy (JStr text)
        then try_catch (JSON_parse text) (fun _ => example)
        else example
    | None => example
    end in
  let coseTemplate :=
    JObj [("protected_headers", JObj [("alg", JNum (-7))]);
          ("unprotected_headers", JObj [("kid", JStr "key-1")]);
          ("payload", payload);
          ("signature", JStr "AABBCCDDEEFF")] in
  JSON_stringify coseTemplate.

End WithLib.
End CborCoseEncoder.

(* ===================================================================== *)
(** * Decoder registry and resolution *)

(** Modelled from the spec: the interface [MessageDecoder]
    ([app/src/decoders/MessageDecoder]): the format identifiers a decoder
    declares, an optional topic-name predicate, an optional byte-sniffing
    predicate and the decode operation. *)
Record MessageDecoder : Type := mkDecoder {
  formats : list string;
  canDecodeTopic : option (string -> bool);
  canDecodeData : option (Base64Message -> bool);
  decode : Base64Message -> option string -> DecoderEnvelope
}.

(** [type TopicDecoder = { decoder: MessageDecoder; format: string | undefined }] *)
Record TopicDecoder : Type := mkTopicDecoder {
  td_decoder : MessageDecoder;
  td_format : option string
}.

(** The part of [q.Message] and [q.TreeNode] that resolution reads:
    [node.path()] and [node.message?.payload]. *)
Record Message : Type := mkMessage { payload : option Base64Message }.

Record TreeNode : Type := mkTreeNode {
  path : string;
  node_message : option Message;
  viewModel_linked : bool
}.

Definition CborDecoder_object {L : JsLib} : MessageDecoder :=
  {| formats := CborDecoder.formats;
     canDecodeTopic := None;
     canDecodeData := Some CborDecoder.canDecodeData;
     decode := CborDecoder.decode |}.

Section Registry.
Context {L : JsLib}.
(** The decoders of [StringDecoder.ts], [BinaryDecoder.ts] and
    [SparkplugBDecoder.ts]. *)
Variables SparkplugDecoder BinaryDecoder StringDecoder : MessageDecoder.

(** [export const decoders = [SparkplugDecoder, CborDecoder, BinaryDecoder, StringDecoder]] *)
Definition decoders : list MessageDecoder :=
  [SparkplugDecoder; CborDecoder_object; BinaryDecoder; StringDecoder].

(** [decoder.canDecodeTopic?.(path)] as a condition *)
Definition topic_matches (d : MessageDecoder) (p : string) : bool :=
  match canDecodeTopic d with
  | Some f => f p
  | None => false
  end.

(** [node.message?.payload && decoder.canDecodeData?.(node.message?.payload)]
    as a condition *)
Definition data_matches (d : MessageDecoder) (m : option Message) : bool :=
  match m with
  | Some msg =>
      match payload msg with
      | Some p =>
          match canDecodeData d with
          | Some f => f p
          | None => false
          end
      | None => false
      end
  | None => false
  end.

(** The callback given to [decoders.find]. *)
Definition decoder_matches (node : TreeNode) (d : MessageDecoder) : bool :=
  topic_matches d (path node) || data_matches d (node_message node).

(** [function findDecoder(node): TopicDecoder | undefined], over a
    registry. *)
Definition findDecoderIn (registry : list MessageDecoder) (node : TreeNode)
  : option TopicDecoder :=
  match List.find (decoder_matches node) registry with
  | Some d => Some {| td_decoder := d; td_format := List.hd_error (formats d) |}
  | None => None
  end.

Definition findDecoder (node : TreeNode) : option TopicDecoder :=
  findDecoderIn decoders node.

End Registry.

(* ===================================================================== *)
(** * The view model of a topic and its decoder cache *)

Module TopicViewModel.

(** The fields of [class TopicViewModel].  [owner] tells whether the
    view model still points to its tree node; the event dispatchers are
    kept in the [World] below. *)
Record t : Type := mkViewModel {
  selected : bool;
  expanded : bool;
  owner : bool;
  _decoder : option TopicDecoder;
  referenceCounter : Z
}.

(** A tree node, its view model, the callbacks scheduled with
    [setTimeout(..., 0)] and the calls of [onDecoderChange.dispatch]
    made so far, oldest first. *)
Record World : Type := mkWorld {
  node : TreeNode;
  vm : t;
  timers : list TopicDecoder;
  dispatched : list (option TopicDecoder)
}.

Definition with_decoder (d : option TopicDecoder) (v : t) : t :=
  {| selected := selected v; expanded := expanded v; owner := owner v;
     _decoder := d; referenceCounter := referenceCounter v |}.

(** [public constructor(treeNode)]: it subscribes to nothing (the
    subscription to [treeNode.onMessage] is commented out). *)
Definition constructor : t :=
  {| selected := false; expanded := false; owner := true;
     _decoder := None; referenceCounter := 0 |}.

Section WithRegistry.
Context {L : JsLib}.
Variables SparkplugDecoder BinaryDecoder StringDecoder : MessageDecoder.

Let resolve : TreeNode -> option TopicDecoder :=
  findDecoder SparkplugDecoder BinaryDecoder StringDecoder.

(** [get decoder(): TopicDecoder | undefined] *)
Definition get_decoder (w : World) : option TopicDecoder * World :=
  match _decoder (vm w) with
  | Some d => (Some d, w)
  | None =>
      let newDecoder := if owner (vm w) then resolve (node w) else None in
      match newDecoder with
      | Some d =>
          (Some d,
           {| node := node w; vm := with_decoder (Some d) (vm w);
              timers := timers w ++ [d]; dispatched := dispatched w |})
      | None => (None, w)
      end
  end.

(** [set decoder(override: TopicDecoder | undefined)] *)
Definition set_decoder (override : option TopicDecoder) (w : World) : World :=
  {| node := node w; vm := with_decoder override (vm w);
     timers := timers w; dispatched := dispatched w ++ [override] |}.

(** A scheduled callback [() => this.onDecoderChange.dispatch(newDecoder)]
    runs. *)
Definition run_timer (w : World) : World :=
  match timers w with
  | [] => w
  | d :: rest =>
      {| node := node w; vm := vm w; timers := rest;
         dispatched := dispatched w ++ [Some d] |}
  end.

(** A message arrives on the topic: the tree node holds it as its
    latest message; nothing of the view model listens. *)
Definition message_arrives (m : Message) (w : World) : World :=
  {| node := {| path := path (node w); node_message := Some m;
                viewModel_linked := viewModel_linked (node w) |};
     vm := vm w; timers := timers w; dispatched := dispatched w |}.

(** [public destroy()] *)
Definition destroy (w : World) : World :=
  if owner (vm w) then
    {| node := {| path := path (node w);
                  node_message := node_message (node w);
                  viewModel_linked := false |};
       vm := {| selected := selected (vm w); expanded := expanded (vm w);
                owner := false; _decoder := _decoder (vm w);
                referenceCounter := referenceCounter (vm w) |};
       timers := timers w; dispatched := dispatched w |}
  else w.

(** [public retain()] *)
Definition retain (w : World) : World :=
  {| node := node w;
     vm := {| selected := selected (vm w); expanded := expanded (vm w);
              owner := owner (vm w); _decoder := _decoder (vm w);
              referenceCounter := referenceCounter (vm w) + 1 |};
     timers := timers w; dispatched := dispatched w |}.

(** [public release()] *)
Definition release (w : World) : World :=
  let w' :=
    {| node := node w;
       vm := {| selected := selected (vm w); expanded := expanded (vm w);
                owner := owner (vm w); _decoder := _decoder (vm w);
                referenceCounter := referenceCounter (vm w) - 1 |};
       timers := timers w; dispatched := dispatched w |} in
  if referenceCounter (vm w') <=? 0 then destroy w' else w'.

(** [public setSelected(selected)] and [public setExpanded(expanded, fireEvent)] *)
Definition setSelected (b : bool) (w : World) : World :=
  {| node := node w;
     vm := {| selected := b; expanded := expanded (vm w);
              owner := owner (vm w); _decoder := _decoder (vm w);
              referenceCounter := referenceCounter (vm w) |};
     timers := timers w; dispatched := dispatched w |}.

Definition setExpanded (b fireEvent : bool) (w : World) : World :=
  {| node := node w;
     vm := {| selected := selected (vm w); expanded := b;
              owner := owner (vm w); _decoder := _decoder (vm w);
              referenceCounter := referenceCounter (vm w) |};
     timers := timers w; dispatched := dispatched w |}.

(** What can happen to a view model and its node. *)
Inductive event : Type :=
| ReadDecoder
| WriteDecoder (override : option TopicDecoder)
| MessageArrives (m : Message)
| TimerFires
| Retain
| Release
| Destroy
| SetSelected (b : bool)
| SetExpanded (b fireEvent : bool).

(** One event; a read of the [decoder] property yields its value. *)
Definition step (e : event) (w : World)
  : option (option TopicDecoder) * World :=
  match e with
  | ReadDecoder => let '(d, w') := get_decoder w in (Some d, w')
  | WriteDecoder o => (None, set_decoder o w)
  | MessageArrives m => (None, message_arrives m w)
  | TimerFires => (None, run_timer w)
  | Retain => (None, retain w)
  | Release => (None, release w)
  | Destroy => (None, destroy w)
  | SetSelected b => (None, setSelected b w)
  | SetExpanded b f => (None, setExpanded b f w)
  end.

(** A sequence of events: the values of the reads, in order, and the
    final world. *)
Fixpoint run (es : list event) (w : World)
  : list (option TopicDecoder) * World :=
  match es with
  | [] => ([], w)
  | e :: rest =>
      let '(r, w') := step e w in
      let '(rs, w'') := run rest w' in
      (match r with Some d => d :: rs | None => rs end, w'')
  end.

Definition is_write (e : event) : bool :=
  match e with WriteDecoder _ => true | _ => false end.

End WithRegistry.
End TopicViewModel.

(* ===================================================================== *)
(** * An executable instance of the libraries

    The modules below give the library calls of [JsLib] a definition, so
    that the embedded code runs on concrete inputs: the base64 alphabet
    of js-base64 and of [Buffer], the CBOR data items of RFC 8949 that
    [jsval] represents, and [JSON.parse] / [JSON.stringify] on those
    values.  Texts are kept as their UTF-8 bytes. *)

Definition byte_of_Z (z : Z) : byte :=
  match Byte.of_N (Z.to_N (z mod 256)) with
  | Some b => b
  | None => x00
  end.

Definition bytes_of_string (s : string) : list byte := list_byte_of_string s.
Definition string_of_bytes (bs : list byte) : string := string_of_list_byte bs.

Module Base64.

(** The character of a 6-bit value in the alphabet [A-Za-z0-9+/]. *)
Definition char_of (n : Z) : byte :=
  if n <? 26 then byte_of_Z (65 + n)
  else if n <? 52 then byte_of_Z (97 + (n - 26))
  else if n <? 62 then byte_of_Z (48 + (n - 52))
  else if n =? 62 then byte_of_Z 43
  else byte_of_Z 47.

(** The 6-bit value of a character; [-] and [_] are the URL-safe
    spellings of [+] and [/]. *)
Definition index_of (c : byte) : option Z :=
  let n := byte_to_Z c in
  if (65 <=? n) && (n <=? 90) then Some (n - 65)
  else if (97 <=? n) && (n <=? 122) then Some (n - 97 + 26)
  else if (48 <=? n) && (n <=? 57) then Some (n - 48 + 52)
  else if (n =? 43) || (n =? 45) then Some 62
  else if (n =? 47) || (n =? 95) then Some 63
  else None.

Definition pad : byte := byte_of_Z 61.

(** Standard base64 with padding: [Base64.fromUint8Array(bytes)] and
    [buffer.toString('base64')]. *)
Fixpoint encode_bytes (bs : list byte) : list byte :=
  match bs with
  | [] => []
  | [a] =>
      let x := byte_to_Z a in
      [char_of (x / 4); char_of ((x mod 4) * 16); pad; pad]
  | [a; b] =>
      let x := byte_to_Z a in
      let y := byte_to_Z b in
      [char_of (x / 4); char_of ((x mod 4) * 16 + y / 16);
       char_of ((y mod 16) * 4); pad]
  | a :: b :: c :: rest =>
      let x := byte_to_Z a in
      let y := byte_to_Z b in
      let z := byte_to_Z c in
      char_of (x / 4) :: char_of ((x mod 4) * 16 + y / 16)
      :: char_of ((y mod 16) * 4 + z / 64) :: char_of (z mod 64)
      :: encode_bytes rest
  end.

Definition encode (bs : list byte) : string :=
  string_of_bytes (encode_bytes bs).

(** The 6-bit values of the alphabet characters of a text, the other
    characters dropped: what is left after [_tidyB64] of js-base64. *)
Fixpoint sextets (cs : list byte) : list Z :=
  match cs with
  | [] => []
  | c :: rest =>
      match index_of c with
      | Some n => n :: sextets rest
      | None => sextets rest
      end
  end.

(** The same up to the first padding character: the input of
    [Buffer.from(text, 'base64')] as far as it is read (the texts the
    code builds carry their padding at the end). *)
Fixpoint sextets_to_pad (cs : list byte) : list Z :=
  match cs with
  | [] => []
  | c :: rest =>
      if Byte.eqb c pad then []
      else
        match index_of c with
        | Some n => n :: sextets_to_pad rest
        | None => sextets_to_pad rest
        end
  end.

(** Four 6-bit values give three bytes; a last group of two or three
    gives one or two bytes, a single left over value gives none. *)
Fixpoint bytes_of_sextets (ns : list Z) : list byte :=
  match ns with
  | p :: q :: r :: s :: rest =>
      byte_of_Z (p * 4 + q / 16) :: byte_of_Z ((q mod 16) * 16 + r / 4)
      :: byte_of_Z ((r mod 4) * 64 + s) :: bytes_of_sextets rest
  | [p; q; r] =>
      [byte_of_Z (p * 4 + q / 16); byte_of_Z ((q mod 16) * 16 + r / 4)]
  | [p; q] => [byte_of_Z (p * 4 + q / 16)]
  | _ => []
  end.

(** [Buffer.from(text, 'base64')]: it never throws. *)
Definition Buffer_from_base64 (text : string) : list byte :=
  bytes_of_sextets (sextets_to_pad (bytes_of_string text)).

(** [Base64.toUint8Array(text)] of js-base64 where [Buffer] exists:
    [Buffer.from(_tidyB64(_unURI(text)), 'base64')]; it never throws
    on a string. *)
Definition toUint8Array (text : string) : list byte :=
  bytes_of_sextets (sextets (bytes_of_string text)).

(** The alphabet reads back: a character of the alphabet has its own
    6-bit value and is not the padding character. *)
Definition char_ok (n : Z) : bool :=
  match index_of (char_of n) with
  | Some m => (m =? n) && negb (Byte.eqb (char_of n) pad)
  | None => false
  end.

End Base64.

Module Cbor.

Local Open Scope list_scope.

(** [k] bytes, most significant first, of a number. *)
Fixpoint be_bytes (k : nat) (n : Z) : list byte :=
  match k with
  | O => []
  | S k' => be_bytes k' (n / 256) ++ [byte_of_Z n]
  end.

(** The number that bytes write, most significant first. *)
Definition be_value (bs : list byte) : Z :=
  fold_left (fun acc b => acc * 256 + byte_to_Z b) bs 0.

(** The head of a data item: major type and argument (RFC 8949, 3). *)
Definition head (major n : Z) : list byte :=
  if n <? 24 then [byte_of_Z (major * 32 + n)]
  else if n <? 256 then byte_of_Z (major * 32 + 24) :: be_bytes 1 n
  else if n <? 65536 then byte_of_Z (major * 32 + 25) :: be_bytes 2 n
  else if n <? 4294967296 then byte_of_Z (major * 32 + 26) :: be_bytes 4 n
  else byte_of_Z (major * 32 + 27) :: be_bytes 8 n.

Definition len {A : Type} (l : list A) : Z := Z.of_nat (List.length l).

(** Number of bytes an unsigned big number takes. *)
Definition byte_length (n : Z) : nat :=
  if n =? 0 then 0%nat else Z.to_nat (Z.log2 n / 8 + 1).

Definition two64 : Z := 18446744073709551616.

(** [Number.MAX_SAFE_INTEGER + 1] *)
Definition two53 : Z := 9007199254740992.

(** [cbor.encode(value)].  A number outside the safe integer range,
    which the package writes as a float, and sizes beyond 64 bits are
    not covered: see [encodable] below. *)
Fixpoint encode (v : jsval) : list byte :=
  match v with
  | JUndefined => [byte_of_Z 247]
  | JNull => [byte_of_Z 246]
  | JBool true => [byte_of_Z 245]
  | JBool false => [byte_of_Z 244]
  | JNum n => if 0 <=? n then head 0 n else head 1 (-1 - n)
  | JBigInt n =>
      if (0 <=? n) && (n <? two64) then head 0 n
      else if (n <? 0) && (- two64 <=? n) then head 1 (-1 - n)
      else if 0 <=? n then
        head 6 2 ++ head 2 (Z.of_nat (byte_length n))
        ++ be_bytes (byte_length n) n
      else
        head 6 3 ++ head 2 (Z.of_nat (byte_length (-1 - n)))
        ++ be_bytes (byte_length (-1 - n)) (-1 - n)
  | JStr s => head 3 (len (bytes_of_string s)) ++ bytes_of_string s
  | JBytes bs => head 2 (len bs) ++ bs
  | JArr items =>
      head 4 (len items)
      ++ (fix each (l : list jsval) : list byte :=
            match l with
            | [] => []
            | x :: rest => encode x ++ each rest
            end) items
  | JObj props =>
      head 5 (len props)
      ++ (fix each (l : list (string * jsval)) : list byte :=
            match l with
            | [] => []
            | (k, x) :: rest =>
                (head 3 (len (bytes_of_string k)) ++ bytes_of_string k)
                ++ encode x ++ each rest
            end) props
  | JMap entries =>
      head 5 (len entries)
      ++ (fix each (l : list (jsval * jsval)) : list byte :=
            match l with
            | [] => []
            | (k, x) :: rest => encode k ++ encode x ++ each rest
            end) entries
  | JTagged t x => head 6 t ++ encode x
  end.

(** The levels of arrays, objects and tags a value is nested in:
    [cbor.encode] calls itself once for each. *)
Fixpoint depth (v : jsval) : nat :=
  match v with
  | JArr items =>
      S ((fix deepest (l : list jsval) : nat :=
            match l with
            | [] => 0%nat
            | x :: rest => Nat.max (depth x) (deepest rest)
            end) items)
  | JObj props =>
      S ((fix deepest (l : list (string * jsval)) : nat :=
            match l with
            | [] => 0%nat
            | (_, x) :: rest => Nat.max (depth x) (deepest rest)
            end) props)
  | JMap entries =>
      S ((fix deepest (l : list (jsval * jsval)) : nat :=
            match l with
            | [] => 0%nat
            | (k, x) :: rest =>
                Nat.max (Nat.max (depth k) (depth x)) (deepest rest)
            end) entries)
  | JTagged _ x => S (depth x)
  | _ => 0%nat
  end.

(** What [encode] below writes as the package does: the sizes fit the
    64 bits of a CBOR argument and the numbers are safe integers (the
    package writes a number beyond them as a float, which is not part
    of the model). *)
Fixpoint fits (v : jsval) : bool :=
  match v with
  | JNum n => (- two53 <=? n) && (n <? two53)
  | JStr s => len (bytes_of_string s) <? two64
  | JBytes bs => len bs <? two64
  | JArr items =>
      (len items <? two64)
      && (fix all (l : list jsval) : bool :=
            match l with
            | [] => true
            | x :: rest => fits x && all rest
            end) items
  | JObj props =>
      (len props <? two64)
      && (fix all (l : list (string * jsval)) : bool :=
            match l with
            | [] => true
            | (k, x) :: rest =>
                (len (bytes_of_string k) <? two64) && fits x && all rest
            end) props
  | JMap entries =>
      (len entries <? two64)
      && (fix all (l : list (jsval * jsval)) : bool :=
            match l with
            | [] => true
            | (k, x) :: rest => fits k && fits x && all rest
            end) entries
  | JTagged _ x => fits x
  | _ => true
  end.

(** The nesting at which the call stack of the run time is exhausted.
    It depends on the size of the stack; with the stack Node.js has by
    default, [cbor.encode] of 10,000 nested arrays throws, and that is
    the depth taken here. *)
Definition stack_depth : nat := 10000.

Definition stack_overflow : exn :=
  RangeError "Maximum call stack size exceeded".

(** [cbor.encode(value)] as it is called: a [RangeError] on a value
    nested too deeply, the bytes of [encode] otherwise.  A value that
    [encode] does not cover has no bytes in the model. *)
Definition encode_checked (v : jsval) : result (list byte) :=
  if (stack_depth <=? depth v)%nat then Throw stack_overflow
  else if negb (fits v)
  then Throw (JsError "the value is outside the model of cbor.encode")
  else Ok (encode v).

(** The items of an array and the entries of a plain object, encoded
    one after the other. *)
Definition encode_items (items : list jsval) : list byte :=
  flat_map encode items.

Definition encode_props (props : list (string * jsval)) : list byte :=
  flat_map (fun kv => encode (JStr (fst kv)) ++ encode (snd kv)) props.

(** The head at the front of a buffer: major type, additional
    information, argument and the bytes after the head.  Additional
    information 28 to 31 (reserved values and indefinite lengths) is
    not part of the model and is refused. *)
Definition read_head (bs : list byte) : option (Z * Z * Z * list byte) :=
  match bs with
  | [] => None
  | b :: rest =>
      let major := byte_to_Z b / 32 in
      let info := byte_to_Z b mod 32 in
      let sized (k : nat) :=
        if (List.length rest <? k)%nat then None
        else Some (major, info, be_value (firstn k rest), skipn k rest) in
      if info <? 24 then Some (major, info, info, rest)
      else if info =? 24 then sized 1%nat
      else if info =? 25 then sized 2%nat
      else if info =? 26 then sized 4%nat
      else if info =? 27 then sized 8%nat
      else None
  end.

(** A plain object takes a value under a key: a key it has keeps its
    place and gets the new value; a new key goes last. *)
Fixpoint obj_set (k : string) (x : jsval) (props : list (string * jsval))
  : list (string * jsval) :=
  match props with
  | [] => [(k, x)]
  | (k', y) :: rest =>
      if String.eqb k k' then (k, x) :: rest
      else (k', y) :: obj_set k x rest
  end.

Definition is_string (v : jsval) : bool :=
  match v with JStr _ => true | _ => false end.

(** A decoded map: a plain object when every key is a text string, a
    [Map] otherwise. *)
Definition make_map (entries : list (jsval * jsval)) : jsval :=
  if forallb (fun kv => is_string (fst kv)) entries then
    JObj (fold_left
            (fun props kv =>
               match fst kv with
               | JStr k => obj_set k (snd kv) props
               | _ => props
               end) entries [])
  else JMap entries.

(** A decoded tag: tags 2 and 3 on a byte string are big numbers, a
    [BigInt]; any other tag is an instance of [Tagged].  (The tags for
    which the package builds another object, such as dates, are not
    told apart from unknown tags.) *)
Definition make_tagged (t : Z) (x : jsval) : jsval :=
  match x with
  | JBytes bs =>
      if t =? 2 then JBigInt (be_value bs)
      else if t =? 3 then JBigInt (-1 - be_value bs)
      else JTagged t x
  | _ => JTagged t x
  end.

Definition insufficient : exn := JsError "Insufficient data".

(** One data item at the front of a buffer, and the bytes after it.
    [decode_item], [decode_items] and [decode_entries] go down by one
    unit of [fuel] at every call. *)
Fixpoint decode_item (fuel : nat) (bs : list byte)
  : result (jsval * list byte) :=
  match fuel with
  | O => Throw insufficient
  | S fuel' =>
      match read_head bs with
      | None => Throw insufficient
      | Some (major, info, n, rest) =>
          if major =? 0 then
            Ok (if n <? two53 then JNum n else JBigInt n, rest)
          else if major =? 1 then
            Ok (if n <? two53 then JNum (-1 - n) else JBigInt (-1 - n), rest)
          else if major =? 2 then
            if len rest <? n then Throw insufficient
            else Ok (JBytes (firstn (Z.to_nat n) rest),
                     skipn (Z.to_nat n) rest)
          else if major =? 3 then
            if len rest <? n then Throw insufficient
            else Ok (JStr (string_of_bytes (firstn (Z.to_nat n) rest)),
                     skipn (Z.to_nat n) rest)
          else if major =? 4 then
            r <- decode_items fuel' n rest ;;
            Ok (JArr (fst r), snd r)
          else if major =? 5 then
            r <- decode_entries fuel' n rest ;;
            Ok (make_map (fst r), snd r)
          else if major =? 6 then
            r <- decode_item fuel' rest ;;
            Ok (make_tagged n (fst r), snd r)
          else
            if info =? 20 then Ok (JBool false, rest)
            else if info =? 21 then Ok (JBool true, rest)
            else if info =? 22 then Ok (JNull, rest)
            else if info =? 23 then Ok (JUndefined, rest)
            else Throw (JsError "simple values and floats are not modelled")
      end
  end
with decode_items (fuel : nat) (count : Z) (bs : list byte)
  : result (list jsval * list byte) :=
  match fuel with
  | O => Throw insufficient
  | S fuel' =>
      if count <=? 0 then Ok ([], bs)
      else
        r <- decode_item fuel' bs ;;
        rs <- decode_items fuel' (count - 1) (snd r) ;;
        Ok (fst r :: fst rs, snd rs)
  end
with decode_entries (fuel : nat) (count : Z) (bs : list byte)
  : result (list (jsval * jsval) * list byte) :=
  match fuel with
  | O => Throw insufficient
  | S fuel' =>
      if count <=? 0 then Ok ([], bs)
      else
        k <- decode_item fuel' bs ;;
        x <- decode_item fuel' (snd k) ;;
        rs <- decode_entries fuel' (count - 1) (snd x) ;;
        Ok ((fst k, fst x) :: fst rs, snd rs)
  end.

(** [cbor.decode(buffer)]: the first data item; bytes after it are an
    error. *)
Definition decode (bs : list byte) : result jsval :=
  r <- decode_item (3 * List.length bs) bs ;;
  match snd r with
  | [] => Ok (fst r)
  | _ :: _ => Throw (JsError "Unexpected data")
  end.

End Cbor.

Module Utf8.

Local Open Scope list_scope.

(** U+FFFD, the replacement character. *)
Definition replacement : list byte := map byte_of_Z [239; 191; 189].

Definition within (lo hi : Z) (b : byte) : bool :=
  (lo <=? byte_to_Z b) && (byte_to_Z b <=? hi).

(** The UTF-8 bytes of the first character of a buffer and the number
    of bytes read; an ill-formed sequence reads as [replacement]. *)
Definition first_char (b : byte) (rest : list byte) : list byte * nat :=
  let n := byte_to_Z b in
  let bad (used : nat) := (replacement, used) in
  if n <? 128 then ([b], 1%nat)
  else if within 194 223 b then
    match rest with
    | c :: _ => if within 128 191 c then ([b; c], 2%nat) else bad 1%nat
    | [] => bad 1%nat
    end
  else if within 224 239 b then
    let lo := if n =? 224 then 160 else 128 in
    let hi := if n =? 237 then 159 else 191 in
    match rest with
    | c :: rest2 =>
        if within lo hi c then
          match rest2 with
          | d :: _ =>
              if within 128 191 d then ([b; c; d], 3%nat) else bad 2%nat
          | [] => bad 2%nat
          end
        else bad 1%nat
    | [] => bad 1%nat
    end
  else if within 240 244 b then
    let lo := if n =? 240 then 144 else 128 in
    let hi := if n =? 244 then 143 else 191 in
    match rest with
    | c :: rest2 =>
        if within lo hi c then
          match rest2 with
          | d :: rest3 =>
              if within 128 191 d then
                match rest3 with
                | e :: _ =>
                    if within 128 191 e then ([b; c; d; e], 4%nat)
                    else bad 3%nat
                | [] => bad 3%nat
                end
              else bad 2%nat
          | [] => bad 2%nat
          end
        else bad 1%nat
    | [] => bad 1%nat
    end
  else bad 1%nat.

(** [buffer.toString('utf8')], the text kept as UTF-8; [skip] counts
    the bytes of the current character still to pass. *)
Fixpoint decode_from (skip : nat) (bs : list byte) : list byte :=
  match bs with
  | [] => []
  | b :: rest =>
      match skip with
      | S k => decode_from k rest
      | O =>
          let '(out, used) := first_char b rest in
          out ++ decode_from (Nat.pred used) rest
      end
  end.

Definition toString (bs : list byte) : string :=
  string_of_bytes (decode_from 0 bs).

(** The UTF-8 bytes of a code point of the basic plane. *)
Definition encode_code_point (cp : Z) : list byte :=
  if cp <? 128 then [byte_of_Z cp]
  else if cp <? 2048 then
    [byte_of_Z (192 + cp / 64); byte_of_Z (128 + cp mod 64)]
  else
    [byte_of_Z (224 + cp / 4096); byte_of_Z (128 + (cp / 64) mod 64);
     byte_of_Z (128 + cp mod 64)].

End Utf8.

Module Json.

Definition newline : string := String "010"%char EmptyString.
Definition backslash : string := String "092"%char EmptyString.

Definition number_text (n : Z) : string :=
  DecimalString.NilZero.string_of_int (Z.to_int n).

Definition hex_char (n : Z) : string :=
  String (ascii_of_nat (Z.to_nat (if n <? 10 then 48 + n else 87 + n)))
         EmptyString.

(** [QuoteJSONString] without its quotes. *)
Fixpoint escape (s : string) : string :=
  match s with
  | EmptyString => EmptyString
  | String c rest =>
      let n := Z.of_nat (nat_of_ascii c) in
      (if n =? 34 then backslash ++ dquote
       else if n =? 92 then backslash ++ backslash
       else if n =? 8 then backslash ++ "b"
       else if n =? 9 then backslash ++ "t"
       else if n =? 10 then backslash ++ "n"
       else if n =? 12 then backslash ++ "f"
       else if n =? 13 then backslash ++ "r"
       else if n <? 32 then
         backslash ++ "u00" ++ hex_char (n / 16) ++ hex_char (n mod 16)
       else String c EmptyString)
      ++ escape rest
  end.

Definition quote (s : string) : string := quoted (escape s).

Fixpoint join (sep : string) (l : list string) : string :=
  match l with
  | [] => EmptyString
  | [x] => x
  | x :: rest => x ++ sep ++ join sep rest
  end.

(** An array or an object at indentation [indent], its members already
    rendered one level deeper. *)
Definition block (opening closing indent : string) (members : list string)
  : string :=
  match members with
  | [] => opening ++ closing
  | _ =>
      opening ++ newline ++ indent ++ "  "
      ++ join ("," ++ newline ++ indent ++ "  ") members
      ++ newline ++ indent ++ closing
  end.

Definition member (k text : string) : string := quote k ++ ": " ++ text.

(** [SerializeJSONProperty] with a gap of two spaces.  [undefined] has
    no text ([None]): it reads [null] in an array and is left out of
    an object.  A [Buffer] is serialized through its [toJSON] and a
    [Tagged] through its fields [tag] and [value]; a [Map] has no
    enumerable property; a [BigInt] throws. *)
Fixpoint stringify_at (indent : string) (v : jsval) : result (option string) :=
  match v with
  | JUndefined => Ok None
  | JNull => Ok (Some "null")
  | JBool true => Ok (Some "true")
  | JBool false => Ok (Some "false")
  | JNum n => Ok (Some (number_text n))
  | JBigInt _ => Throw (TypeError "Do not know how to serialize a BigInt")
  | JStr s => Ok (Some (quote s))
  | JBytes bs =>
      Ok (Some (block "{" "}" indent
                  [member "type" (quote "Buffer");
                   member "data"
                     (block "[" "]" (indent ++ "  ")
                        (map (fun b => number_text (byte_to_Z b)) bs))]))
  | JArr items =>
      texts <-
        (fix each (l : list jsval) : result (list string) :=
           match l with
           | [] => Ok []
           | x :: rest =>
               t <- stringify_at (indent ++ "  ") x ;;
               ts <- each rest ;;
               Ok (match t with Some s => s | None => "null" end :: ts)
           end) items ;;
      Ok (Some (block "[" "]" indent texts))
  | JObj props =>
      texts <-
        (fix each (l : list (string * jsval)) : result (list string) :=
           match l with
           | [] => Ok []
           | (k, x) :: rest =>
               t <- stringify_at (indent ++ "  ") x ;;
               ts <- each rest ;;
               Ok (match t with
                   | Some s => member k s :: ts
                   | None => ts
                   end)
           end) props ;;
      Ok (Some (block "{" "}" indent texts))
  | JMap _ => Ok (Some "{}")
  | JTagged t x =>
      tx <- stringify_at (indent ++ "  ") x ;;
      Ok (Some (block "{" "}" indent
                  (member "tag" (number_text t)
                   :: match tx with
                      | Some s => [member "value" s]
                      | None => []
                      end)))
  end.

(** [JSON.stringify(value, null, 2)] *)
Definition stringify (v : jsval) : result (option string) :=
  stringify_at "" v.

Definition syntax_error : exn := JsError "Unexpected token in JSON".

Definition is_ws (c : ascii) : bool :=
  let n := nat_of_ascii c in
  ((n =? 32) || (n =? 9) || (n =? 10) || (n =? 13))%nat.

Definition is_digit (c : ascii) : bool :=
  let n := nat_of_ascii c in ((48 <=? n) && (n <=? 57))%nat.

Definition is_char (n : nat) (c : ascii) : bool := (nat_of_ascii c =? n)%nat.

Fixpoint skip_ws (s : string) : string :=
  match s with
  | String c rest => if is_ws c then skip_ws rest else s
  | EmptyString => s
  end.

(** [s] without the prefix [p], if it starts with it. *)
Fixpoint after (p s : string) : option string :=
  match p, s with
  | EmptyString, _ => Some s
  | String a p', String b s' => if Ascii.eqb a b then after p' s' else None
  | String _ _, EmptyString => None
  end.

Definition hex4 (a b c d : ascii) : option Z :=
  if HexText.is_hex_digit a && HexText.is_hex_digit b
     && HexText.is_hex_digit c && HexText.is_hex_digit d
  then Some (((HexText.hex_value a * 16 + HexText.hex_value b) * 16
              + HexText.hex_value c) * 16 + HexText.hex_value d)
  else None.

(** The character a one-letter escape stands for. *)
Definition escaped (e : ascii) : option ascii :=
  let n := nat_of_ascii e in
  if ((n =? 34) || (n =? 92) || (n =? 47))%nat then Some e
  else if (n =? 98)%nat then Some (ascii_of_nat 8)
  else if (n =? 102)%nat then Some (ascii_of_nat 12)
  else if (n =? 110)%nat then Some (ascii_of_nat 10)
  else if (n =? 114)%nat then Some (ascii_of_nat 13)
  else if (n =? 116)%nat then Some (ascii_of_nat 9)
  else None.

(** A string literal after its opening quote: its text and what
    follows the closing quote.  Escapes of surrogate code units are not
    part of the model. *)
Fixpoint string_body (s : string) : result (string * string) :=
  match s with
  | EmptyString => Throw syntax_error
  | String c rest =>
      if is_char 34 c then Ok (EmptyString, rest)
      else if is_char 92 c then
        match rest with
        | EmptyString => Throw syntax_error
        | String e rest' =>
            match escaped e with
            | Some ch =>
                r <- string_body rest' ;;
                Ok (String ch (fst r), snd r)
            | None =>
                if is_char 117 e then
                  match rest' with
                  | String h1 (String h2 (String h3 (String h4 rest''))) =>
                      match hex4 h1 h2 h3 h4 with
                      | Some cp =>
                          if (55296 <=? cp) && (cp <=? 57343)
                          then Throw (JsError "surrogate escapes are not modelled")
                          else
                            r <- string_body rest'' ;;
                            Ok (string_of_bytes (Utf8.encode_code_point cp)
                                ++ fst r, snd r)
                      | None => Throw syntax_error
                      end
                  | _ => Throw syntax_error
                  end
                else Throw syntax_error
            end
        end
      else if (nat_of_ascii c <? 32)%nat then Throw syntax_error
      else
        r <- string_body rest ;;
        Ok (String c (fst r), snd r)
  end.

Fixpoint digits (acc : Z) (s : string) : Z * string :=
  match s with
  | String c rest =>
      if is_digit c
      then digits (acc * 10 + (Z.of_nat (nat_of_ascii c) - 48)) rest
      else (acc, s)
  | EmptyString => (acc, s)
  end.

(** An integer literal.  A literal with a fraction or an exponent is a
    number outside [JNum] and is not part of the model. *)
Definition number (s : string) : result (jsval * string) :=
  let '(negative, s1) :=
    match s with
    | String c rest => if is_char 45 c then (true, rest) else (false, s)
    | EmptyString => (false, s)
    end in
  match s1 with
  | String c rest =>
      if negb (is_digit c) then Throw syntax_error
      else
        let '(n, s2) := digits 0 s1 in
        let leading_zero :=
          is_char 48 c
          && match rest with
             | String d _ => is_digit d
             | EmptyString => false
             end in
        let continues :=
          match s2 with
          | String d _ => is_char 46 d || is_char 101 d || is_char 69 d
          | EmptyString => false
          end in
        if leading_zero then Throw syntax_error
        else if continues
        then Throw (JsError "numbers with a fraction or an exponent are not modelled")
        else Ok (JNum (if negative then - n else n), s2)
  | EmptyString => Throw syntax_error
  end.

(** A JSON value at the front of a text, and the text after it. *)
Fixpoint value (fuel : nat) (s : string) : result (jsval * string) :=
  match fuel with
  | O => Throw syntax_error
  | S fuel' =>
      match skip_ws s with
      | EmptyString => Throw syntax_error
      | String c rest =>
          if is_char 123 c then
            match skip_ws rest with
            | String d rest' =>
                if is_char 125 d then Ok (JObj [], rest')
                else
                  r <- members fuel' [] rest ;;
                  Ok (JObj (fst r), snd r)
            | EmptyString => Throw syntax_error
            end
          else if is_char 91 c then
            match skip_ws rest with
            | String d rest' =>
                if is_char 93 d then Ok (JArr [], rest')
                else
                  r <- elements fuel' rest ;;
                  Ok (JArr (fst r), snd r)
            | EmptyString => Throw syntax_error
            end
          else if is_char 34 c then
            r <- string_body rest ;;
            Ok (JStr (fst r), snd r)
          else
            match after "true" (String c rest),
                  after "false" (String c rest),
                  after "null" (String c rest) with
            | Some r, _, _ => Ok (JBool true, r)
            | _, Some r, _ => Ok (JBool false, r)
            | _, _, Some r => Ok (JNull, r)
            | None, None, None => number (String c rest)
            end
      end
  end
with members (fuel : nat) (acc : list (string * jsval)) (s : string)
  : result (list (string * jsval) * string) :=
  match fuel with
  | O => Throw syntax_error
  | S fuel' =>
      match skip_ws s with
      | String c rest =>
          if is_char 34 c then
            k <- string_body rest ;;
            match skip_ws (snd k) with
            | String colon rest2 =>
                if is_char 58 colon then
                  x <- value fuel' rest2 ;;
                  let acc' := Cbor.obj_set (fst k) (fst x) acc in
                  match skip_ws (snd x) with
                  | String d rest3 =>
                      if is_char 44 d then members fuel' acc' rest3
                      else if is_char 125 d then Ok (acc', rest3)
                      else Throw syntax_error
                  | EmptyString => Throw syntax_error
                  end
                else Throw syntax_error
            | EmptyString => Throw syntax_error
            end
          else Throw syntax_error
      | EmptyString => Throw syntax_error
      end
  end
with elements (fuel : nat) (s : string) : result (list jsval * string) :=
  match fuel with
  | O => Throw syntax_error
  | S fuel' =>
      x <- value fuel' s ;;
      match skip_ws (snd x) with
      | String d rest =>
          if is_char 44 d then
            r <- elements fuel' rest ;;
            Ok (fst x :: fst r, snd r)
          else if is_char 93 d then Ok ([fst x], rest)
          else Throw syntax_error
      | EmptyString => Throw syntax_error
      end
  end.

(** [JSON.parse(text)] *)
Definition parse (text : string) : result jsval :=
  r <- value (2 * String.length text + 2) text ;;
  match skip_ws (snd r) with
  | EmptyString => Ok (fst r)
  | String _ _ => Throw syntax_error
  end.

End Json.

(** The libraries as run by Node.js. *)
Definition NodeLib : JsLib :=
  {| cbor_decode := Cbor.decode;
     cbor_encode := Cbor.encode_checked;
     JSON_parse := Json.parse;
     JSON_stringify := Json.stringify;
     Base64_toUint8Array := fun text => Ok (Base64.toUint8Array text);
     Base64_fromUint8Array := Base64.encode;
     Buffer_toString_utf8 := Utf8.toString;
     Base64Message_toBuffer :=
       fun m => Ok (Base64.Buffer_from_base64 (base64Message m));
     Base64Message_fromString :=
       fun text =>
         match text with
         | Some s => Ok (new_Base64Message (Base64.encode (bytes_of_string s)))
         | None =>
             Throw (TypeError "The first argument must be of type string or an instance of Buffer. Received undefined")
         end |}.

(** A JSON text written with single quotes in place of double quotes. *)
Fixpoint json_text (s : string) : string :=
  match s with
  | EmptyString => EmptyString
  | String c rest =>
      String (if Ascii.eqb c "'"%char then "034"%char else c) (json_text rest)
  end.

(* ===================================================================== *)
(** * The statements of the specification, as definitions *)

Module Spec.

(** Resolution as the specification words it: the first decoder whose
    topic-name predicate matches; failing all topic-name predicates,
    the first whose byte-sniffing predicate matches the latest
    payload. *)
Definition resolve (registry : list MessageDecoder) (node : TreeNode)
  : option TopicDecoder :=
  let found :=
    match List.find (fun d => topic_matches d (path node)) registry with
    | Some d => Some d
    | None => List.find (fun d => data_matches d (node_message node)) registry
    end in
  match found with
  | Some d => Some {| td_decoder := d; td_format := List.hd_error (formats d) |}
  | None => None
  end.

Definition is_byte_string (v : jsval) : bool :=
  match v with JBytes _ => true | _ => false end.

(** A key/value map: a decoded CBOR map. *)
Definition is_key_value_map (v : jsval) : bool :=
  match v with JObj _ | JMap _ => true | _ => false end.

(** The COSE Sign1 shape of the specification, on the four elements of
    an array. *)
Definition cose_shape (items : list jsval) : bool :=
  is_byte_string (nth 0 items JUndefined)
  && is_key_value_map (nth 1 items JUndefined)
  && (is_byte_string (nth 2 items JUndefined)
      || Js.is_null (nth 2 items JUndefined))
  && is_byte_string (nth 3 items JUndefined).

End Spec.

(** The two envelopes [decode] returns. *)
Definition success_envelope (m : Base64Message) : DecoderEnvelope :=
  {| message := Some m; error := None; decoder := CBOR |}.

Definition error_envelope (e : exn) : DecoderEnvelope :=
  {| message := None;
     error := Some ("Failed to decode CBOR: " ++ error_message e);
     decoder := NONE |}.

(** The test [isCoseSign1] and [parseCoseSign1] make for a tagged value,
    and the array and the tag [parseCoseSign1] takes from it. *)
Definition tagged_like (decoded : jsval) : bool :=
  Js.truthy decoded && Js.typeof_object decoded
  && Js.has_prop "tag" decoded && Js.has_prop "value" decoded.

Definition cose_array (decoded : jsval) : jsval :=
  if tagged_like decoded then Js.get_prop "value" decoded else decoded.

Definition cose_tag (decoded : jsval) : jsval :=
  if tagged_like decoded then Js.get_prop "tag" decoded else JNull.

(** An object that is neither an array nor a byte string: a plain
    object, a [Map] or an instance of a class such as [Tagged]. *)
Definition is_other_object (v : jsval) : bool :=
  match v with JObj _ | JMap _ | JTagged _ _ => true | _ => false end.

(** The shape [isCoseSign1] accepts, on the four elements of an array. *)
Definition accepted_shape (items : list jsval) : bool :=
  Spec.is_byte_string (nth 0 items JUndefined)
  && is_other_object (nth 1 items JUndefined)
  && (Spec.is_byte_string (nth 2 items JUndefined)
      || Js.is_null (nth 2 items JUndefined))
  && Spec.is_byte_string (nth 3 items JUndefined).

Definition is_plain_object (v : jsval) : bool :=
  match v with JObj _ => true | _ => false end.

Fixpoint distinct (keys : list string) : bool :=
  match keys with
  | [] => true
  | k :: rest => negb (existsb (String.eqb k) rest) && distinct rest
  end.

(** The values that [Cbor.encode] writes and [Cbor.decode] reads back:
    no [BigInt] and no [Map], numbers in the safe integer range, plain
    objects with distinct keys, sizes and tags that fit the 64 bits of
    a CBOR argument, and no tag that stands for a big number. *)
Fixpoint encodable (v : jsval) : bool :=
  match v with
  | JUndefined | JNull | JBool _ => true
  | JNum n => (- Cbor.two53 <=? n) && (n <? Cbor.two53)
  | JBigInt _ => false
  | JStr s => Cbor.len (bytes_of_string s) <? Cbor.two64
  | JBytes bs => Cbor.len bs <? Cbor.two64
  | JArr items =>
      (Cbor.len items <? Cbor.two64)
      && (fix all (l : list jsval) : bool :=
            match l with
            | [] => true
            | x :: rest => encodable x && all rest
            end) items
  | JObj props =>
      (Cbor.len props <? Cbor.two64)
      && distinct (map fst props)
      && (fix all (l : list (string * jsval)) : bool :=
            match l with
            | [] => true
            | (k, x) :: rest =>
                (Cbor.len (bytes_of_string k) <? Cbor.two64)
                && encodable x && all rest
            end) props
  | JMap _ => false
  | JTagged t x =>
      (0 <=? t) && (t <? Cbor.two64)
      && negb (Spec.is_byte_string x && ((t =? 2) || (t =? 3)))
      && encodable x
  end.

(** The values that [cbor.decode] gives back as [cbor.encode] was given
    them: no [BigInt] and no [Map], plain objects with distinct keys,
    and no tag that stands for a big number. *)
Fixpoint in_model (v : jsval) : bool :=
  match v with
  | JUndefined | JNull | JBool _ | JNum _ | JStr _ | JBytes _ => true
  | JBigInt _ | JMap _ => false
  | JArr items => forallb in_model items
  | JObj props =>
      distinct (map fst props)
      && forallb (fun kv => in_model (snd kv)) props
  | JTagged t x =>
      (0 <=? t) && (t <? Cbor.two64)
      && negb (Spec.is_byte_string x && ((t =? 2) || (t =? 3)))
      && in_model x
  end.

(** The values of JSON: what [JSON.parse] returns. *)
Fixpoint json_value (v : jsval) : bool :=
  match v with
  | JNull | JBool _ | JNum _ | JStr _ => true
  | JArr items => forallb json_value items
  | JObj props =>
      distinct (map fst props)
      && forallb (fun kv => json_value (snd kv)) props
  | _ => false
  end.

(** The entries of a JSON object: distinct keys, values of JSON. *)
Definition json_props (props : list (string * jsval)) : bool :=
  distinct (map fst props)
  && forallb (fun kv => json_value (snd kv)) props.

(** No [BigInt] where [JSON.stringify] looks. *)
Fixpoint bigint_free (v : jsval) : bool :=
  match v with
  | JBigInt _ => false
  | JArr items =>
      (fix all (l : list jsval) : bool :=
         match l with
         | [] => true
         | x :: rest => bigint_free x && all rest
         end) items
  | JObj props =>
      (fix all (l : list (string * jsval)) : bool :=
         match l with
         | [] => true
         | (_, x) :: rest => bigint_free x && all rest
         end) props
  | JTagged _ x => bigint_free x
  | _ => true
  end.

(** A value reads back when [Cbor.decode_item], given enough fuel, finds
    it in front of whatever follows its encoding. *)
Definition reads_back (v : jsval) : Prop :=
  forall fuel rest,
    (3 * List.length (Cbor.encode v) <= S fuel)%nat ->
    Cbor.decode_item fuel (Cbor.encode v ++ rest)%list = Ok (v, rest).

(** The entries of the CBOR map that a plain object is written as. *)
Definition as_entries (props : list (string * jsval)) : list (jsval * jsval) :=
  map (fun kv => (JStr (fst kv), snd kv)) props.

(** What the round trip through the encoder and the decoder asks of the
    libraries. *)
Record JsLibLaws (L : JsLib) : Prop := {
  (** a payload built from base64 text gives the bytes back *)
  base64_transport :
    forall bs,
      Base64Message_toBuffer (new_Base64Message (Base64_fromUint8Array bs))
      = Ok bs;
  (** decoding the bytes of an encoded value gives the value back *)
  cbor_round_trip :
    forall v bs,
      in_model v = true -> cbor_encode v = Ok bs -> cbor_decode bs = Ok v;
  (** [JSON.parse] returns a value of JSON *)
  parse_json_value :
    forall text v, JSON_parse text = Ok v -> json_value v = true;
  (** an object without [BigInt] has a JSON text *)
  stringify_object :
    forall props,
      bigint_free (JObj props) = true ->
      exists s, JSON_stringify (JObj props) = Ok (Some s);
  (** a text makes a payload *)
  fromString_text :
    forall s, exists m, Base64Message_fromString (Some s) = Ok m
}.

(* ===================================================================== *)
(** * Sample decoders, nodes and payloads

    Inputs on which the statements below are run.  The decoder records
    stand in the places of the registry whose decoders are parameters of
    [findDecoder]. *)

Module Examples.

Definition no_decode (input : Base64Message) (format : option string)
  : DecoderEnvelope :=
  {| message := Some input; error := None; decoder := NONE |}.

(** A Sparkplug-B decoder: it takes the topics of the [spBv1.0]
    name space and sniffs no payload. *)
Definition sparkplug : MessageDecoder :=
  {| formats := ["Sparkplug"];
     canDecodeTopic := Some (String.prefix "spBv1.0/");
     canDecodeData := None;
     decode := no_decode |}.

(** A binary decoder that matches nothing by itself. *)
Definition binary : MessageDecoder :=
  {| formats := ["int8"; "int16"; "int32"];
     canDecodeTopic := None;
     canDecodeData := None;
     decode := no_decode |}.

(** A string decoder that declares a topic-name predicate. *)
Definition text_by_topic : MessageDecoder :=
  {| formats := ["string"];
     canDecodeTopic := Some (String.prefix "text/");
     canDecodeData := None;
     decode := no_decode |}.

Definition payload_of_bytes (bs : list Z) : Base64Message :=
  new_Base64Message (Base64.encode (map byte_of_Z bs)).

(** The topic [text/greeting] holding the CBOR integer 1. *)
Definition greeting : TreeNode :=
  {| path := "text/greeting";
     node_message := Some {| payload := Some (payload_of_bytes [1]) |};
     viewModel_linked := true |}.

(** The CBOR unsigned integer 2^64 - 1. *)
Definition big_integer : Base64Message :=
  payload_of_bytes [27; 255; 255; 255; 255; 255; 255; 255; 255].

(** [[bstr, map, bstr, bstr]], [[bstr, bstr, bstr, bstr]] and an array
    whose second element is a tagged value. *)
Definition sign1_array : jsval :=
  JArr [JBytes [x01]; JObj [("kid", JStr "11")]; JBytes [x02]; JBytes [x03]].

Definition four_byte_strings : jsval :=
  JArr [JBytes [x01]; JBytes [x04]; JBytes [x02]; JBytes [x03]].

Definition tagged_second : list jsval :=
  [JBytes [x01]; JTagged 99 (JNum 0); JBytes [x02]; JBytes [x03]].

(** A COSE Sign1 array with a signature of 10,000 bytes. *)
Definition long_signature : jsval :=
  JTagged 18
    (JArr [JBytes []; JObj []; JNull; JBytes (repeat x41 10000)]).

Definition missing_payload_text : string := json_text "{'foo': 1}".

(** [n] opening brackets followed by [n] closing brackets: the JSON text
    of [n] arrays nested in each other. *)
Definition nested_arrays (n : nat) : string :=
  Nat.iter n (String "["%char) (Nat.iter n (String "]"%char) EmptyString).

Definition hex_signature_text : string :=
  json_text "{'payload': 1, 'signature': '41424344'}".

Definition base64_signature_text : string :=
  json_text "{'payload': 1, 'signature': 'QUJDRA=='}".

Definition array_headers_text : string :=
  json_text "{'payload': 1, 'unprotected_headers': [1]}".

Definition sign1_text : string :=
  json_text "{'protected_headers': {'alg': -7}, 'unprotected_headers': {'kid': '11'}, 'payload': {'t': 21}, 'signature': 'QUJDRA=='}".

(** A view model that resolved its decoder to the string decoder. *)
Definition resolved_world : TopicViewModel.World :=
  {| TopicViewModel.node := greeting;
     TopicViewModel.vm :=
       TopicViewModel.with_decoder
         (Some {| td_decoder := text_by_topic; td_format := Some "string" |})
         TopicViewModel.constructor;
     TopicViewModel.timers := [];
     TopicViewModel.dispatched := [] |}.

End Examples.

(* ===================================================================== *)
(** * The callers of the decoders and of the encoder *)

(** [useDecoder.ts], the function the hook returns for the binding it
    holds:
    [message => decoder && message.payload
       ? decoder.decoder.decode(message.payload, decoder.format)
       : { message: message.payload ?? undefined, decoder: Decoder.NONE }] *)
Definition useDecoder_decode (binding : option TopicDecoder) (m : Message)
  : DecoderEnvelope :=
  match binding, payload m with
  | Some b, Some p => decode (td_decoder b) p (td_format b)
  | _, _ => {| message := payload m; error := None; decoder := NONE |}
  end.

(** [tag === Decoder.NONE] *)
Definition is_NONE (tag : Decoder) : bool :=
  match tag with NONE => true | _ => false end.

(** [!result.error]: no error text, or an empty one. *)
Definition no_error (r : DecoderEnvelope) : bool :=
  match error r with
  | None => true
  | Some text => String.eqb text ""
  end.

(** [decoder.canDecodeData?.(payload)] as a condition *)
Definition sniffs (d : MessageDecoder) (p : Base64Message) : bool :=
  match canDecodeData d with
  | Some f => f p
  | None => false
  end.

(** The loop [for (const decoder of decoders)] of
    [decodeIndividualMessage]: the result of the first decoder that
    sniffs the payload and decodes it without an error.  (A decoder that
    throws is passed over like one that returns an error; [decode] of
    [MessageDecoder] returns its envelope.) *)
Fixpoint try_decoders (registry : list MessageDecoder) (p : Base64Message)
  : option DecoderEnvelope :=
  match registry with
  | [] => None
  | d :: rest =>
      if sniffs d p then
        let result := decode d p None in
        if no_error result then Some result else try_decoders rest p
      else try_decoders rest p
  end.

(** [decodeIndividualMessage] of [MessageHistory.tsx] and of the tree
    node title, over the registry and the decoder function of the node. *)
Definition decodeIndividualMessageIn (registry : list MessageDecoder)
           (decodeMessage : Message -> DecoderEnvelope) (m : Message)
  : DecoderEnvelope :=
  match payload m with
  | None => {| message := None; error := None; decoder := NONE |}
  | Some p =>
      let nodeDecodedResult := decodeMessage m in
      if negb (is_NONE (decoder nodeDecodedResult)) then nodeDecodedResult
      else
        match try_decoders registry p with
        | Some result => result
        | None => {| message := Some p; error := None; decoder := NONE |}
        end
  end.

Definition decodeIndividualMessage {L : JsLib}
           (SparkplugDecoder BinaryDecoder StringDecoder : MessageDecoder)
           (binding : option TopicDecoder) (m : Message) : DecoderEnvelope :=
  decodeIndividualMessageIn
    (decoders SparkplugDecoder BinaryDecoder StringDecoder)
    (useDecoder_decode binding) m.

(** ** The publish history of [Publish.tsx] *)

(** The entries of the history: [{ topic, payload, sent }]. *)
Record SentMessage : Type := mkSent {
  sent_topic : string;
  sent_payload : option string;
  sent : Z
}.

Definition same_text (a b : option string) : bool :=
  match a, b with
  | Some x, Some y => String.eqb x y
  | None, None => true
  | _, _ => false
  end.

(** [l.slice(-n)] *)
Definition slice_last {A : Type} (n : nat) (l : list A) : list A :=
  skipn (List.length l - n) l.

(** [amendToHistory(topic, payload)] of [useHistory], the new history
    given to [setHistory]; [now] is [new Date()]. *)
Definition amendToHistory (now : Z) (history : list SentMessage)
           (topic : string) (text : option string) : list SentMessage :=
  let filteredHistory :=
    filter (fun e => negb (same_text (sent_payload e) text)
                     || negb (String.eqb (sent_topic e) topic)) history in
  let filteredHistory := slice_last 7 filteredHistory in
  (filteredHistory
     ++ [{| sent_topic := topic; sent_payload := text; sent := now |}])%list.

(** What makes two entries of the history duplicates of each other. *)
Definition entry_key (e : SentMessage) : string * option string :=
  (sent_topic e, sent_payload e).

(** The history after a sequence of calls of [amendToHistory], each with
    its time, topic and payload. *)
Definition amend_all (calls : list (Z * string * option string))
           (history : list SentMessage) : list SentMessage :=
  fold_left (fun h call =>
               let '(now, topic, text) := call in
               amendToHistory now h topic text)
            calls history.

(** ** The publish action of [actions/Publish.ts] *)

(** What the action reads of the application state: [state.publish] and
    the selected topic of [state.tree]. *)
Record PublishState : Type := mkPublishState {
  manualTopic : option string;
  selectedTopic : option TreeNode;
  editor_payload : option string;
  editorMode : string;
  retain_flag : bool;
  qos : Z
}.

(** [Partial<MqttMessage>], as the action fills it. *)
Record MqttMessage : Type := mkMqttMessage {
  mqtt_topic : string;
  mqtt_payload : option Base64Message;
  mqtt_retain : bool;
  mqtt_qos : Z
}.

(** What the action does to the outside: [dispatch(showError(text))] and
    [rendererEvents.emit(makePublishEvent(connectionId), message)]. *)
Inductive effect : Type :=
| ShowError (text : string)
| Emit (connectionId : string) (m : MqttMessage).

(** [a || b] on texts *)
Definition text_or (a : option string) (b : string) : string :=
  match a with
  | Some s => if String.eqb s "" then b else s
  | None => b
  end.

(** [state.publish.manualTopic ?? state.tree.get('selectedTopic')?.path()] *)
Definition publish_topic (state : PublishState) : option string :=
  match manualTopic state with
  | Some t => Some t
  | None => option_map path (selectedTopic state)
  end.

(** The four messages with which [encodeCoseSign1] turns an input down. *)
Definition cose_validation_messages : list string :=
  [CborCoseEncoder.invalid_json_message; CborCoseEncoder.not_object_message;
   CborCoseEncoder.missing_payload_message;
   CborCoseEncoder.bad_signature_message].

Section PublishAction.
Context {L : JsLib}.
(** [new Base64Message(undefined)], what [result.data!] would give the
    constructor were [data] missing. *)
Variable no_data : Base64Message.

Definition payload_of_result (r : CborCoseEncoder.EncodingResult)
  : Base64Message :=
  match CborCoseEncoder.data r with
  | Some d => new_Base64Message d
  | None => no_data
  end.

(** [export const publish = (connectionId) => (dispatch, getState) => ...] *)
Definition publish (connectionId : string) (state : PublishState)
  : result (list effect) :=
  match publish_topic state with
  | None => Ok []
  | Some topic =>
      if String.eqb topic "" then Ok []
      else
        let emit (p : option Base64Message) :=
          Ok [Emit connectionId
                {| mqtt_topic := topic; mqtt_payload := p;
                   mqtt_retain := retain_flag state; mqtt_qos := qos state |}] in
        match editor_payload state with
        | None => emit None
        | Some text =>
            if String.eqb text "" then emit None
            else if String.eqb (editorMode state) "cbor" then
              let r := CborCoseEncoder.encodeCbor text in
              if negb (CborCoseEncoder.success r)
              then Ok [ShowError (text_or (CborCoseEncoder.error r)
                                          "CBOR encoding failed")]
              else emit (Some (payload_of_result r))
            else if String.eqb (editorMode state) "cose" then
              let r := CborCoseEncoder.encodeCoseSign1 text in
              if negb (CborCoseEncoder.success r)
              then Ok [ShowError (text_or (CborCoseEncoder.error r)
                                          "COSE Sign1 encoding failed")]
              else emit (Some (payload_of_result r))
            else
              p <- Base64Message_fromString (Some text) ;;
              emit (Some p)
        end
  end.

(** The [publish] callback of the [Publish] component: the action, then
    the history; [props.topic] is the manual topic and [props.payload]
    the text of the editor. *)
Definition Publish_publish (connectionId : option string) (now : Z)
           (state : PublishState) (history : list SentMessage)
  : result (list effect * list SentMessage) :=
  match connectionId with
  | None => Ok ([], history)
  | Some c =>
      if String.eqb c "" then Ok ([], history)
      else
        effects <- publish c state ;;
        let topic := text_or (manualTopic state) "" in
        if negb (String.eqb topic "")
        then Ok (effects,
                 amendToHistory now history topic (editor_payload state))
        else Ok (effects, history)
  end.

End PublishAction.

(** ** The object of the template, and hex texts *)

(** The object [coseTemplate] that [formatCoseTemplate] serializes. *)
Definition coseTemplate {L : JsLib} (existingPayload : option string) : jsval :=
  let example := JObj [("example", JStr "data"); ("value", JNum 42)] in
  JObj [("protected_headers", JObj [("alg", JNum (-7))]);
        ("unprotected_headers", JObj [("kid", JStr "key-1")]);
        ("payload",
          match existingPayload with
          | Some text =>
              if Js.truthy (JStr text)
              then try_catch (JSON_parse text) (fun _ => example)
              else example
          | None => example
          end);
        ("signature", JStr "AABBCCDDEEFF")].

(** A byte written as two lowercase hex digits, and a buffer written as
    hex text: the texts that the hex reading of a signature is meant
    for. *)
Definition hex_digit (n : Z) : ascii :=
  ascii_of_nat (Z.to_nat (if n <? 10 then 48 + n else 87 + n)).

Fixpoint hex_text (bs : list byte) : string :=
  match bs with
  | [] => EmptyString
  | b :: rest =>
      String (hex_digit (byte_to_Z b / 16))
             (String (hex_digit (byte_to_Z b mod 16)) (hex_text rest))
  end.

(** Further sample inputs. *)
Module Samples.

(** A string decoder that sniffs every payload and declares no
    topic-name predicate. *)
Definition text_sniffing : MessageDecoder :=
  {| formats := ["string"];
     canDecodeTopic := None;
     canDecodeData := Some (fun _ => true);
     decode := fun input _ =>
                 {| message := Some input; error := None;
                    decoder := OtherDecoder "string" |} |}.

(** A topic without a message, and a view model of it that has resolved
    nothing yet. *)
Definition silent_node : TreeNode :=
  {| path := "sensors/temperature"; node_message := None;
     viewModel_linked := true |}.

Definition fresh_world : TopicViewModel.World :=
  {| TopicViewModel.node := silent_node;
     TopicViewModel.vm := TopicViewModel.constructor;
     TopicViewModel.timers := [];
     TopicViewModel.dispatched := [] |}.

(** Three bytes that are not a CBOR data item (a text string of 31
    bytes is announced, one follows). *)
Definition not_cbor : Base64Message := Examples.payload_of_bytes [120; 31; 0].

Definition cbor_binding {L : JsLib} : TopicDecoder :=
  {| td_decoder := CborDecoder_object; td_format := Some "CBOR" |}.

Definition editor (mode : string) (text : option string) (topic : option string)
  : PublishState :=
  {| manualTopic := topic; selectedTopic := Some Examples.greeting;
     editor_payload := text; editorMode := mode;
     retain_flag := false; qos := 0 |}.

(** The text of the COSE template made without an existing payload. *)
Definition template_text : string :=
  Eval vm_compute in
  match CborCoseEncoder.formatCoseTemplate (L := NodeLib) None with
  | Ok (Some text) => text
  | _ => EmptyString
  end.

End Samples.

(* ===================================================================== *)
(** * Properties of the CBOR decoder *)

Unset Implicit Arguments.

Section DecoderFacts.
Context {L : JsLib}.

(** The two branches of [decode] serialize [rendered_structure]. *)
Lemma decode_unfold (input : Base64Message) (format : option string) :
  CborDecoder.decode input format =
  try_catch
    (buffer <- Base64Message_toBuffer input ;;
     decoded <- cbor_decode buffer ;;
     jsonString <- JSON_stringify (CborDecoder.rendered_structure decoded) ;;
     msg <- Base64Message_fromString jsonString ;;
     Ok (success_envelope msg))
    error_envelope.
Proof.
  unfold CborDecoder.decode, CborDecoder.rendered_structure.
  destruct (Base64Message_toBuffer input) as [buffer|e]; simpl; [|reflexivity].
  destruct (cbor_decode buffer) as [decoded|e]; simpl; [|reflexivity].
  destruct (CborDecoder.isCoseSign1 decoded); reflexivity.
Qed.

(** Once the buffer decodes, the envelope depends on the serialization
    of [rendered_structure] alone. *)
Lemma decode_of_tree (input : Base64Message) (format : option string)
      (buffer : list byte) (decoded : jsval) :
  Base64Message_toBuffer input = Ok buffer ->
  cbor_decode buffer = Ok decoded ->
  CborDecoder.decode input format =
  match JSON_stringify (CborDecoder.rendered_structure decoded) with
  | Ok jsonString =>
      match Base64Message_fromString jsonString with
      | Ok msg => success_envelope msg
      | Throw e => error_envelope e
      end
  | Throw e => error_envelope e
  end.
Proof.
  intros Hb Hd. rewrite decode_unfold, Hb. simpl. rewrite Hd. simpl.
  destruct (JSON_stringify _) as [s|e]; simpl; [|reflexivity].
  destruct (Base64Message_fromString s); reflexivity.
Qed.

Lemma isCoseSign1_array (items : list jsval) :
  CborDecoder.isCoseSign1 (JArr items) =
  Nat.eqb (List.length items) 4 && accepted_shape items.
Proof.
  unfold CborDecoder.isCoseSign1, accepted_shape. simpl.
  destruct (Nat.eqb (List.length items) 4); simpl; [|reflexivity].
  destruct (nth 0 items JUndefined); simpl; try reflexivity;
    destruct (nth 1 items JUndefined); simpl; try reflexivity;
    destruct (nth 2 items JUndefined); simpl; try reflexivity;
    destruct (nth 3 items JUndefined); reflexivity.
Qed.

Lemma isCoseSign1_tagged (t : Z) (items : list jsval) :
  t = 18 \/ t = 98 ->
  CborDecoder.isCoseSign1 (JTagged t (JArr items)) =
  CborDecoder.isCoseSign1 (JArr items).
Proof.
  intros [-> | ->]; reflexivity.
Qed.

(** A value that [isCoseSign1] accepts holds an array of four elements
    of the accepted shape, under its tag if it has one. *)
Lemma isCoseSign1_inv (decoded : jsval) :
  CborDecoder.isCoseSign1 decoded = true ->
  exists items,
    cose_array decoded = JArr items
    /\ List.length items = 4%nat
    /\ accepted_shape items = true.
Proof.
  intros H.
  assert (Harr : forall items,
             CborDecoder.isCoseSign1 (JArr items) = true ->
             List.length items = 4%nat /\ accepted_shape items = true).
  { intros items Hi. rewrite isCoseSign1_array in Hi.
    apply andb_true_iff in Hi as [Hl Hs].
    apply Nat.eqb_eq in Hl. auto. }
  unfold cose_array, tagged_like.
  unfold CborDecoder.isCoseSign1 in H.
  destruct (Js.truthy decoded && Js.typeof_object decoded
            && Js.has_prop "tag" decoded && Js.has_prop "value" decoded)
    eqn:Hc.
  - destruct (Js.strict_eq_num (Js.get_prop "tag" decoded) 18
              || Js.strict_eq_num (Js.get_prop "tag" decoded) 98).
    + destruct (Js.get_prop "value" decoded) as [| | | | | | |items| | |];
        try discriminate.
      exists items. split; [reflexivity|].
      apply Harr. unfold CborDecoder.isCoseSign1. simpl. exact H.
    + destruct decoded as [| | | | | | |items| | |]; try discriminate.
  - destruct decoded as [| | | | | | |items| | |]; try discriminate.
    exists items. split; [reflexivity|].
    apply Harr. unfold CborDecoder.isCoseSign1. simpl. exact H.
Qed.

Lemma protected_headers_of_bytes (bs : list byte) :
  exists v, CborDecoder.protected_headers_of (JBytes bs) = Ok v.
Proof.
  unfold CborDecoder.protected_headers_of. simpl.
  destruct (0 <? Z.of_nat (List.length bs)); simpl; [|eauto].
  destruct (cbor_decode bs); simpl; eauto.
Qed.

Lemma payload_of_bytes_or_null (c : jsval) :
  Spec.is_byte_string c || Js.is_null c = true ->
  exists v, CborDecoder.payload_of c = Ok v.
Proof.
  destruct c; simpl; try discriminate; intros _.
  - unfold CborDecoder.payload_of. simpl. eauto.
  - unfold CborDecoder.payload_of. simpl.
    destruct (0 <? Z.of_nat (List.length bs)); simpl; [|eauto].
    destruct (cbor_decode bs); simpl; [eauto|].
    destruct (negb (Buffer_toString_utf8 bs =? "")%string
              && negb (CborDecoder.has_control_char
                         (list_byte_of_string (Buffer_toString_utf8 bs))));
      simpl; eauto.
Qed.

(** What [parseCoseSign1] returns on the four elements of an accepted
    array. *)
Lemma parseCoseSign1_accepted (decoded : jsval) (items : list jsval) :
  cose_array decoded = JArr items ->
  accepted_shape items = true ->
  exists protected payload sig,
    nth 3 items JUndefined = JBytes sig
    /\ CborDecoder.protected_headers_of (nth 0 items JUndefined)
       = Ok protected
    /\ CborDecoder.payload_of (nth 2 items JUndefined) = Ok payload
    /\ CborDecoder.parseCoseSign1 decoded =
       JObj [("_cose_structure", JStr "COSE_Sign1");
             ("_cbor_tag", cose_tag decoded);
             ("protected_headers", protected);
             ("unprotected_headers", nth 1 items JUndefined);
             ("payload", payload);
             ("signature_info",
               JObj [("length", JNum (Z.of_nat (List.length sig)));
                     ("preview",
                       JArr (map (fun b => JNum (byte_to_Z b))
                                 (firstn 16 sig)))])].
Proof.
  intros Ha Hs. unfold accepted_shape in Hs.
  repeat (apply andb_true_iff in Hs as [Hs ?]).
  destruct (nth 0 items JUndefined) as [| | | | | |pb| | | |] eqn:E0;
    try discriminate.
  destruct (nth 3 items JUndefined) as [| | | | | |sig| | | |] eqn:E3;
    try discriminate.
  destruct (protected_headers_of_bytes pb) as [protected Hp].
  destruct (payload_of_bytes_or_null (nth 2 items JUndefined)) as [payload Hq];
    [assumption|].
  exists protected, payload, sig. split; [reflexivity|].
  split; [exact Hp|]. split; [exact Hq|].
  unfold CborDecoder.parseCoseSign1, cose_array, cose_tag, tagged_like in *.
  destruct (Js.truthy decoded && Js.typeof_object decoded
            && Js.has_prop "tag" decoded && Js.has_prop "value" decoded);
    rewrite Ha; simpl; rewrite E0, E3; simpl; rewrite Hp; simpl;
    rewrite Hq; reflexivity.
Qed.

End DecoderFacts.

(** C1: for every payload, [CborDecoder.decode] returns (it is a total
    function: every exception is caught) either a success envelope, with
    a message, no error and the decoder tag CBOR, or an error envelope,
    with an error text, no message and the decoder tag NONE; no envelope
    has both a message and an error. *)
Theorem decode_success_or_error (L : JsLib) (b : Base64Message)
        (hint : option string) :
  ((exists m, CborDecoder.decode b hint =
              {| message := Some m; error := None; decoder := CBOR |})
   \/ (exists e, CborDecoder.decode b hint =
                 {| message := None; error := Some e; decoder := NONE |}))
  /\ (message (CborDecoder.decode b hint) = None
      \/ error (CborDecoder.decode b hint) = None).
Proof.
  rewrite decode_unfold.
  destruct (Base64Message_toBuffer b) as [buffer|e]; simpl;
    [|split; [right; eexists; reflexivity | left; reflexivity]].
  destruct (cbor_decode buffer) as [decoded|e]; simpl;
    [|split; [right; eexists; reflexivity | left; reflexivity]].
  destruct (JSON_stringify _) as [s|e]; simpl;
    [|split; [right; eexists; reflexivity | left; reflexivity]].
  destruct (Base64Message_fromString s) as [m|e]; simpl.
  - split; [left; exists m; reflexivity | right; reflexivity].
  - split; [right; eexists; reflexivity | left; reflexivity].
Qed.

(** C3 (as the code has it): a four-element array, bare or under tag 18
    or 98, is classified COSE Sign1 exactly when element 0 is a byte
    string, element 1 is an object that is neither null, an array nor a
    byte string (a map, but also a tagged value), element 2 is a byte
    string or null, and element 3 is a byte string.  Every array of the
    specification's shape is accepted; [[bstr, map, bstr, bstr]] is COSE
    Sign1 and [[bstr, bstr, bstr, bstr]] is not: it is rendered as it was
    decoded. *)
Theorem isCoseSign1_accepted_shape (L : JsLib) (items : list jsval) (t : Z) :
  List.length items = 4%nat ->
  t = 18 \/ t = 98 ->
  CborDecoder.isCoseSign1 (JArr items) = accepted_shape items
  /\ CborDecoder.isCoseSign1 (JTagged t (JArr items)) = accepted_shape items
  /\ (Spec.cose_shape items = true -> accepted_shape items = true)
  /\ CborDecoder.isCoseSign1 Examples.sign1_array = true
  /\ CborDecoder.isCoseSign1 Examples.four_byte_strings = false
  /\ CborDecoder.rendered_structure Examples.four_byte_strings
     = Examples.four_byte_strings.
Proof.
  intros Hlen Ht.
  assert (Ha : CborDecoder.isCoseSign1 (JArr items) = accepted_shape items).
  { rewrite isCoseSign1_array, Hlen. reflexivity. }
  split; [exact Ha|].
  split; [rewrite (isCoseSign1_tagged t items Ht); exact Ha|].
  split.
  - unfold Spec.cose_shape, accepted_shape.
    destruct (nth 1 items JUndefined); simpl;
      rewrite ?andb_false_r; try discriminate; auto.
  - repeat split; reflexivity.
Qed.

(** C3, witness: the array [[bstr, map, bstr, bstr]] under tag 18. *)
Lemma isCoseSign1_accepted_shape_witness :
  CborDecoder.isCoseSign1
    (JArr [JBytes [x01]; JObj [("kid", JStr "11")]; JBytes [x02]; JBytes [x03]])
  = true
  /\ CborDecoder.isCoseSign1
       (JTagged 18
          (JArr [JBytes [x01]; JObj [("kid", JStr "11")]; JBytes [x02];
                 JBytes [x03]]))
     = true.
Proof.
  destruct (@isCoseSign1_accepted_shape NodeLib
              [JBytes [x01]; JObj [("kid", JStr "11")]; JBytes [x02];
               JBytes [x03]] 18 eq_refl (or_introl eq_refl))
    as (H1 & H2 & _).
  split; [exact H1 | exact H2].
Defined.

(** C3, counterexample: an array whose second element is a tagged value,
    not a key/value map, is classified COSE Sign1. *)
Lemma isCoseSign1_tagged_second_element :
  List.length Examples.tagged_second = 4%nat
  /\ CborDecoder.isCoseSign1 (JArr Examples.tagged_second) = true
  /\ Spec.is_key_value_map (nth 1 Examples.tagged_second JUndefined) = false
  /\ Spec.cose_shape Examples.tagged_second = false.
Proof.
  repeat split; reflexivity.
Qed.

(** C6: whenever [isCoseSign1] accepts a decoded value, the diagnostic
    object of [parseCoseSign1], which is what [decode] renders, has a
    [signature_info] made of the length of the signature bytes and of
    their first 16 bytes as numbers, the other entries being made from
    the other three elements: the signature goes through no decoder, the
    preview has at most 16 bytes, and a signature of 10,000 bytes gives a
    preview of exactly 16 bytes and the length 10,000. *)
Theorem signature_is_summarized (L : JsLib) (decoded : jsval) :
  CborDecoder.isCoseSign1 decoded = true ->
  exists items protected payload sig,
    cose_array decoded = JArr items
    /\ nth 3 items JUndefined = JBytes sig
    /\ CborDecoder.protected_headers_of (nth 0 items JUndefined)
       = Ok protected
    /\ CborDecoder.payload_of (nth 2 items JUndefined) = Ok payload
    /\ CborDecoder.rendered_structure decoded
       = CborDecoder.parseCoseSign1 decoded
    /\ CborDecoder.parseCoseSign1 decoded =
       JObj [("_cose_structure", JStr "COSE_Sign1");
             ("_cbor_tag", cose_tag decoded);
             ("protected_headers", protected);
             ("unprotected_headers", nth 1 items JUndefined);
             ("payload", payload);
             ("signature_info",
               JObj [("length", JNum (Z.of_nat (List.length sig)));
                     ("preview",
                       JArr (map (fun b => JNum (byte_to_Z b))
                                 (firstn 16 sig)))])]
    /\ (List.length (firstn 16 sig) <= 16)%nat
    /\ (List.length sig = 10000%nat ->
        List.length (firstn 16 sig) = 16%nat).
Proof.
  intros H.
  destruct (isCoseSign1_inv decoded H) as (items & Ha & _ & Hs).
  destruct (parseCoseSign1_accepted decoded items Ha Hs)
    as (protected & payload & sig & H3 & Hph & Hpl & Hp).
  exists items, protected, payload, sig.
  repeat split; try assumption.
  - unfold CborDecoder.rendered_structure. rewrite H. reflexivity.
  - apply firstn_le_length.
  - intros Hl. rewrite length_firstn, Hl. reflexivity.
Qed.

(** C6, witness: a COSE Sign1 array under tag 18 whose signature has
    10,000 bytes. *)
Lemma signature_is_summarized_witness :
  exists items protected payload sig,
    cose_array Examples.long_signature = JArr items
    /\ nth 3 items JUndefined = JBytes sig
    /\ CborDecoder.protected_headers_of (L := NodeLib)
         (nth 0 items JUndefined) = Ok protected
    /\ CborDecoder.payload_of (L := NodeLib) (nth 2 items JUndefined)
       = Ok payload
    /\ CborDecoder.rendered_structure (L := NodeLib) Examples.long_signature
       = CborDecoder.parseCoseSign1 (L := NodeLib) Examples.long_signature
    /\ CborDecoder.parseCoseSign1 (L := NodeLib) Examples.long_signature =
       JObj [("_cose_structure", JStr "COSE_Sign1");
             ("_cbor_tag", cose_tag Examples.long_signature);
             ("protected_headers", protected);
             ("unprotected_headers", nth 1 items JUndefined);
             ("payload", payload);
             ("signature_info",
               JObj [("length", JNum (Z.of_nat (List.length sig)));
                     ("preview",
                       JArr (map (fun b => JNum (byte_to_Z b))
                                 (firstn 16 sig)))])]
    /\ (List.length (firstn 16 sig) <= 16)%nat
    /\ (List.length sig = 10000%nat ->
        List.length (firstn 16 sig) = 16%nat).
Proof.
  apply (@signature_is_summarized NodeLib Examples.long_signature).
  vm_compute. reflexivity.
Defined.

(** C10 (as the code has it): [canDecodeData] is false for the empty
    buffer; when it is true, the buffer is not empty and its structural
    decode succeeds, and [decode] returns the success envelope exactly
    when serializing the decoded tree ([JSON.stringify], then the
    construction of the payload) does not throw; it returns an error
    envelope when that throws. *)
Theorem canDecodeData_sound (L : JsLib) (p : Base64Message) :
  (Base64Message_toBuffer p = Ok [] -> CborDecoder.canDecodeData p = false)
  /\ (CborDecoder.canDecodeData p = true ->
      exists buffer decoded,
        Base64Message_toBuffer p = Ok buffer
        /\ buffer <> []
        /\ cbor_decode buffer = Ok decoded
        /\ forall hint,
            CborDecoder.decode p hint =
            match JSON_stringify (CborDecoder.rendered_structure decoded) with
            | Ok jsonString =>
                match Base64Message_fromString jsonString with
                | Ok msg => success_envelope msg
                | Throw e => error_envelope e
                end
            | Throw e => error_envelope e
            end).
Proof.
  split.
  - intros H. unfold CborDecoder.canDecodeData. rewrite H. reflexivity.
  - unfold CborDecoder.canDecodeData.
    destruct (Base64Message_toBuffer p) as [buffer|e] eqn:Hb; simpl;
      [|discriminate].
    destruct buffer as [|firstByte rest]; [discriminate|].
    destruct ((Z.land (Z.shiftr (byte_to_Z firstByte) 5) 7 <? 0)
              || (Z.land (Z.shiftr (byte_to_Z firstByte) 5) 7 >? 7));
      [discriminate|].
    destruct (cbor_decode (firstByte :: rest)) as [decoded|e] eqn:Hd; simpl;
      [|discriminate].
    intros _. exists (firstByte :: rest), decoded.
    repeat split; try assumption; [discriminate|].
    intros hint. apply decode_of_tree with (buffer := firstByte :: rest);
      assumption.
Qed.

(** C10, witness: the payload holding the CBOR integer 1. *)
Lemma canDecodeData_sound_witness :
  exists buffer decoded,
    Base64Message_toBuffer (JsLib := NodeLib) (Examples.payload_of_bytes [1])
    = Ok buffer
    /\ buffer <> []
    /\ cbor_decode (JsLib := NodeLib) buffer = Ok decoded
    /\ forall hint,
        CborDecoder.decode (L := NodeLib) (Examples.payload_of_bytes [1]) hint =
        match JSON_stringify (JsLib := NodeLib)
                (CborDecoder.rendered_structure (L := NodeLib) decoded) with
        | Ok jsonString =>
            match Base64Message_fromString (JsLib := NodeLib) jsonString with
            | Ok msg => success_envelope msg
            | Throw e => error_envelope e
            end
        | Throw e => error_envelope e
        end.
Proof.
  apply (proj2 (canDecodeData_sound NodeLib (Examples.payload_of_bytes [1]))).
  vm_compute. reflexivity.
Defined.

(** C10, counterexample: the nine bytes of the CBOR integer 2^64 - 1
    decode (to a [BigInt]), so [canDecodeData] is true, and [decode]
    returns an error envelope, [JSON.stringify] throwing on the
    [BigInt]. *)
Lemma canDecodeData_true_decode_error :
  CborDecoder.canDecodeData (L := NodeLib) Examples.big_integer = true
  /\ CborDecoder.decode (L := NodeLib) Examples.big_integer None
     = {| message := None;
          error := Some "Failed to decode CBOR: Do not know how to serialize a BigInt";
          decoder := NONE |}.
Proof.
  split; vm_compute; reflexivity.
Qed.

(* ===================================================================== *)
(** * Properties of the encoder *)

(** C8 (as the code has it): for every input text [encodeCbor] returns
    a result and does not throw.  The value it encodes is the parsed
    JSON value or, when the text does not parse, the text itself as a
    string: malformed JSON alone never gives a failure.  The result is
    success, with the base64 text of the CBOR bytes as its data, when
    [cbor.encode] returns; when [cbor.encode] throws, it is a failure
    whose error is [CBOR encoding failed: ] followed by the message of
    the exception, and it has no data. *)
Theorem encodeCbor_result (L : JsLib) (input : string) :
  CborCoseEncoder.encodeCbor input =
  match cbor_encode match JSON_parse input with
                    | Ok value => value
                    | Throw _ => JStr input
                    end with
  | Ok cborBuffer =>
      {| CborCoseEncoder.success := true;
         CborCoseEncoder.data := Some (Base64_fromUint8Array cborBuffer);
         CborCoseEncoder.error := None |}
  | Throw e =>
      {| CborCoseEncoder.success := false;
         CborCoseEncoder.data := None;
         CborCoseEncoder.error :=
           Some ("CBOR encoding failed: " ++ error_message e) |}
  end.
Proof.
  unfold CborCoseEncoder.encodeCbor.
  destruct (JSON_parse input) as [value|e]; cbn [try_or bind];
    [destruct (cbor_encode value) | destruct (cbor_encode (JStr input))];
    reflexivity.
Qed.

(** C8, counterexample: the text of 10,000 arrays nested in each other
    is valid JSON, and [cbor.encode] of its value exhausts the call
    stack: [encodeCbor] returns a failure. *)
Lemma encodeCbor_fails_on_deep_nesting :
  match JSON_parse (JsLib := NodeLib) (Examples.nested_arrays 10000) with
  | Ok _ => true
  | Throw _ => false
  end = true
  /\ CborCoseEncoder.encodeCbor (L := NodeLib) (Examples.nested_arrays 10000)
     = {| CborCoseEncoder.success := false;
          CborCoseEncoder.data := None;
          CborCoseEncoder.error :=
            Some "CBOR encoding failed: Maximum call stack size exceeded" |}.
Proof.
  split; vm_compute; reflexivity.
Qed.

(** C7: when the input text is not valid JSON, or parses to a value
    that is not a JSON object, or parses to an object without a
    [payload] key, [encodeCoseSign1] returns (it does not throw) a result
    with [success] false, an error text and no data; for the object
    without [payload] the error names the missing field. *)
Theorem encodeCoseSign1_rejects (L : JsLib) (input : string) :
  (exists e, JSON_parse input = Throw e)
  \/ (exists v, JSON_parse input = Ok v /\ is_plain_object v = false)
  \/ (exists props, JSON_parse input = Ok (JObj props)
                    /\ Js.lookup "payload" props = None) ->
  (exists msg,
      CborCoseEncoder.encodeCoseSign1 input =
      {| CborCoseEncoder.success := false;
         CborCoseEncoder.data := None;
         CborCoseEncoder.error := Some msg |}
      /\ (msg = CborCoseEncoder.invalid_json_message
          \/ msg = CborCoseEncoder.not_object_message
          \/ msg = CborCoseEncoder.missing_payload_message))
  /\ (forall props,
         JSON_parse input = Ok (JObj props) ->
         CborCoseEncoder.encodeCoseSign1 input =
         CborCoseEncoder.failure CborCoseEncoder.missing_payload_message)
  /\ (forall e,
         JSON_parse input = Throw e ->
         CborCoseEncoder.encodeCoseSign1 input =
         CborCoseEncoder.failure CborCoseEncoder.invalid_json_message).
Proof.
  intros H. unfold CborCoseEncoder.encodeCoseSign1, CborCoseEncoder.failure.
  destruct H as [[e He] | [(v & Hv & Hnot) | (props & Hp & Hl)]].
  - rewrite He. simpl. split; [eauto|]. split; [discriminate|reflexivity].
  - rewrite Hv. split; [|split; [|discriminate]].
    + destruct v; try discriminate; simpl; rewrite ?orb_true_r; simpl;
        eauto 6.
    + intros props E. inversion E; subst. discriminate.
  - rewrite Hp. simpl. rewrite Hl. simpl.
    split; [eauto 6|]. split; [reflexivity|discriminate].
Qed.

(** C7, witness: the input [{"foo": 1}]. *)
Lemma encodeCoseSign1_rejects_witness :
  CborCoseEncoder.encodeCoseSign1 (L := NodeLib) Examples.missing_payload_text
  = CborCoseEncoder.failure CborCoseEncoder.missing_payload_message.
Proof.
  refine (proj1 (proj2 (encodeCoseSign1_rejects NodeLib
                          Examples.missing_payload_text _))
                [("foo", JNum 1)] _).
  - right. right. exists [("foo", JNum 1)]. split; vm_compute; reflexivity.
  - vm_compute. reflexivity.
Defined.

(* ===================================================================== *)
(** * Properties of decoder resolution and of the decoder cache *)

Local Open Scope list_scope.

Lemma find_first {A : Type} (f : A -> bool) (l : list A) :
  match List.find f l with
  | Some x =>
      exists before after,
        l = before ++ x :: after
        /\ Forall (fun y => f y = false) before
        /\ f x = true
  | None => Forall (fun y => f y = false) l
  end.
Proof.
  induction l as [|a l IH]; simpl.
  - constructor.
  - destruct (f a) eqn:Fa.
    + exists [], l. repeat split; [constructor | exact Fa].
    + destruct (List.find f l) as [x|].
      * destruct IH as (before & after & -> & Hb & Hx).
        exists (a :: before), after. repeat split; [|exact Hx].
        constructor; assumption.
      * constructor; assumption.
Qed.

(** The single pass of [findDecoder], decoder by decoder: the first
    decoder for which the topic-name predicate matches the path or the
    byte-sniffing predicate matches the latest payload, with its first
    declared format. *)
Lemma findDecoder_first_match (L : JsLib)
      (SparkplugDecoder BinaryDecoder StringDecoder : MessageDecoder)
      (node : TreeNode) :
  match findDecoder SparkplugDecoder BinaryDecoder StringDecoder node with
  | Some binding =>
      exists before after,
        decoders SparkplugDecoder BinaryDecoder StringDecoder
        = before ++ td_decoder binding :: after
        /\ Forall (fun d => topic_matches d (path node) = false
                            /\ data_matches d (node_message node) = false)
                  before
        /\ (topic_matches (td_decoder binding) (path node) = true
            \/ data_matches (td_decoder binding) (node_message node) = true)
        /\ td_format binding = List.hd_error (formats (td_decoder binding))
  | None =>
      Forall (fun d => topic_matches d (path node) = false
                       /\ data_matches d (node_message node) = false)
             (decoders SparkplugDecoder BinaryDecoder StringDecoder)
  end.
Proof.
  unfold findDecoder, findDecoderIn.
  pose proof (find_first (decoder_matches node)
                (decoders SparkplugDecoder BinaryDecoder StringDecoder)) as H.
  assert (Hall : forall l,
             Forall (fun y => decoder_matches node y = false) l ->
             Forall (fun d => topic_matches d (path node) = false
                              /\ data_matches d (node_message node) = false) l).
  { intros l Hl. eapply Forall_impl; [|exact Hl].
    intros d Hd. apply orb_false_iff. exact Hd. }
  destruct (List.find (decoder_matches node)
              (decoders SparkplugDecoder BinaryDecoder StringDecoder)) as [d|].
  - destruct H as (before & after & Heq & Hb & Hd).
    exists before, after. simpl. repeat split; auto.
    apply orb_true_iff. exact Hd.
  - auto.
Qed.

(** Resolution in two passes, as the specification words it: the first
    decoder whose topic-name predicate matches, no decoder before it
    matching by name; or, no decoder at all matching by name, the first
    whose byte-sniffing predicate matches the latest payload. *)
Lemma resolve_two_passes (registry : list MessageDecoder) (node : TreeNode) :
  match Spec.resolve registry node with
  | Some binding =>
      td_format binding = List.hd_error (formats (td_decoder binding))
      /\ exists before after,
          registry = before ++ td_decoder binding :: after
          /\ ((topic_matches (td_decoder binding) (path node) = true
               /\ Forall (fun d => topic_matches d (path node) = false) before)
              \/ (Forall (fun d => topic_matches d (path node) = false)
                         registry
                  /\ data_matches (td_decoder binding) (node_message node)
                     = true
                  /\ Forall (fun d =>
                               data_matches d (node_message node) = false)
                            before))
  | None =>
      Forall (fun d => topic_matches d (path node) = false
                       /\ data_matches d (node_message node) = false)
             registry
  end.
Proof.
  unfold Spec.resolve.
  pose proof (find_first (fun d => topic_matches d (path node)) registry)
    as Ht.
  destruct (List.find (fun d => topic_matches d (path node)) registry)
    as [d|].
  - destruct Ht as (before & after & Heq & Hb & Hd).
    cbn [td_format td_decoder]. split; [reflexivity|].
    exists before, after. split; [exact Heq|]. left. split; assumption.
  - pose proof (find_first (fun d => data_matches d (node_message node))
                  registry) as Hs.
    destruct (List.find (fun d => data_matches d (node_message node))
                registry) as [d|].
    + destruct Hs as (before & after & Heq & Hb & Hd).
      cbn [td_format td_decoder]. split; [reflexivity|].
      exists before, after. split; [exact Heq|]. right. auto.
    + revert Ht Hs. clear. intros Ht Hs.
      induction registry as [|d registry IH]; [constructor|].
      inversion Ht; subst. inversion Hs; subst.
      constructor; [split; assumption | apply IH; assumption].
Qed.

(** When only the first decoder of a registry of four may match by topic
    name, one pass and two passes find the same decoder. *)
Lemma single_pass_two_passes (node : TreeNode) (d1 d2 d3 d4 : MessageDecoder) :
  canDecodeTopic d2 = None ->
  canDecodeTopic d3 = None ->
  canDecodeTopic d4 = None ->
  findDecoderIn [d1; d2; d3; d4] node = Spec.resolve [d1; d2; d3; d4] node.
Proof.
  intros H2 H3 H4.
  unfold findDecoderIn, Spec.resolve.
  cbn [List.find]. unfold decoder_matches, topic_matches.
  rewrite H2, H3, H4. cbn [orb].
  destruct (canDecodeTopic d1) as [f|]; cbn [orb];
    [destruct (f (path node)); cbn [orb]; [reflexivity|]|];
    destruct (data_matches d1 (node_message node));
    reflexivity.
Qed.



Section CacheFacts.
Context {L : JsLib}.
Variables SparkplugDecoder BinaryDecoder StringDecoder : MessageDecoder.

Let step := TopicViewModel.step SparkplugDecoder BinaryDecoder StringDecoder.
Let run := TopicViewModel.run SparkplugDecoder BinaryDecoder StringDecoder.

(** An event other than a write keeps a resolved binding, and a read
    returns it. *)
Lemma step_keeps_binding (e : TopicViewModel.event) (w : TopicViewModel.World)
      (b : TopicDecoder) :
  TopicViewModel._decoder (TopicViewModel.vm w) = Some b ->
  TopicViewModel.is_write e = false ->
  TopicViewModel._decoder (TopicViewModel.vm (snd (step e w))) = Some b
  /\ (forall r, fst (step e w) = Some r -> r = Some b)
  /\ (e = TopicViewModel.ReadDecoder -> step e w = (Some (Some b), w)).
Proof.
  intros Hb He. subst step.
  destruct e; simpl in *; try discriminate; try (repeat split; auto; discriminate).
  - unfold TopicViewModel.get_decoder. rewrite Hb. simpl.
    repeat split; auto. intros r E. inversion E. reflexivity.
  - unfold TopicViewModel.run_timer.
    destruct (TopicViewModel.timers w); simpl; repeat split; auto; discriminate.
  - unfold TopicViewModel.release, TopicViewModel.destroy; simpl.
    destruct (TopicViewModel.referenceCounter (TopicViewModel.vm w) - 1 <=? 0);
      simpl; [destruct (TopicViewModel.owner (TopicViewModel.vm w)); simpl|];
      repeat split; auto; discriminate.
  - unfold TopicViewModel.destroy.
    destruct (TopicViewModel.owner (TopicViewModel.vm w)); simpl;
      repeat split; auto; discriminate.
Qed.

Lemma run_keeps_binding (es : list TopicViewModel.event)
      (w : TopicViewModel.World) (b : TopicDecoder) :
  TopicViewModel._decoder (TopicViewModel.vm w) = Some b ->
  forallb (fun e => negb (TopicViewModel.is_write e)) es = true ->
  Forall (fun r => r = Some b) (fst (run es w))
  /\ TopicViewModel._decoder (TopicViewModel.vm (snd (run es w))) = Some b.
Proof.
  revert w. induction es as [|e es IH]; intros w Hb Hes; simpl.
  - split; [constructor | exact Hb].
  - simpl in Hes. apply andb_true_iff in Hes as [He Hes].
    apply negb_true_iff in He.
    destruct (step_keeps_binding e w b Hb He) as (Hb' & Hr & _).
    subst run step. simpl.
    destruct (TopicViewModel.step SparkplugDecoder BinaryDecoder StringDecoder
                e w) as [r w'] eqn:Es.
    simpl in Hb', Hr. specialize (IH w' Hb' Hes). simpl in IH.
    destruct (TopicViewModel.run SparkplugDecoder BinaryDecoder StringDecoder
                es w') as [rs w''].
    simpl in *. destruct IH as [IH1 IH2]. split; [|exact IH2].
    destruct r as [d|]; [|exact IH1].
    constructor; [apply Hr; reflexivity | exact IH1].
Qed.

End CacheFacts.

(** C9: once the binding of a view model is resolved, whatever else
    happens (messages arriving on the topic, reads, timers, retain,
    release, destroy, selection), as long as the setter is not called,
    every read of the [decoder] property returns that same binding and
    the cached binding is unchanged; a message arriving changes nothing
    of the view model. *)
Theorem decoder_cache_survives_messages (L : JsLib)
        (SparkplugDecoder BinaryDecoder StringDecoder : MessageDecoder)
        (es : list TopicViewModel.event) (w : TopicViewModel.World)
        (b : TopicDecoder) :
  TopicViewModel._decoder (TopicViewModel.vm w) = Some b ->
  forallb (fun e => negb (TopicViewModel.is_write e)) es = true ->
  Forall (fun r => r = Some b)
         (fst (TopicViewModel.run SparkplugDecoder BinaryDecoder
                 StringDecoder es w))
  /\ TopicViewModel._decoder
       (TopicViewModel.vm
          (snd (TopicViewModel.run SparkplugDecoder BinaryDecoder
                  StringDecoder es w)))
     = Some b
  /\ (forall m,
         TopicViewModel.vm (TopicViewModel.message_arrives m w)
         = TopicViewModel.vm w)
  /\ (forall m,
         fst (TopicViewModel.get_decoder SparkplugDecoder BinaryDecoder
                StringDecoder (TopicViewModel.message_arrives m w))
         = Some b).
Proof.
  intros Hb Hes.
  destruct (run_keeps_binding SparkplugDecoder BinaryDecoder StringDecoder
              es w b Hb Hes) as [H1 H2].
  repeat split; try assumption.
  intros m. unfold TopicViewModel.get_decoder. simpl. rewrite Hb. reflexivity.
Qed.

(** C9, witness: a view model bound to the string decoder; two CBOR
    messages arrive, with reads in between and after. *)
Lemma decoder_cache_survives_messages_witness :
  let b := {| td_decoder := Examples.text_by_topic;
              td_format := Some "string" |} in
  let es := [TopicViewModel.ReadDecoder;
             TopicViewModel.MessageArrives
               {| payload := Some (Examples.payload_of_bytes [1]) |};
             TopicViewModel.ReadDecoder;
             TopicViewModel.MessageArrives
               {| payload := Some Examples.big_integer |};
             TopicViewModel.Retain;
             TopicViewModel.ReadDecoder] in
  Forall (fun r => r = Some b)
         (fst (TopicViewModel.run (L := NodeLib) Examples.sparkplug
                 Examples.binary Examples.text_by_topic es
                 Examples.resolved_world)).
Proof.
  intros b es.
  apply (decoder_cache_survives_messages NodeLib Examples.sparkplug
           Examples.binary Examples.text_by_topic es
           Examples.resolved_world b);
    reflexivity.
Defined.

(* ===================================================================== *)
(** * The executable libraries satisfy the laws *)

(** Linear arithmetic with division and remainder by constants. *)
Ltac div_lia := Z.to_euclidean_division_equations; lia.

Lemma byte_to_Z_range (b : byte) : 0 <= byte_to_Z b < 256.
Proof.
  unfold byte_to_Z. pose proof (Byte.to_N_bounded b). lia.
Qed.

Lemma byte_of_to_Z (b : byte) : byte_of_Z (byte_to_Z b) = b.
Proof.
  unfold byte_of_Z. pose proof (byte_to_Z_range b) as R.
  rewrite Z.mod_small by exact R.
  unfold byte_to_Z. rewrite N2Z.id, Byte.of_to_N. reflexivity.
Qed.

Lemma byte_to_of_Z (z : Z) : 0 <= z < 256 -> byte_to_Z (byte_of_Z z) = z.
Proof.
  intros R. unfold byte_of_Z. rewrite Z.mod_small by exact R.
  destruct (Byte.of_N (Z.to_N z)) as [b|] eqn:E.
  - apply Byte.to_of_N in E. unfold byte_to_Z. rewrite E. lia.
  - apply Byte.of_N_None_iff in E. lia.
Qed.

Lemma byte_of_Z_eq (z : Z) (b : byte) : z = byte_to_Z b -> byte_of_Z z = b.
Proof.
  intros ->. apply byte_of_to_Z.
Qed.

Lemma list_ind3 {A : Type} (P : list A -> Prop) :
  P [] ->
  (forall a, P [a]) ->
  (forall a b, P [a; b]) ->
  (forall a b c l, P l -> P (a :: b :: c :: l)) ->
  forall l, P l.
Proof.
  intros H0 H1 H2 H3.
  fix IH 1.
  intros [|a [|b [|c l]]].
  - exact H0.
  - apply H1.
  - apply H2.
  - apply H3. apply IH.
Qed.

Module Base64Facts.

Lemma char_ok_all :
  forallb (fun k => Base64.char_ok (Z.of_nat k)) (seq 0 64) = true.
Proof.
  vm_compute. reflexivity.
Qed.

Lemma index_of_char_of (n : Z) :
  0 <= n < 64 ->
  Base64.index_of (Base64.char_of n) = Some n
  /\ Byte.eqb (Base64.char_of n) Base64.pad = false.
Proof.
  intros R.
  pose proof (proj1 (forallb_forall _ _) char_ok_all (Z.to_nat n)) as H.
  cbv beta in H.
  rewrite Z2Nat.id in H by lia.
  assert (Hin : In (Z.to_nat n) (seq 0 64)) by (apply in_seq; lia).
  specialize (H Hin). unfold Base64.char_ok in H.
  destruct (Base64.index_of (Base64.char_of n)) as [m|]; [|discriminate].
  apply andb_true_iff in H as [Hm Hp].
  apply Z.eqb_eq in Hm. apply negb_true_iff in Hp. subst m. auto.
Qed.

Lemma sextets_to_pad_char (n : Z) (rest : list byte) :
  0 <= n < 64 ->
  Base64.sextets_to_pad (Base64.char_of n :: rest)
  = n :: Base64.sextets_to_pad rest.
Proof.
  intros R. destruct (index_of_char_of n R) as [Hi Hp].
  simpl. rewrite Hp, Hi. reflexivity.
Qed.

Lemma sextets_to_pad_pad (rest : list byte) :
  Base64.sextets_to_pad (Base64.pad :: rest) = [].
Proof.
  reflexivity.
Qed.

Lemma bytes_round_trip (bs : list byte) :
  Base64.bytes_of_sextets (Base64.sextets_to_pad (Base64.encode_bytes bs)) = bs.
Proof.
  induction bs as [|a|a b|a b c l IH] using list_ind3.
  - reflexivity.
  - pose proof (byte_to_Z_range a).
    cbn [Base64.encode_bytes].
    rewrite !sextets_to_pad_char, sextets_to_pad_pad by div_lia.
    cbn [Base64.bytes_of_sextets]. f_equal.
    apply byte_of_Z_eq. div_lia.
  - pose proof (byte_to_Z_range a). pose proof (byte_to_Z_range b).
    cbn [Base64.encode_bytes].
    rewrite !sextets_to_pad_char, sextets_to_pad_pad by div_lia.
    cbn [Base64.bytes_of_sextets].
    f_equal; [|f_equal]; apply byte_of_Z_eq; div_lia.
  - pose proof (byte_to_Z_range a). pose proof (byte_to_Z_range b).
    pose proof (byte_to_Z_range c).
    cbn [Base64.encode_bytes].
    rewrite !sextets_to_pad_char by div_lia.
    cbn [Base64.bytes_of_sextets]. rewrite IH.
    f_equal; [|f_equal; [|f_equal]]; apply byte_of_Z_eq; div_lia.
Qed.

Lemma Buffer_from_base64_encode (bs : list byte) :
  Base64.Buffer_from_base64 (Base64.encode bs) = bs.
Proof.
  unfold Base64.Buffer_from_base64, Base64.encode, bytes_of_string,
    string_of_bytes.
  rewrite list_byte_of_string_of_list_byte. apply bytes_round_trip.
Qed.

End Base64Facts.

Module CborFacts.

Lemma byte_to_of_Z_mod (z : Z) : byte_to_Z (byte_of_Z z) = z mod 256.
Proof.
  unfold byte_of_Z.
  assert (R : 0 <= z mod 256 < 256) by (apply Z.mod_pos_bound; lia).
  destruct (Byte.of_N (Z.to_N (z mod 256))) as [b|] eqn:E.
  - apply Byte.to_of_N in E. unfold byte_to_Z. rewrite E. lia.
  - apply Byte.of_N_None_iff in E. lia.
Qed.

Lemma be_value_app (l : list byte) (b : byte) :
  Cbor.be_value (l ++ [b]) = Cbor.be_value l * 256 + byte_to_Z b.
Proof.
  unfold Cbor.be_value. rewrite fold_left_app. reflexivity.
Qed.

Lemma be_bytes_length (k : nat) (n : Z) : List.length (Cbor.be_bytes k n) = k.
Proof.
  revert n. induction k as [|k IH]; intros n; simpl; [reflexivity|].
  rewrite length_app, IH. simpl. lia.
Qed.

Lemma be_value_be_bytes (k : nat) (n : Z) :
  0 <= n < 256 ^ Z.of_nat k -> Cbor.be_value (Cbor.be_bytes k n) = n.
Proof.
  revert n. induction k as [|k IH]; intros n R.
  - simpl in *. unfold Cbor.be_value. simpl. lia.
  - cbn [Cbor.be_bytes]. rewrite be_value_app, byte_to_of_Z_mod.
    rewrite Nat2Z.inj_succ, Z.pow_succ_r in R by lia.
    rewrite IH by div_lia. div_lia.
Qed.

(** Reading a head that [head] wrote. *)
Lemma read_head_head (major n : Z) (rest : list byte) :
  0 <= major < 8 -> 0 <= n < Cbor.two64 ->
  exists info,
    Cbor.read_head (Cbor.head major n ++ rest) = Some (major, info, n, rest).
Proof.
  intros Rm Rn. unfold Cbor.two64 in Rn.
  assert (Hsized : forall (c : Z) (k : nat),
             24 <= c < 28 ->
             0 <= n < 256 ^ Z.of_nat k ->
             (c = 24 /\ k = 1%nat) \/ (c = 25 /\ k = 2%nat)
             \/ (c = 26 /\ k = 4%nat) \/ (c = 27 /\ k = 8%nat) ->
             Cbor.read_head
               ((byte_of_Z (major * 32 + c) :: Cbor.be_bytes k n) ++ rest)
             = Some (major, c, n, rest)).
  { intros c k Rc Rk Hk. unfold Cbor.read_head. cbn [app].
    rewrite byte_to_of_Z_mod.
    replace ((major * 32 + c) mod 256 / 32) with major by div_lia.
    replace ((major * 32 + c) mod 256 mod 32) with c by div_lia.
    assert (Hlen : (List.length (Cbor.be_bytes k n ++ rest) <? k)%nat = false).
    { apply Nat.ltb_ge. rewrite length_app, be_bytes_length. lia. }
    assert (Hf : firstn k (Cbor.be_bytes k n ++ rest) = Cbor.be_bytes k n).
    { rewrite firstn_app, be_bytes_length, Nat.sub_diag. simpl.
      rewrite app_nil_r. apply firstn_all2. rewrite be_bytes_length. lia. }
    assert (Hs : skipn k (Cbor.be_bytes k n ++ rest) = rest).
    { rewrite skipn_app, be_bytes_length, Nat.sub_diag. simpl.
      rewrite skipn_all2 by (rewrite be_bytes_length; lia). reflexivity. }
    destruct Hk as [[-> ->] | [[-> ->] | [[-> ->] | [-> ->]]]];
      cbn [Z.ltb Z.eqb Z.compare Pos.compare Pos.compare_cont Pos.eqb];
      rewrite Hlen, Hf, Hs, be_value_be_bytes by exact Rk; reflexivity. }
  unfold Cbor.head.
  destruct (n <? 24) eqn:E0.
  - exists n. unfold Cbor.read_head. cbn [app].
    rewrite byte_to_of_Z_mod.
    replace ((major * 32 + n) mod 256 / 32) with major by div_lia.
    replace ((major * 32 + n) mod 256 mod 32) with n by div_lia.
    rewrite E0. reflexivity.
  - destruct (n <? 256) eqn:E1;
      [exists 24; apply Hsized; [lia | simpl; lia | auto]|].
    destruct (n <? 65536) eqn:E2;
      [exists 25; apply Hsized; [lia | simpl; lia | auto]|].
    destruct (n <? 4294967296) eqn:E3;
      [exists 26; apply Hsized; [lia | simpl; lia | auto]|].
    exists 27; apply Hsized; [lia | simpl; lia | auto 6].
Qed.

Lemma head_nonempty (major n : Z) : (1 <= List.length (Cbor.head major n))%nat.
Proof.
  unfold Cbor.head.
  repeat match goal with |- context [if ?c then _ else _] => destruct c end;
    simpl; lia.
Qed.

Lemma jsval_nested_ind (P : jsval -> Prop) :
  P JUndefined -> P JNull -> (forall b, P (JBool b)) ->
  (forall n, P (JNum n)) -> (forall n, P (JBigInt n)) ->
  (forall s, P (JStr s)) -> (forall bs, P (JBytes bs)) ->
  (forall items, Forall P items -> P (JArr items)) ->
  (forall props, Forall (fun kv => P (snd kv)) props -> P (JObj props)) ->
  (forall entries, P (JMap entries)) ->
  (forall t x, P x -> P (JTagged t x)) ->
  forall v, P v.
Proof.
  intros Hu Hn Hb Hnum Hbig Hs Hbs Harr Hobj Hmap Htag.
  fix IH 1.
  intros [| |b|n|n|s|bs|items|props|entries|t x].
  - exact Hu.
  - exact Hn.
  - apply Hb.
  - apply Hnum.
  - apply Hbig.
  - apply Hs.
  - apply Hbs.
  - apply Harr. induction items as [|x items IHl]; constructor.
    + apply IH.
    + exact IHl.
  - apply Hobj. induction props as [|[k x] props IHl]; constructor.
    + apply IH.
    + exact IHl.
  - apply Hmap.
  - apply Htag. apply IH.
Qed.

Lemma encode_arr (items : list jsval) :
  Cbor.encode (JArr items)
  = Cbor.head 4 (Cbor.len items) ++ Cbor.encode_items items.
Proof.
  reflexivity.
Qed.

Lemma encode_obj (props : list (string * jsval)) :
  Cbor.encode (JObj props)
  = Cbor.head 5 (Cbor.len props) ++ Cbor.encode_props props.
Proof.
  cbn [Cbor.encode]. f_equal. unfold Cbor.encode_props.
  induction props as [|[k x] props IH]; [reflexivity|].
  cbn [flat_map fst snd]. rewrite IH. cbn [Cbor.encode].
  rewrite <- !app_assoc. reflexivity.
Qed.

Lemma encodable_arr (items : list jsval) :
  encodable (JArr items)
  = (Cbor.len items <? Cbor.two64) && forallb encodable items.
Proof.
  reflexivity.
Qed.

Lemma encodable_obj (props : list (string * jsval)) :
  encodable (JObj props)
  = (Cbor.len props <? Cbor.two64) && distinct (map fst props)
    && forallb (fun kv => (Cbor.len (bytes_of_string (fst kv)) <? Cbor.two64)
                          && encodable (snd kv)) props.
Proof.
  cbn [encodable]. f_equal.
  induction props as [|[k x] props IH]; [reflexivity|].
  cbn [forallb fst snd]. rewrite IH. reflexivity.
Qed.

Lemma encode_nonempty (v : jsval) : (1 <= List.length (Cbor.encode v))%nat.
Proof.
  destruct v as [| |b|n|n|s|bs|items|props|entries|t x];
    rewrite ?encode_arr, ?encode_obj; cbn [Cbor.encode];
    repeat match goal with
           | |- context [if ?c then _ else _] => destruct c
           end;
    rewrite ?length_app;
    try match goal with
        | |- context [Cbor.head ?m ?n] => pose proof (head_nonempty m n)
        end;
    cbn [List.length]; lia.
Qed.

(** The body of [decode_item] once the head is read. *)
Lemma decode_item_unfold (f : nat) (bs rest : list byte) (major info n : Z) :
  Cbor.read_head bs = Some (major, info, n, rest) ->
  Cbor.decode_item (S f) bs =
  if major =? 0 then
    Ok (if n <? Cbor.two53 then JNum n else JBigInt n, rest)
  else if major =? 1 then
    Ok (if n <? Cbor.two53 then JNum (-1 - n) else JBigInt (-1 - n), rest)
  else if major =? 2 then
    if Cbor.len rest <? n then Throw Cbor.insufficient
    else Ok (JBytes (firstn (Z.to_nat n) rest), skipn (Z.to_nat n) rest)
  else if major =? 3 then
    if Cbor.len rest <? n then Throw Cbor.insufficient
    else Ok (JStr (string_of_bytes (firstn (Z.to_nat n) rest)),
             skipn (Z.to_nat n) rest)
  else if major =? 4 then
    r <- Cbor.decode_items f n rest ;; Ok (JArr (fst r), snd r)
  else if major =? 5 then
    r <- Cbor.decode_entries f n rest ;; Ok (Cbor.make_map (fst r), snd r)
  else if major =? 6 then
    r <- Cbor.decode_item f rest ;; Ok (Cbor.make_tagged n (fst r), snd r)
  else
    if info =? 20 then Ok (JBool false, rest)
    else if info =? 21 then Ok (JBool true, rest)
    else if info =? 22 then Ok (JNull, rest)
    else if info =? 23 then Ok (JUndefined, rest)
    else Throw (JsError "simple values and floats are not modelled").
Proof.
  intros H. simpl. rewrite H. reflexivity.
Qed.

Lemma read_head_simple (c : Z) (rest : list byte) :
  20 <= c < 24 ->
  Cbor.read_head (byte_of_Z (224 + c) :: rest) = Some (7, c, c, rest).
Proof.
  intros R. unfold Cbor.read_head. rewrite byte_to_of_Z_mod.
  replace ((224 + c) mod 256 / 32) with 7 by div_lia.
  replace ((224 + c) mod 256 mod 32) with c by div_lia.
  destruct (c <? 24) eqn:E; [reflexivity | lia].
Qed.

Lemma firstn_len_app {A : Type} (l rest : list A) :
  firstn (Z.to_nat (Cbor.len l)) (l ++ rest) = l
  /\ skipn (Z.to_nat (Cbor.len l)) (l ++ rest) = rest
  /\ (Cbor.len (l ++ rest) <? Cbor.len l) = false.
Proof.
  unfold Cbor.len. rewrite Nat2Z.id. repeat split.
  - rewrite firstn_app, Nat.sub_diag, firstn_all. simpl. apply app_nil_r.
  - rewrite skipn_app, Nat.sub_diag, skipn_all. reflexivity.
  - apply Z.ltb_ge. rewrite length_app. lia.
Qed.

(** A text string and a byte string read back. *)
Lemma decode_item_str (s : string) (f : nat) (rest : list byte) :
  (Cbor.len (bytes_of_string s) <? Cbor.two64) = true ->
  Cbor.decode_item (S f) (Cbor.encode (JStr s) ++ rest) = Ok (JStr s, rest).
Proof.
  intros Hl. apply Z.ltb_lt in Hl. cbn [Cbor.encode].
  rewrite <- app_assoc.
  destruct (read_head_head 3 (Cbor.len (bytes_of_string s))
              (bytes_of_string s ++ rest)) as [info Hh];
    [lia | unfold Cbor.len in *; lia |].
  rewrite (decode_item_unfold f _ _ _ _ _ Hh). cbn [Z.eqb].
  destruct (firstn_len_app (bytes_of_string s) rest) as (Hf & Hs & Hc).
  rewrite Hc, Hf, Hs. unfold string_of_bytes, bytes_of_string.
  rewrite string_of_list_byte_of_string. reflexivity.
Qed.

Lemma decode_item_bytes (bs : list byte) (f : nat) (rest : list byte) :
  (Cbor.len bs <? Cbor.two64) = true ->
  Cbor.decode_item (S f) (Cbor.encode (JBytes bs) ++ rest) = Ok (JBytes bs, rest).
Proof.
  intros Hl. apply Z.ltb_lt in Hl. cbn [Cbor.encode].
  rewrite <- app_assoc.
  destruct (read_head_head 2 (Cbor.len bs) (bs ++ rest)) as [info Hh];
    [lia | unfold Cbor.len in *; lia |].
  rewrite (decode_item_unfold f _ _ _ _ _ Hh). cbn [Z.eqb].
  destruct (firstn_len_app bs rest) as (Hf & Hs & Hc).
  rewrite Hc, Hf, Hs. reflexivity.
Qed.

Lemma decode_items_encode (items : list jsval) :
  Forall reads_back items ->
  forall fuel rest,
    (3 * List.length (Cbor.encode_items items) + 1 <= fuel)%nat ->
    Cbor.decode_items fuel (Cbor.len items) (Cbor.encode_items items ++ rest)
    = Ok (items, rest).
Proof.
  induction 1 as [|x items Hx _ IH]; intros fuel rest Hf.
  - destruct fuel as [|f]; [lia|]. reflexivity.
  - destruct fuel as [|f]; [lia|].
    unfold Cbor.encode_items in *. cbn [flat_map] in *.
    rewrite length_app in Hf. pose proof (encode_nonempty x).
    rewrite <- app_assoc. cbn [Cbor.decode_items].
    assert (Hc : (Cbor.len (x :: items) <=? 0) = false).
    { apply Z.leb_gt. unfold Cbor.len. simpl. lia. }
    rewrite Hc, (Hx f) by lia. cbn [bind fst snd].
    replace (Cbor.len (x :: items) - 1) with (Cbor.len items)
      by (unfold Cbor.len; cbn [List.length]; lia).
    rewrite IH by lia. reflexivity.
Qed.

Lemma decode_entries_encode (props : list (string * jsval)) :
  Forall (fun kv => reads_back (snd kv)) props ->
  forallb (fun kv => Cbor.len (bytes_of_string (fst kv)) <? Cbor.two64) props
  = true ->
  forall fuel rest,
    (3 * List.length (Cbor.encode_props props) + 1 <= fuel)%nat ->
    Cbor.decode_entries fuel (Cbor.len props) (Cbor.encode_props props ++ rest)
    = Ok (as_entries props, rest).
Proof.
  induction 1 as [|[k x] props Hx _ IH]; intros Hk fuel rest Hf.
  - destruct fuel as [|f]; [lia|]. reflexivity.
  - destruct fuel as [|f]; [lia|].
    cbn [forallb fst] in Hk. apply andb_true_iff in Hk as [Hk Hks].
    unfold Cbor.encode_props in *. cbn [flat_map fst snd] in *.
    rewrite !length_app in Hf.
    pose proof (encode_nonempty x). pose proof (encode_nonempty (JStr k)).
    rewrite <- !app_assoc. cbn [Cbor.decode_entries].
    assert (Hc : (Cbor.len ((k, x) :: props) <=? 0) = false).
    { apply Z.leb_gt. unfold Cbor.len. simpl. lia. }
    rewrite Hc. destruct f as [|f']; [lia|].
    rewrite decode_item_str by exact Hk. cbn [bind fst snd].
    rewrite (Hx (S f')) by lia. cbn [bind fst snd].
    replace (Cbor.len ((k, x) :: props) - 1) with (Cbor.len props)
      by (unfold Cbor.len; cbn [List.length]; lia).
    rewrite IH by (assumption || lia). reflexivity.
Qed.

Lemma obj_set_fresh (k : string) (x : jsval) (acc : list (string * jsval)) :
  existsb (String.eqb k) (map fst acc) = false ->
  Cbor.obj_set k x acc = acc ++ [(k, x)].
Proof.
  induction acc as [|[k' y] acc IH]; intros H; [reflexivity|].
  cbn [map fst existsb] in H. apply orb_false_iff in H as [Hk H].
  cbn [Cbor.obj_set]. rewrite Hk, IH by exact H. reflexivity.
Qed.

Lemma fold_obj_set (props acc : list (string * jsval)) :
  distinct (map fst (acc ++ props)) = true ->
  fold_left
    (fun (ps : list (string * jsval)) (kv : jsval * jsval) =>
       match fst kv with
       | JStr k => Cbor.obj_set k (snd kv) ps
       | _ => ps
       end)
    (as_entries props) acc
  = acc ++ props.
Proof.
  revert acc. induction props as [|[k x] props IH]; intros acc H.
  - simpl. rewrite app_nil_r. reflexivity.
  - cbn [as_entries map fold_left fst snd].
    assert (Hfresh : existsb (String.eqb k) (map fst acc) = false).
    { clear IH. induction acc as [|[k' y] acc IHa].
      - reflexivity.
      - cbn [app map fst distinct] in H.
        apply andb_true_iff in H as [Hk' H].
        cbn [map fst existsb]. rewrite (IHa H), orb_false_r.
        apply negb_true_iff in Hk'.
        rewrite map_app, existsb_app in Hk'.
        apply orb_false_iff in Hk' as [_ Hk'].
        cbn [map fst existsb] in Hk'. apply orb_false_iff in Hk' as [Hk' _].
        rewrite String.eqb_sym. exact Hk'. }
    rewrite obj_set_fresh by exact Hfresh.
    fold (as_entries props). rewrite IH.
    + rewrite <- app_assoc. reflexivity.
    + rewrite <- app_assoc. exact H.
Qed.

Lemma make_map_entries (props : list (string * jsval)) :
  distinct (map fst props) = true ->
  Cbor.make_map (as_entries props) = JObj props.
Proof.
  intros H. unfold Cbor.make_map.
  assert (Hs : forallb (fun kv : jsval * jsval => Cbor.is_string (fst kv))
                 (as_entries props) = true).
  { clear H. induction props as [|[k x] props IH]; [reflexivity|exact IH]. }
  rewrite Hs. f_equal. apply (fold_obj_set props []). exact H.
Qed.

Lemma forallb_and {A : Type} (f g : A -> bool) (l : list A) :
  forallb (fun x => f x && g x) l = forallb f l && forallb g l.
Proof.
  induction l as [|a l IH]; [reflexivity|].
  cbn [forallb]. rewrite IH.
  destruct (f a), (g a), (forallb f l); reflexivity.
Qed.

(** Every encodable value reads back. *)
Theorem decode_item_encode (v : jsval) : encodable v = true -> reads_back v.
Proof.
  induction v as [| |b|n|n|s|bs|items IH|props IH|entries|t x IH]
    using jsval_nested_ind;
    intros He fuel rest Hf;
    (destruct fuel as [|f];
     [match type of Hf with
      | context [Cbor.encode ?v] => pose proof (encode_nonempty v)
      end; lia|]).
  - change (Cbor.encode JUndefined) with [byte_of_Z (224 + 23)]. cbn [app].
    rewrite (decode_item_unfold f _ _ _ _ _ (read_head_simple 23 rest ltac:(lia))).
    reflexivity.
  - change (Cbor.encode JNull) with [byte_of_Z (224 + 22)]. cbn [app].
    rewrite (decode_item_unfold f _ _ _ _ _ (read_head_simple 22 rest ltac:(lia))).
    reflexivity.
  - destruct b.
    + change (Cbor.encode (JBool true)) with [byte_of_Z (224 + 21)]. cbn [app].
      rewrite (decode_item_unfold f _ _ _ _ _
                 (read_head_simple 21 rest ltac:(lia))).
      reflexivity.
    + change (Cbor.encode (JBool false)) with [byte_of_Z (224 + 20)]. cbn [app].
      rewrite (decode_item_unfold f _ _ _ _ _
                 (read_head_simple 20 rest ltac:(lia))).
      reflexivity.
  - cbn [encodable] in He. apply andb_true_iff in He as [Hlo Hhi].
    apply Z.leb_le in Hlo. apply Z.ltb_lt in Hhi.
    unfold Cbor.two53 in *. cbn [Cbor.encode].
    destruct (0 <=? n) eqn:E.
    + apply Z.leb_le in E.
      destruct (read_head_head 0 n rest) as [info Hh];
        [lia | unfold Cbor.two64; lia |].
      rewrite (decode_item_unfold f _ _ _ _ _ Hh). cbn [Z.eqb].
      unfold Cbor.two53.
      destruct (n <? 9007199254740992) eqn:E2; [reflexivity | lia].
    + apply Z.leb_gt in E.
      destruct (read_head_head 1 (-1 - n) rest) as [info Hh];
        [lia | unfold Cbor.two64; lia |].
      rewrite (decode_item_unfold f _ _ _ _ _ Hh). cbn [Z.eqb Pos.eqb].
      unfold Cbor.two53.
      destruct (-1 - n <? 9007199254740992) eqn:E2; [|lia].
      replace (-1 - (-1 - n)) with n by lia. reflexivity.
  - discriminate He.
  - apply decode_item_str. exact He.
  - apply decode_item_bytes. exact He.
  - rewrite encodable_arr in He. apply andb_true_iff in He as [Hl Ha].
    apply Z.ltb_lt in Hl.
    assert (Hrb : Forall reads_back items).
    { apply Forall_forall. intros x Hx.
      rewrite Forall_forall in IH. apply IH; [exact Hx|].
      rewrite forallb_forall in Ha. apply Ha. exact Hx. }
    rewrite encode_arr in *. rewrite length_app in Hf.
    pose proof (head_nonempty 4 (Cbor.len items)).
    rewrite <- app_assoc.
    destruct (read_head_head 4 (Cbor.len items)
                (Cbor.encode_items items ++ rest)) as [info Hh];
      [lia | unfold Cbor.len in *; lia |].
    rewrite (decode_item_unfold f _ _ _ _ _ Hh). cbn [Z.eqb Pos.eqb].
    rewrite (decode_items_encode items Hrb) by lia. reflexivity.
  - rewrite encodable_obj in He. apply andb_true_iff in He as [He Ha].
    apply andb_true_iff in He as [Hl Hd]. apply Z.ltb_lt in Hl.
    rewrite forallb_and in Ha. apply andb_true_iff in Ha as [Hk Ha].
    assert (Hrb : Forall (fun kv => reads_back (snd kv)) props).
    { apply Forall_forall. intros kv Hx.
      rewrite Forall_forall in IH. apply IH; [exact Hx|].
      rewrite forallb_forall in Ha. apply Ha. exact Hx. }
    rewrite encode_obj in *. rewrite length_app in Hf.
    pose proof (head_nonempty 5 (Cbor.len props)).
    rewrite <- app_assoc.
    destruct (read_head_head 5 (Cbor.len props)
                (Cbor.encode_props props ++ rest)) as [info Hh];
      [lia | unfold Cbor.len in *; lia |].
    rewrite (decode_item_unfold f _ _ _ _ _ Hh). cbn [Z.eqb Pos.eqb].
    rewrite (decode_entries_encode props Hrb Hk) by lia.
    cbn [bind fst snd]. rewrite make_map_entries by exact Hd. reflexivity.
  - discriminate He.
  - cbn [encodable] in He. apply andb_true_iff in He as [He Hx].
    apply andb_true_iff in He as [He Hbig].
    apply andb_true_iff in He as [Hlo Hhi].
    apply Z.leb_le in Hlo. apply Z.ltb_lt in Hhi.
    cbn [Cbor.encode] in *. rewrite length_app in Hf.
    pose proof (head_nonempty 6 t).
    rewrite <- app_assoc.
    destruct (read_head_head 6 t (Cbor.encode x ++ rest)) as [info Hh];
      [lia | lia |].
    rewrite (decode_item_unfold f _ _ _ _ _ Hh). cbn [Z.eqb Pos.eqb].
    rewrite (IH Hx f rest) by lia. cbn [bind fst snd].
    f_equal. f_equal. unfold Cbor.make_tagged.
    destruct x; try reflexivity.
    cbn [Spec.is_byte_string andb negb] in Hbig.
    apply negb_true_iff, orb_false_iff in Hbig as [H2 H3].
    rewrite H2, H3. reflexivity.
Qed.

(** [Cbor.decode] undoes [Cbor.encode] on the encodable values. *)
Theorem decode_encode (v : jsval) :
  encodable v = true -> Cbor.decode (Cbor.encode v) = Ok v.
Proof.
  intros He. unfold Cbor.decode.
  pose proof (decode_item_encode v He (3 * List.length (Cbor.encode v))%nat [])
    as H.
  rewrite app_nil_r in H. rewrite H by lia. reflexivity.
Qed.

End CborFacts.

Module JsonFacts.

Lemma stringify_at_total (v : jsval) :
  bigint_free v = true ->
  forall indent, exists o, Json.stringify_at indent v = Ok o.
Proof.
  induction v as [| |b|n|n|s|bs|items IH|props IH|entries|t x IH]
    using CborFacts.jsval_nested_ind;
    intros Hb indent; try (cbn [Json.stringify_at]; eauto; fail).
  - destruct b; cbn [Json.stringify_at]; eauto.
  - discriminate Hb.
  - cbn [Json.stringify_at bigint_free] in *.
    match goal with
    | |- exists o, bind ?m _ = _ => assert (Hm : exists ts, m = Ok ts)
    end.
    { induction IH as [|x items Hx _ IHl]; [eauto|].
      apply andb_true_iff in Hb as [Hbx Hbs].
      destruct (Hx Hbx (indent ++ "  ")%string) as [o Ho].
      destruct (IHl Hbs) as [ts Hts].
      rewrite Ho. cbn [bind]. rewrite Hts. cbn [bind]. eauto. }
    destruct Hm as [ts Hts]. rewrite Hts. cbn [bind]. eauto.
  - cbn [Json.stringify_at bigint_free] in *.
    match goal with
    | |- exists o, bind ?m _ = _ => assert (Hm : exists ts, m = Ok ts)
    end.
    { induction IH as [|[k x] props Hx _ IHl]; [eauto|].
      apply andb_true_iff in Hb as [Hbx Hbs]. cbn [snd] in Hx.
      destruct (Hx Hbx (indent ++ "  ")%string) as [o Ho].
      destruct (IHl Hbs) as [ts Hts].
      rewrite Ho. cbn [bind]. rewrite Hts. cbn [bind]. eauto. }
    destruct Hm as [ts Hts]. rewrite Hts. cbn [bind]. eauto.
  - cbn [Json.stringify_at bigint_free] in *.
    destruct (IH Hb (indent ++ "  ")%string) as [o Ho].
    rewrite Ho. cbn [bind]. eauto.
Qed.

(** A plain object without [BigInt] has a JSON text. *)
Lemma stringify_object (props : list (string * jsval)) :
  bigint_free (JObj props) = true ->
  exists s, Json.stringify (JObj props) = Ok (Some s).
Proof.
  intros Hb. unfold Json.stringify.
  assert (forall indent,
             exists ts,
               Json.stringify_at indent (JObj props)
               = Ok (Some (Json.block "{" "}" indent ts))) as H.
  { intros indent. cbn [Json.stringify_at bigint_free] in *.
    match goal with
    | |- exists ts, bind ?m _ = _ => assert (Hm : exists ts, m = Ok ts)
    end.
    { clear - Hb. revert Hb.
      induction props as [|[k x] props IHl]; intros Hb; [eauto|].
      apply andb_true_iff in Hb as [Hbx Hbs].
      destruct (stringify_at_total x Hbx (indent ++ "  ")%string) as [o Ho].
      destruct (IHl Hbs) as [ts Hts].
      rewrite Ho. cbn [bind]. rewrite Hts. cbn [bind]. eauto. }
    destruct Hm as [ts Hts]. rewrite Hts. cbn [bind]. eauto. }
  destruct (H ""%string) as [ts Hts]. eauto.
Qed.

End JsonFacts.

Lemma encodable_bigint_free (v : jsval) :
  encodable v = true -> bigint_free v = true.
Proof.
  induction v as [| |b|n|n|s|bs|items IH|props IH|entries|t x IH]
    using CborFacts.jsval_nested_ind;
    intros He; try reflexivity; try discriminate He.
  - rewrite CborFacts.encodable_arr in He.
    apply andb_true_iff in He as [_ He]. cbn [bigint_free].
    induction IH as [|x items Hx _ IHl]; [reflexivity|].
    cbn [forallb] in He. apply andb_true_iff in He as [Hex Hes].
    rewrite (Hx Hex), (IHl Hes). reflexivity.
  - rewrite CborFacts.encodable_obj in He.
    apply andb_true_iff in He as [_ He]. cbn [bigint_free].
    induction IH as [|[k x] props Hx _ IHl]; [reflexivity|].
    cbn [forallb fst snd] in He, Hx.
    apply andb_true_iff in He as [Hex Hes].
    apply andb_true_iff in Hex as [_ Hex].
    rewrite (Hx Hex), (IHl Hes). reflexivity.
  - cbn [encodable] in He. apply andb_true_iff in He as [_ He].
    cbn [bigint_free]. apply IH. exact He.
Qed.

Lemma bigint_free_numbers (bs : list byte) :
  bigint_free (JArr (map (fun b => JNum (byte_to_Z b)) bs)) = true.
Proof.
  cbn [bigint_free]. induction bs as [|b bs IH]; [reflexivity|exact IH].
Qed.

Module ModelFacts.

Lemma fits_arr (items : list jsval) :
  Cbor.fits (JArr items)
  = (Cbor.len items <? Cbor.two64) && forallb Cbor.fits items.
Proof.
  reflexivity.
Qed.

Lemma fits_obj (props : list (string * jsval)) :
  Cbor.fits (JObj props)
  = (Cbor.len props <? Cbor.two64)
    && forallb (fun kv => (Cbor.len (bytes_of_string (fst kv)) <? Cbor.two64)
                          && Cbor.fits (snd kv)) props.
Proof.
  cbn [Cbor.fits]. f_equal.
  induction props as [|[k x] props IH]; [reflexivity|].
  cbn [forallb fst snd]. rewrite IH. reflexivity.
Qed.

(** A value of the model whose sizes fit is one that [Cbor.encode]
    writes and [Cbor.decode] reads back. *)
Lemma in_model_encodable (v : jsval) :
  in_model v = true -> Cbor.fits v = true -> encodable v = true.
Proof.
  induction v as [| |b|n|n|s|bs|items IH|props IH|entries|t x IH]
    using CborFacts.jsval_nested_ind;
    intros Hm Hf; try reflexivity; try discriminate Hm;
    try exact Hm; try exact Hf.
  - rewrite CborFacts.encodable_arr. rewrite fits_arr in Hf.
    apply andb_true_iff in Hf as [Hl Hf]. rewrite Hl. cbn [andb].
    cbn [in_model] in Hm. clear Hl.
    induction IH as [|x items Hx _ IHl]; [reflexivity|].
    cbn [forallb] in Hm, Hf |- *.
    apply andb_true_iff in Hm as [Hm1 Hm2].
    apply andb_true_iff in Hf as [Hf1 Hf2].
    rewrite (Hx Hm1 Hf1), (IHl Hm2 Hf2). reflexivity.
  - rewrite CborFacts.encodable_obj. rewrite fits_obj in Hf.
    apply andb_true_iff in Hf as [Hl Hf]. rewrite Hl. cbn [andb].
    cbn [in_model] in Hm. apply andb_true_iff in Hm as [Hd Hm].
    rewrite Hd. cbn [andb]. clear Hd Hl.
    induction IH as [|[k x] props Hx _ IHl]; [reflexivity|].
    cbn [forallb fst snd] in Hm, Hf, Hx |- *.
    apply andb_true_iff in Hm as [Hm1 Hm2].
    apply andb_true_iff in Hf as [Hf1 Hf2].
    apply andb_true_iff in Hf1 as [Hk Hf1].
    rewrite Hk, (Hx Hm1 Hf1), (IHl Hm2 Hf2). reflexivity.
  - cbn [in_model] in Hm. cbn [Cbor.fits] in Hf. cbn [encodable].
    apply andb_true_iff in Hm as [Hm Hx].
    rewrite Hm, (IH Hx Hf). reflexivity.
Qed.

Lemma json_value_in_model (v : jsval) :
  json_value v = true -> in_model v = true.
Proof.
  induction v as [| |b|n|n|s|bs|items IH|props IH|entries|t x IH]
    using CborFacts.jsval_nested_ind;
    intros H; try reflexivity; try discriminate H.
  - cbn [json_value] in H. cbn [in_model].
    induction IH as [|x items Hx _ IHl]; [reflexivity|].
    cbn [forallb] in H |- *. apply andb_true_iff in H as [H1 H2].
    rewrite (Hx H1), (IHl H2). reflexivity.
  - cbn [json_value] in H. cbn [in_model].
    apply andb_true_iff in H as [Hd H]. rewrite Hd. cbn [andb]. clear Hd.
    induction IH as [|[k x] props Hx _ IHl]; [reflexivity|].
    cbn [forallb fst snd] in H, Hx |- *. apply andb_true_iff in H as [H1 H2].
    rewrite (Hx H1), (IHl H2). reflexivity.
Qed.

Lemma in_model_bigint_free (v : jsval) :
  in_model v = true -> bigint_free v = true.
Proof.
  induction v as [| |b|n|n|s|bs|items IH|props IH|entries|t x IH]
    using CborFacts.jsval_nested_ind;
    intros H; try reflexivity; try discriminate H.
  - cbn [in_model] in H. cbn [bigint_free].
    induction IH as [|x items Hx _ IHl]; [reflexivity|].
    cbn [forallb] in H. apply andb_true_iff in H as [H1 H2].
    rewrite (Hx H1), (IHl H2). reflexivity.
  - cbn [in_model] in H. cbn [bigint_free].
    apply andb_true_iff in H as [_ H].
    induction IH as [|[k x] props Hx _ IHl]; [reflexivity|].
    cbn [forallb fst snd] in H, Hx. apply andb_true_iff in H as [H1 H2].
    rewrite (Hx H1), (IHl H2). reflexivity.
  - cbn [in_model] in H. cbn [bigint_free].
    apply andb_true_iff in H as [_ H]. exact (IH H).
Qed.

(** The entry of a JSON object under a key is a value of the model:
    a value of JSON, or [undefined] when the object has no such key. *)
Lemma get_prop_in_model (k : string) (props : list (string * jsval)) :
  json_value (JObj props) = true ->
  in_model (Js.get_prop k (JObj props)) = true.
Proof.
  cbn [json_value Js.get_prop]. intros H.
  apply andb_true_iff in H as [_ H].
  induction props as [|[k' x] props IH]; [reflexivity|].
  cbn [forallb snd] in H. apply andb_true_iff in H as [Hx H].
  cbn [Js.lookup]. destruct (String.eqb k k').
  - apply json_value_in_model. exact Hx.
  - exact (IH H).
Qed.

End ModelFacts.

Module ParseFacts.

Lemma obj_set_keys (a k : string) (x : jsval) (acc : list (string * jsval)) :
  existsb (String.eqb a) (map fst (Cbor.obj_set k x acc))
  = existsb (String.eqb a) (map fst acc) || String.eqb a k.
Proof.
  induction acc as [|[k' y] acc IH]; cbn [Cbor.obj_set map fst existsb].
  - rewrite orb_false_r. reflexivity.
  - destruct (String.eqb_spec k k') as [->|Hk]; cbn [map fst existsb].
    + destruct (String.eqb a k'); [reflexivity|].
      cbn [orb]. rewrite orb_false_r. reflexivity.
    + rewrite IH. rewrite orb_assoc. reflexivity.
Qed.

Lemma obj_set_ok (k : string) (x : jsval) (acc : list (string * jsval)) :
  json_props acc = true -> json_value x = true ->
  json_props (Cbor.obj_set k x acc) = true.
Proof.
  unfold json_props. intros H Hx. apply andb_true_iff in H as [Hd Hv].
  induction acc as [|[k' y] acc IH]; cbn [Cbor.obj_set].
  - cbn. rewrite Hx. reflexivity.
  - cbn [map fst distinct forallb snd] in Hd, Hv.
    apply andb_true_iff in Hd as [Hk' Hd].
    apply andb_true_iff in Hv as [Hy Hv].
    specialize (IH Hd Hv). apply andb_true_iff in IH as [IHd IHv].
    destruct (String.eqb_spec k k') as [->|Hk];
      cbn [map fst distinct forallb snd].
    + rewrite Hk', Hd, Hx, Hv. reflexivity.
    + rewrite obj_set_keys, IHd, Hy, IHv.
      apply negb_true_iff in Hk'. rewrite Hk'.
      rewrite (proj2 (String.eqb_neq k' k)) by congruence. reflexivity.
Qed.

Lemma number_json (s : string) (r : jsval * string) :
  Json.number s = Ok r -> json_value (fst r) = true.
Proof.
  unfold Json.number.
  destruct (match s with
            | String c rest =>
                if Json.is_char 45 c then (true, rest) else (false, s)
            | EmptyString => (false, s)
            end) as [negative s1].
  destruct s1 as [|c rest]; [discriminate|].
  destruct (negb (Json.is_digit c)); [discriminate|].
  destruct (Json.digits 0 (String c rest)) as [n s2].
  destruct (_ && _); [discriminate|].
  destruct (match s2 with String _ _ => _ | EmptyString => _ end);
    [discriminate|].
  intros H. injection H as <-. reflexivity.
Qed.

Ltac parse_step H :=
  repeat match type of H with
         | bind ?m _ = Ok _ =>
             let r := fresh "r" in
             let E := fresh "E" in
             destruct m as [r|] eqn:E; cbn [bind] in H; [|discriminate H]
         | (match ?x with _ => _ end) = Ok _ =>
             let E := fresh "E" in
             destruct x eqn:E; try discriminate H
         | (if ?b then _ else _) = Ok _ =>
             let E := fresh "E" in
             destruct b eqn:E; try discriminate H
         end.

Lemma value_json (fuel : nat) :
  (forall s r, Json.value fuel s = Ok r -> json_value (fst r) = true)
  /\ (forall acc s r,
         Json.members fuel acc s = Ok r ->
         json_props acc = true -> json_props (fst r) = true)
  /\ (forall s r,
         Json.elements fuel s = Ok r ->
         forallb json_value (fst r) = true).
Proof.
  induction fuel as [|fuel (IHv & IHm & IHe)].
  - repeat split; intros; discriminate.
  - split; [|split].
    + intros s r H. cbn [Json.value] in H.
      destruct (Json.skip_ws s) as [|c rest]; [discriminate H|].
      destruct (Json.is_char 123 c).
      { parse_step H; injection H as <-; cbn [fst]; try reflexivity.
        match goal with
        | E : Json.members _ _ _ = Ok _ |- _ => exact (IHm _ _ _ E eq_refl)
        end. }
      destruct (Json.is_char 91 c).
      { parse_step H; injection H as <-; cbn [fst]; try reflexivity.
        match goal with
        | E : Json.elements _ _ = Ok _ |- _ => exact (IHe _ _ E)
        end. }
      destruct (Json.is_char 34 c).
      { parse_step H. injection H as <-. reflexivity. }
      destruct (Json.after "true" (String c rest));
        [injection H as <-; reflexivity|].
      destruct (Json.after "false" (String c rest));
        [injection H as <-; reflexivity|].
      destruct (Json.after "null" (String c rest));
        [injection H as <-; reflexivity|].
      exact (number_json _ _ H).
    + intros acc s r H Hacc. cbn [Json.members] in H.
      destruct (Json.skip_ws s) as [|c rest]; [discriminate H|].
      destruct (Json.is_char 34 c); [|discriminate H].
      destruct (Json.string_body rest) as [k|] eqn:Ek; [|discriminate H].
      cbn [bind] in H.
      destruct (Json.skip_ws (snd k)) as [|colon rest2]; [discriminate H|].
      destruct (Json.is_char 58 colon); [|discriminate H].
      destruct (Json.value fuel rest2) as [x|] eqn:Ex; [|discriminate H].
      cbn [bind] in H.
      pose proof (obj_set_ok (fst k) (fst x) acc Hacc (IHv _ _ Ex)) as Hacc'.
      destruct (Json.skip_ws (snd x)) as [|d rest3]; [discriminate H|].
      destruct (Json.is_char 44 d); [exact (IHm _ _ _ H Hacc')|].
      destruct (Json.is_char 125 d); [|discriminate H].
      injection H as <-. exact Hacc'.
    + intros s r H. cbn [Json.elements] in H.
      destruct (Json.value fuel s) as [x|] eqn:Ex; [|discriminate H].
      cbn [bind] in H.
      destruct (Json.skip_ws (snd x)) as [|d rest]; [discriminate H|].
      destruct (Json.is_char 44 d).
      { destruct (Json.elements fuel rest) as [r'|] eqn:Er; [|discriminate H].
        cbn [bind] in H. injection H as <-. cbn [fst forallb].
        rewrite (IHv _ _ Ex), (IHe _ _ Er). reflexivity. }
      destruct (Json.is_char 93 d); [|discriminate H].
      injection H as <-. cbn [fst forallb]. rewrite (IHv _ _ Ex). reflexivity.
Qed.

(** [Json.parse] returns values of JSON. *)
Lemma parse_json (text : string) (v : jsval) :
  Json.parse text = Ok v -> json_value v = true.
Proof.
  unfold Json.parse. intros H.
  destruct (Json.value _ text) as [r|] eqn:E; [|discriminate H].
  cbn [bind] in H.
  destruct (Json.skip_ws (snd r)); [|discriminate H].
  injection H as <-.
  exact (proj1 (value_json _) _ _ E).
Qed.

End ParseFacts.

(** The executable libraries satisfy the laws of the round trip. *)
Lemma NodeLib_laws : JsLibLaws NodeLib.
Proof.
  constructor.
  - intros bs.
    change (Ok (Base64.Buffer_from_base64 (Base64.encode bs)) = Ok bs).
    rewrite Base64Facts.Buffer_from_base64_encode. reflexivity.
  - intros v bs Hm He. cbn [NodeLib cbor_encode cbor_decode] in He |- *.
    unfold Cbor.encode_checked in He.
    destruct (Cbor.stack_depth <=? Cbor.depth v)%nat; [discriminate He|].
    destruct (Cbor.fits v) eqn:Hf; [|discriminate He].
    cbn [negb] in He. injection He as <-.
    apply CborFacts.decode_encode.
    apply ModelFacts.in_model_encodable; assumption.
  - intros text v H. exact (ParseFacts.parse_json text v H).
  - intros props Hb. apply JsonFacts.stringify_object. exact Hb.
  - intros s. cbn. eauto.
Qed.

(* ===================================================================== *)
(** * The round trip through the encoder and the decoder *)

(** What an input that [encodeCoseSign1] accepts went through: the
    three checks, the three encodings and the reading of the
    signature. *)
Lemma encodeCoseSign1_accepted (L : JsLib) (text : string) (coseData : jsval)
      (d : string) :
  JSON_parse text = Ok coseData ->
  CborCoseEncoder.encodeCoseSign1 text =
  {| CborCoseEncoder.success := true; CborCoseEncoder.data := Some d;
     CborCoseEncoder.error := None |} ->
  Js.typeof_object coseData = true
  /\ Js.has_prop "payload" coseData = true
  /\ exists protectedBytes payloadBytes sig buffer,
      cbor_encode (CborCoseEncoder.or_empty_object
                     (Js.get_prop "protected_headers" coseData))
      = Ok protectedBytes
      /\ cbor_encode (Js.get_prop "payload" coseData) = Ok payloadBytes
      /\ CborCoseEncoder.signature_bytes (Js.get_prop "signature" coseData)
         = inr sig
      /\ cbor_encode
           (CborCoseEncoder.taggedCose protectedBytes
              (CborCoseEncoder.or_empty_object
                 (Js.get_prop "unprotected_headers" coseData))
              payloadBytes sig) = Ok buffer
      /\ d = Base64_fromUint8Array buffer.
Proof.
  intros Hp He. unfold CborCoseEncoder.encodeCoseSign1 in He.
  rewrite Hp in He.
  destruct (Js.truthy coseData); [|discriminate He].
  destruct (Js.typeof_object coseData); [|discriminate He].
  cbn [negb orb] in He.
  destruct (Js.has_prop "payload" coseData); [|discriminate He].
  cbn [negb] in He. split; [reflexivity|]. split; [reflexivity|].
  destruct (cbor_encode (CborCoseEncoder.or_empty_object _))
    as [protectedBytes|]; [|discriminate He].
  destruct (cbor_encode (Js.get_prop "payload" coseData))
    as [payloadBytes|]; [|discriminate He].
  cbn [bind] in He.
  destruct (CborCoseEncoder.signature_bytes (Js.get_prop "signature" coseData))
    as [early|sig] eqn:Es.
  - unfold CborCoseEncoder.signature_bytes in Es.
    destruct (Js.truthy (Js.get_prop "signature" coseData)); [|discriminate Es].
    destruct (CborCoseEncoder.signature_from_base64 _); [discriminate Es|].
    destruct (CborCoseEncoder.signature_from_hex _); [discriminate Es|].
    inversion Es; subst early. discriminate He.
  - destruct (cbor_encode (CborCoseEncoder.taggedCose _ _ _ _))
      as [buffer|] eqn:Et; [|discriminate He].
    cbn [bind try_catch] in He. exists protectedBytes, payloadBytes, sig, buffer.
    repeat split; try reflexivity; try assumption.
    inversion He. reflexivity.
Qed.

Section RoundTrip.
Context {L : JsLib}.
Hypothesis laws : JsLibLaws L.

Lemma protected_headers_of_encoded (ph : jsval) (bs : list byte) :
  in_model ph = true ->
  cbor_encode ph = Ok bs ->
  exists v,
    CborDecoder.protected_headers_of (JBytes bs) = Ok v
    /\ bigint_free v = true.
Proof.
  intros Hm He. unfold CborDecoder.protected_headers_of.
  cbn [Js.length_of bind try_or].
  destruct (Js.gt0 _).
  - cbn [Js.Buffer_from bind]. rewrite (@cbor_round_trip L laws ph bs Hm He).
    cbn [bind try_or]. exists ph. split; [reflexivity|].
    apply ModelFacts.in_model_bigint_free. exact Hm.
  - exists (JObj []). split; reflexivity.
Qed.

Lemma payload_of_encoded (pl : jsval) (bs : list byte) :
  in_model pl = true ->
  cbor_encode pl = Ok bs ->
  exists v,
    CborDecoder.payload_of (JBytes bs) = Ok v
    /\ bigint_free v = true.
Proof.
  intros Hm He. unfold CborDecoder.payload_of.
  cbn [Js.is_null Js.length_of bind].
  destruct (Js.gt0 _).
  - cbn [Js.Buffer_from bind]. rewrite (@cbor_round_trip L laws pl bs Hm He).
    cbn [bind try_or]. eexists. split; [reflexivity|].
    cbn [bigint_free]. rewrite (ModelFacts.in_model_bigint_free pl Hm).
    reflexivity.
  - exists JNull. split; reflexivity.
Qed.

(** The decoder on the tagged array of the encoder. *)
Lemma rendered_taggedCose (ph pl uh : jsval)
      (protectedBytes payloadBytes sig : list byte) :
  in_model ph = true -> cbor_encode ph = Ok protectedBytes ->
  in_model pl = true -> cbor_encode pl = Ok payloadBytes ->
  is_plain_object uh = true -> in_model uh = true ->
  exists protected payload,
    CborDecoder.rendered_structure
      (CborCoseEncoder.taggedCose protectedBytes uh payloadBytes sig)
    = JObj [("_cose_structure", JStr "COSE_Sign1");
            ("_cbor_tag", JNum 18);
            ("protected_headers", protected);
            ("unprotected_headers", uh);
            ("payload", payload);
            ("signature_info",
              JObj [("length", JNum (Z.of_nat (List.length sig)));
                    ("preview",
                      JArr (map (fun b => JNum (byte_to_Z b))
                                (firstn 16 sig)))])]
    /\ CborDecoder.protected_headers_of (JBytes protectedBytes) = Ok protected
    /\ CborDecoder.payload_of (JBytes payloadBytes) = Ok payload
    /\ bigint_free
         (CborDecoder.rendered_structure
            (CborCoseEncoder.taggedCose protectedBytes uh payloadBytes sig))
       = true.
Proof.
  intros Hph Eph Hpl Epl Hobj Huh.
  destruct (protected_headers_of_encoded ph protectedBytes Hph Eph)
    as (protected & Hp & Hpb).
  destruct (payload_of_encoded pl payloadBytes Hpl Epl)
    as (payload & Hq & Hqb).
  pose proof (ModelFacts.in_model_bigint_free uh Huh) as Hub.
  unfold CborCoseEncoder.taggedCose.
  assert (Hcose :
            CborDecoder.isCoseSign1
              (JTagged 18
                 (JArr [JBytes protectedBytes; uh; JBytes payloadBytes;
                        JBytes sig])) = true).
  { rewrite (isCoseSign1_tagged 18) by auto. rewrite isCoseSign1_array.
    unfold accepted_shape. cbn [List.length Nat.eqb nth andb orb
                                  Spec.is_byte_string Js.is_null].
    destruct uh; try discriminate Hobj. reflexivity. }
  exists protected, payload.
  unfold CborDecoder.rendered_structure. rewrite Hcose.
  unfold CborDecoder.parseCoseSign1.
  cbn [Js.truthy Js.typeof_object Js.has_prop Js.get_prop String.eqb Ascii.eqb
       Bool.eqb andb orb Js.destructure4 nth bind Js.length_of Js.slice0
       Js.Array_from].
  rewrite Hp. cbn [bind]. rewrite Hq. cbn [bind try_catch].
  split; [reflexivity|]. split; [reflexivity|]. split; [reflexivity|].
  cbn [bigint_free]. rewrite Hpb, Hub, Hqb.
  pose proof (bigint_free_numbers (firstn 16 sig)) as Hn.
  cbn [bigint_free] in Hn. rewrite Hn. reflexivity.
Qed.

End RoundTrip.




(** C5: the signature is read as base64 first and as hex only when the
    base64 reading throws; the encoder fails only when both throw.  The
    base64 reading of js-base64 accepts every text of hex digits, so the
    hex text [41424344] is read as base64, giving the six bytes
    E3 5E 36 E3 7E 38, where [QUJDRA==] gives the four bytes of [ABCD],
    which the hex reading of [41424344] would give too; the two inputs
    are encoded differently.  The signature [AABBCCDDEEFF] that
    [formatCoseTemplate] proposes as a hex signature is read as base64
    too: nine bytes, not the six bytes AA BB CC DD EE FF. *)
Theorem hex_signature_read_as_base64 :
  (forall (L : JsLib) (s : string) (bs : list byte),
      Js.truthy (JStr s) = true ->
      Base64_toUint8Array s = Ok bs ->
      CborCoseEncoder.signature_bytes (JStr s) = inr bs)
  /\ (forall (L : JsLib) (s : string) (e : exn),
         Js.truthy (JStr s) = true ->
         Base64_toUint8Array s = Throw e ->
         CborCoseEncoder.signature_bytes (JStr s) =
         match CborCoseEncoder.signature_from_hex (JStr s) with
         | Ok bs => inr bs
         | Throw _ =>
             inl (CborCoseEncoder.failure CborCoseEncoder.bad_signature_message)
         end)
  /\ CborCoseEncoder.signature_bytes (L := NodeLib) (JStr "41424344")
     = inr (map byte_of_Z [227; 94; 54; 227; 126; 56])
  /\ CborCoseEncoder.signature_bytes (L := NodeLib) (JStr "QUJDRA==")
     = inr (map byte_of_Z [65; 66; 67; 68])
  /\ CborCoseEncoder.signature_from_hex (JStr "41424344")
     = Ok (map byte_of_Z [65; 66; 67; 68])
  /\ CborCoseEncoder.encodeCoseSign1 (L := NodeLib) Examples.hex_signature_text
     <> CborCoseEncoder.encodeCoseSign1 (L := NodeLib)
          Examples.base64_signature_text
  /\ (exists template coseData,
         CborCoseEncoder.formatCoseTemplate (L := NodeLib) None
         = Ok (Some template)
         /\ JSON_parse (JsLib := NodeLib) template = Ok coseData
         /\ Js.get_prop "signature" coseData = JStr "AABBCCDDEEFF"
         /\ CborCoseEncoder.signature_bytes (L := NodeLib)
              (Js.get_prop "signature" coseData)
            = inr (map byte_of_Z [0; 0; 65; 8; 32; 195; 16; 65; 69])
         /\ CborCoseEncoder.signature_from_hex
              (Js.get_prop "signature" coseData)
            = Ok (map byte_of_Z [170; 187; 204; 221; 238; 255])).
Proof.
  split.
  { intros L s bs Ht Hb. unfold CborCoseEncoder.signature_bytes.
    rewrite Ht. cbn [CborCoseEncoder.signature_from_base64]. rewrite Hb.
    reflexivity. }
  split.
  { intros L s e Ht Hb. unfold CborCoseEncoder.signature_bytes.
    rewrite Ht. cbn [CborCoseEncoder.signature_from_base64]. rewrite Hb.
    destruct (CborCoseEncoder.signature_from_hex (JStr s)); reflexivity. }
  split; [vm_compute; reflexivity|].
  split; [vm_compute; reflexivity|].
  split; [vm_compute; reflexivity|].
  split; [vm_compute; discriminate|].
  eexists _, _.
  split; [vm_compute; reflexivity|].
  split; [vm_compute; reflexivity|].
  split; [vm_compute; reflexivity|].
  split; vm_compute; reflexivity.
Qed.

(* ===================================================================== *)
(** * Further properties of the CBOR decoder *)

Lemma major_type_in_range (b : byte) :
  (Z.land (Z.shiftr (byte_to_Z b) 5) 7 <? 0)
  || (Z.land (Z.shiftr (byte_to_Z b) 5) 7 >? 7) = false.
Proof.
  destruct b; vm_compute; reflexivity.
Qed.

(** X1: [canDecodeData] accepts a payload exactly when its buffer is not
    empty and [cbor.decode] of the buffer does not throw; the test on
    the major type of the first byte rejects nothing. *)
Theorem canDecodeData_exactly (L : JsLib) (p : Base64Message) :
  CborDecoder.canDecodeData p = true
  <-> exists buffer v,
      Base64Message_toBuffer p = Ok buffer
      /\ buffer <> []
      /\ cbor_decode buffer = Ok v.
Proof.
  unfold CborDecoder.canDecodeData. split.
  - destruct (Base64Message_toBuffer p) as [buffer|e]; simpl; [|discriminate].
    destruct buffer as [|b rest]; [discriminate|].
    rewrite major_type_in_range.
    destruct (cbor_decode (b :: rest)) as [v|e] eqn:Hd; simpl; [|discriminate].
    intros _. exists (b :: rest), v. repeat split; [discriminate | exact Hd].
  - intros (buffer & v & Hb & Hne & Hd). rewrite Hb. simpl.
    destruct buffer as [|b rest]; [contradiction|].
    rewrite major_type_in_range, Hd. reflexivity.
Qed.

(** X2: a tagged value whose tag is neither 18 nor 98 is never classified
    COSE Sign1, whatever it wraps. *)
Theorem isCoseSign1_other_tag (t : Z) (x : jsval) :
  t <> 18 -> t <> 98 -> CborDecoder.isCoseSign1 (JTagged t x) = false.
Proof.
  intros H18 H98. unfold CborDecoder.isCoseSign1. simpl.
  apply Z.eqb_neq in H18. apply Z.eqb_neq in H98. rewrite H18, H98.
  reflexivity.
Qed.

(** X2, witness: a COSE Sign1 array under tag 19. *)
Lemma isCoseSign1_other_tag_witness :
  CborDecoder.isCoseSign1 (JTagged 19 Examples.sign1_array) = false.
Proof.
  apply (isCoseSign1_other_tag 19 Examples.sign1_array); discriminate.
Defined.

Lemma isCoseSign1_object (props : list (string * jsval)) (t : Z)
      (items : list jsval) :
  Js.lookup "tag" props = Some (JNum t) ->
  t = 18 \/ t = 98 ->
  Js.lookup "value" props = Some (JArr items) ->
  CborDecoder.isCoseSign1 (JObj props) = CborDecoder.isCoseSign1 (JArr items)
  /\ cose_array (JObj props) = JArr items
  /\ cose_tag (JObj props) = JNum t.
Proof.
  intros Ht Hv Hval.
  unfold CborDecoder.isCoseSign1, cose_array, cose_tag, tagged_like.
  cbn [Js.truthy Js.typeof_object Js.has_prop Js.get_prop andb].
  rewrite Ht, Hval. cbn [Js.strict_eq_num andb].
  destruct Hv as [-> | ->]; repeat split; reflexivity.
Qed.

(** X3: a plain object with a key [tag] holding 18 or 98 and a key
    [value] holding a four-element array of the accepted shape (a CBOR
    map with these two text keys decodes to one) is classified COSE
    Sign1 like a tagged value, and is rendered with its [tag] entry as
    [_cbor_tag]. *)
Theorem isCoseSign1_lookalike_map (L : JsLib) (props : list (string * jsval))
        (t : Z) (items : list jsval) :
  Js.lookup "tag" props = Some (JNum t) ->
  t = 18 \/ t = 98 ->
  Js.lookup "value" props = Some (JArr items) ->
  List.length items = 4%nat ->
  accepted_shape items = true ->
  CborDecoder.isCoseSign1 (JObj props) = true
  /\ Js.get_prop "_cose_structure"
       (CborDecoder.rendered_structure (JObj props)) = JStr "COSE_Sign1"
  /\ Js.get_prop "_cbor_tag"
       (CborDecoder.rendered_structure (JObj props)) = JNum t.
Proof.
  intros Ht Hv Hval Hlen Hs.
  destruct (isCoseSign1_object props t items Ht Hv Hval) as (Hi & Ha & Htag).
  assert (Hc : CborDecoder.isCoseSign1 (JObj props) = true).
  { rewrite Hi, isCoseSign1_array, Hlen, Hs. reflexivity. }
  split; [exact Hc|].
  destruct (parseCoseSign1_accepted (JObj props) items Ha Hs)
    as (protected & payload & sig & _ & _ & _ & Hp).
  unfold CborDecoder.rendered_structure. rewrite Hc, Hp, Htag.
  split; reflexivity.
Qed.

(** X3, witness: the object [{tag: 18, value: [bstr, {}, null, bstr]}]. *)
Lemma isCoseSign1_lookalike_map_witness :
  CborDecoder.isCoseSign1
    (JObj [("tag", JNum 18);
           ("value", JArr [JBytes []; JObj []; JNull; JBytes [x01]])]) = true
  /\ Js.get_prop "_cose_structure"
       (CborDecoder.rendered_structure (L := NodeLib)
          (JObj [("tag", JNum 18);
                 ("value", JArr [JBytes []; JObj []; JNull; JBytes [x01]])]))
     = JStr "COSE_Sign1"
  /\ Js.get_prop "_cbor_tag"
       (CborDecoder.rendered_structure (L := NodeLib)
          (JObj [("tag", JNum 18);
                 ("value", JArr [JBytes []; JObj []; JNull; JBytes [x01]])]))
     = JNum 18.
Proof.
  apply (isCoseSign1_lookalike_map NodeLib
           [("tag", JNum 18);
            ("value", JArr [JBytes []; JObj []; JNull; JBytes [x01]])]
           18 [JBytes []; JObj []; JNull; JBytes [x01]]);
    auto.
Defined.

(** X4: for an accepted array, [parseCoseSign1] reports [_cbor_tag] null
    when the array is bare, and the tag number when it is under tag 18
    or 98; the unprotected headers are rendered as they were decoded. *)
Theorem cbor_tag_reported (L : JsLib) (items : list jsval) (t : Z) :
  CborDecoder.isCoseSign1 (JArr items) = true ->
  t = 18 \/ t = 98 ->
  Js.get_prop "_cbor_tag" (CborDecoder.parseCoseSign1 (JArr items)) = JNull
  /\ Js.get_prop "_cbor_tag"
       (CborDecoder.parseCoseSign1 (JTagged t (JArr items))) = JNum t
  /\ Js.get_prop "unprotected_headers"
       (CborDecoder.parseCoseSign1 (JArr items)) = nth 1 items JUndefined
  /\ Js.get_prop "unprotected_headers"
       (CborDecoder.parseCoseSign1 (JTagged t (JArr items)))
     = nth 1 items JUndefined.
Proof.
  intros Hc Ht.
  destruct (isCoseSign1_inv (JArr items) Hc) as (items' & Ha & _ & Hs).
  assert (items' = items) by (inversion Ha; reflexivity). subst items'.
  destruct (parseCoseSign1_accepted (JArr items) items eq_refl Hs)
    as (p1 & q1 & s1 & _ & _ & _ & H1).
  destruct (parseCoseSign1_accepted (JTagged t (JArr items)) items eq_refl Hs)
    as (p2 & q2 & s2 & _ & _ & _ & H2).
  rewrite H1, H2. repeat split; reflexivity.
Qed.

(** X4, witness: [[bstr, map, bstr, bstr]], bare and under tag 98. *)
Lemma cbor_tag_reported_witness :
  Js.get_prop "_cbor_tag"
    (CborDecoder.parseCoseSign1 (L := NodeLib) Examples.sign1_array) = JNull
  /\ Js.get_prop "_cbor_tag"
       (CborDecoder.parseCoseSign1 (L := NodeLib)
          (JTagged 98 Examples.sign1_array)) = JNum 98.
Proof.
  destruct (cbor_tag_reported NodeLib
              [JBytes [x01]; JObj [("kid", JStr "11")]; JBytes [x02];
               JBytes [x03]] 98 eq_refl (or_intror eq_refl))
    as (H1 & H2 & _).
  split; [exact H1 | exact H2].
Defined.

(** X5: the [payload] entry of a COSE Sign1 rendering is null for a null
    or empty payload; for a payload that decodes as CBOR it is the
    decoded value marked [cbor]; otherwise, when the bytes read as a
    non-empty text without control characters, that text marked
    [string]; otherwise the length of the payload and its first bytes,
    32 at most, marked [binary]. *)
Theorem payload_classified (L : JsLib) (bs : list byte) :
  CborDecoder.payload_of JNull = Ok JNull
  /\ CborDecoder.payload_of (JBytes bs) =
     Ok match bs with
        | [] => JNull
        | _ :: _ =>
            match cbor_decode bs with
            | Ok value => JObj [("_type", JStr "cbor"); ("_decoded", value)]
            | Throw _ =>
                if negb (String.eqb (Buffer_toString_utf8 bs) "")
                   && negb (CborDecoder.has_control_char
                              (list_byte_of_string (Buffer_toString_utf8 bs)))
                then JObj [("_type", JStr "string");
                           ("_decoded", JStr (Buffer_toString_utf8 bs))]
                else JObj [("_type", JStr "binary");
                           ("_length", JNum (Z.of_nat (List.length bs)));
                           ("_preview",
                             JArr (map (fun b => JNum (byte_to_Z b))
                                       (firstn 32 bs)))]
            end
        end
  /\ (List.length (firstn 32 bs) <= 32)%nat.
Proof.
  split; [reflexivity|]. split; [|apply firstn_le_length].
  unfold CborDecoder.payload_of. cbn [Js.is_null Js.length_of bind Js.gt0].
  destruct bs as [|b rest]; [reflexivity|].
  assert (Hpos : (0 <? Z.of_nat (List.length (b :: rest))) = true).
  { apply Z.ltb_lt. simpl. lia. }
  rewrite Hpos. cbn [Js.Buffer_from bind].
  destruct (cbor_decode (b :: rest)) as [v|e]; [reflexivity|].
  cbn [bind try_or].
  destruct (negb (String.eqb (Buffer_toString_utf8 (b :: rest)) "")
            && negb (CborDecoder.has_control_char
                       (list_byte_of_string
                          (Buffer_toString_utf8 (b :: rest)))));
    reflexivity.
Qed.

(** X6: the [protected_headers] entry is the empty object for an empty
    byte string, the decoded value when the bytes decode as CBOR, and
    otherwise an error marker with the first bytes, 32 at most; it is
    never an exception. *)
Theorem protected_headers_classified (L : JsLib) (bs : list byte) :
  CborDecoder.protected_headers_of (JBytes bs) =
  Ok match bs with
     | [] => JObj []
     | _ :: _ =>
         match cbor_decode bs with
         | Ok value => value
         | Throw _ =>
             JObj [("_decode_error",
                     JStr "Failed to decode protected headers");
                   ("_raw_bytes",
                     JArr (map (fun b => JNum (byte_to_Z b)) (firstn 32 bs)))]
         end
     end
  /\ (List.length (firstn 32 bs) <= 32)%nat.
Proof.
  split; [|apply firstn_le_length].
  unfold CborDecoder.protected_headers_of.
  cbn [Js.length_of bind Js.gt0].
  destruct bs as [|b rest]; [reflexivity|].
  assert (Hpos : (0 <? Z.of_nat (List.length (b :: rest))) = true).
  { apply Z.ltb_lt. simpl. lia. }
  rewrite Hpos. cbn [Js.Buffer_from bind].
  destruct (cbor_decode (b :: rest)) as [v|e]; reflexivity.
Qed.

(* ===================================================================== *)
(** * Further properties of the encoder *)

(** The outcomes of [encodeCbor]: success, or the failure of the outer
    [catch]. *)
Lemma encodeCbor_cases (L : JsLib) (input : string) :
  (exists d,
      CborCoseEncoder.encodeCbor input = CborCoseEncoder.encoded d)
  \/ (exists e,
         CborCoseEncoder.encodeCbor input
         = CborCoseEncoder.cbor_encoding_failed e).
Proof.
  unfold CborCoseEncoder.encodeCbor.
  destruct (JSON_parse input) as [value|e0]; cbn [try_or bind].
  - destruct (cbor_encode value) as [buffer|e]; cbn [bind try_catch];
      [left|right]; eexists; reflexivity.
  - destruct (cbor_encode (JStr input)) as [buffer|e]; cbn [bind try_catch];
      [left|right]; eexists; reflexivity.
Qed.

(** [encodeCoseSign1] on an input that passes the three checks: the two
    encodings, then the signature, then the encoding of the tagged
    array, any exception ending in the outer [catch]. *)
Lemma encodeCoseSign1_after_checks (L : JsLib) (input : string)
      (coseData : jsval) :
  JSON_parse input = Ok coseData ->
  is_plain_object coseData = true ->
  Js.has_prop "payload" coseData = true ->
  CborCoseEncoder.encodeCoseSign1 input =
  match cbor_encode (CborCoseEncoder.or_empty_object
                       (Js.get_prop "protected_headers" coseData)) with
  | Throw e => CborCoseEncoder.cose_encoding_failed e
  | Ok protectedBytes =>
      match cbor_encode (Js.get_prop "payload" coseData) with
      | Throw e => CborCoseEncoder.cose_encoding_failed e
      | Ok payloadBytes =>
          match CborCoseEncoder.signature_bytes
                  (Js.get_prop "signature" coseData) with
          | inl early => early
          | inr sig =>
              match cbor_encode
                      (CborCoseEncoder.taggedCose protectedBytes
                         (CborCoseEncoder.or_empty_object
                            (Js.get_prop "unprotected_headers" coseData))
                         payloadBytes sig) with
              | Throw e => CborCoseEncoder.cose_encoding_failed e
              | Ok buffer =>
                  CborCoseEncoder.encoded (Base64_fromUint8Array buffer)
              end
          end
      end
  end.
Proof.
  intros Hp Ho Hpl. unfold CborCoseEncoder.encodeCoseSign1. rewrite Hp.
  destruct coseData; try discriminate Ho.
  cbn [Js.truthy Js.typeof_object negb orb]. rewrite Hpl. cbn [negb].
  destruct (cbor_encode (CborCoseEncoder.or_empty_object _));
    cbn [bind try_catch]; [|reflexivity].
  destruct (cbor_encode (Js.get_prop "payload" _));
    cbn [bind try_catch]; [|reflexivity].
  destruct (CborCoseEncoder.signature_bytes _); [reflexivity|].
  destruct (cbor_encode (CborCoseEncoder.taggedCose _ _ _ _));
    reflexivity.
Qed.

(** The outcomes of [encodeCoseSign1]: success, one of the four
    validation messages, or the failure of the outer [catch]. *)
Lemma encodeCoseSign1_cases (L : JsLib) (input : string) :
  (exists d,
      CborCoseEncoder.encodeCoseSign1 input = CborCoseEncoder.encoded d)
  \/ (exists e,
         In e cose_validation_messages
         /\ CborCoseEncoder.encodeCoseSign1 input = CborCoseEncoder.failure e)
  \/ (exists e,
         CborCoseEncoder.encodeCoseSign1 input
         = CborCoseEncoder.cose_encoding_failed e).
Proof.
  unfold CborCoseEncoder.encodeCoseSign1, cose_validation_messages.
  destruct (JSON_parse input) as [coseData|e]; cbn [try_catch];
    [|right; left; eexists; split; [|reflexivity]; cbn [In]; auto].
  destruct (negb (Js.truthy coseData) || negb (Js.typeof_object coseData));
    cbn [try_catch];
    [right; left; eexists; split; [|reflexivity]; cbn [In]; auto|].
  destruct (negb (Js.has_prop "payload" coseData)); cbn [try_catch];
    [right; left; eexists; split; [|reflexivity]; cbn [In]; auto|].
  destruct (cbor_encode (CborCoseEncoder.or_empty_object _)) as [pb|];
    cbn [bind try_catch]; [|right; right; eexists; reflexivity].
  destruct (cbor_encode (Js.get_prop "payload" _)) as [plb|];
    cbn [bind try_catch]; [|right; right; eexists; reflexivity].
  unfold CborCoseEncoder.signature_bytes.
  assert (Hlast : forall sig,
             (exists d,
                 try_catch
                   (cborBuffer <-
                      cbor_encode
                        (CborCoseEncoder.taggedCose pb
                           (CborCoseEncoder.or_empty_object
                              (Js.get_prop "unprotected_headers" coseData))
                           plb sig) ;;
                    Ok (CborCoseEncoder.encoded
                          (Base64_fromUint8Array cborBuffer)))
                   (fun e =>
                      CborCoseEncoder.failure
                        ("COSE Sign1 encoding failed: " ++ error_message e))
                 = CborCoseEncoder.encoded d)
             \/ (exists e,
                    try_catch
                      (cborBuffer <-
                         cbor_encode
                           (CborCoseEncoder.taggedCose pb
                              (CborCoseEncoder.or_empty_object
                                 (Js.get_prop "unprotected_headers" coseData))
                              plb sig) ;;
                       Ok (CborCoseEncoder.encoded
                             (Base64_fromUint8Array cborBuffer)))
                      (fun e =>
                         CborCoseEncoder.failure
                           ("COSE Sign1 encoding failed: " ++ error_message e))
                    = CborCoseEncoder.cose_encoding_failed e)).
  { intros sig.
    destruct (cbor_encode (CborCoseEncoder.taggedCose _ _ _ _));
      cbn [bind try_catch]; [left|right]; eexists; reflexivity. }
  destruct (Js.truthy (Js.get_prop "signature" coseData)).
  - destruct (CborCoseEncoder.signature_from_base64 _) as [sig|].
    + destruct (Hlast sig) as [H|H]; [left|right; right]; exact H.
    + destruct (CborCoseEncoder.signature_from_hex _) as [sig|].
      * destruct (Hlast sig) as [H|H]; [left|right; right]; exact H.
      * right; left; eexists; split; [|reflexivity]; cbn [In]; auto 6.
  - destruct (Hlast []) as [H|H]; [left|right; right]; exact H.
Qed.

(** X7: the result of [encodeCbor] and of [encodeCoseSign1] has either
    [success] true, a data text and no error, or [success] false, an
    error text and no data. *)
Theorem encoding_result_exclusive (L : JsLib) (input : string) :
  forall r,
    r = CborCoseEncoder.encodeCbor input
    \/ r = CborCoseEncoder.encodeCoseSign1 input ->
    (CborCoseEncoder.success r = true
     /\ (exists d, CborCoseEncoder.data r = Some d)
     /\ CborCoseEncoder.error r = None)
    \/ (CborCoseEncoder.success r = false
        /\ CborCoseEncoder.data r = None
        /\ exists e, CborCoseEncoder.error r = Some e).
Proof.
  intros r [-> | ->].
  - destruct (encodeCbor_cases L input) as [[d ->] | [e ->]];
      [left|right]; cbn; eauto.
  - destruct (encodeCoseSign1_cases L input)
      as [[d ->] | [(e & _ & ->) | [e ->]]];
      [left|right|right]; cbn; eauto.
Qed.

(** X7, witness: the input [{"foo": 1}]. *)
Lemma encoding_result_exclusive_witness :
  CborCoseEncoder.success
    (CborCoseEncoder.encodeCoseSign1 (L := NodeLib)
       Examples.missing_payload_text) = false
  /\ CborCoseEncoder.data
       (CborCoseEncoder.encodeCoseSign1 (L := NodeLib)
          Examples.missing_payload_text) = None.
Proof.
  destruct (encoding_result_exclusive NodeLib Examples.missing_payload_text
              _ (or_intror eq_refl)) as [(H & _) | (H1 & H2 & _)].
  - vm_compute in H. discriminate H.
  - split; [exact H1 | exact H2].
Defined.

(** X8: for an input that parses to an object with a [payload], when the
    two header entries and the signature are absent or falsy ([null],
    [false], [0], the empty text), the encoder encodes the empty map,
    the payload, and then tag 18 on the array of the encoded empty map,
    the empty map, the encoded payload and the empty byte string.  It
    succeeds with the base64 text of that last encoding when the three
    calls of [cbor.encode] return, and when one throws it fails with
    [COSE Sign1 encoding failed: ] and the message of the exception. *)
Theorem encodeCoseSign1_defaults (L : JsLib) (input : string)
        (coseData : jsval) :
  JSON_parse input = Ok coseData ->
  is_plain_object coseData = true ->
  Js.has_prop "payload" coseData = true ->
  Js.truthy (Js.get_prop "protected_headers" coseData) = false ->
  Js.truthy (Js.get_prop "unprotected_headers" coseData) = false ->
  Js.truthy (Js.get_prop "signature" coseData) = false ->
  CborCoseEncoder.encodeCoseSign1 input =
  match cbor_encode (JObj []) with
  | Throw e => CborCoseEncoder.cose_encoding_failed e
  | Ok protectedBytes =>
      match cbor_encode (Js.get_prop "payload" coseData) with
      | Throw e => CborCoseEncoder.cose_encoding_failed e
      | Ok payloadBytes =>
          match cbor_encode
                  (JTagged 18
                     (JArr [JBytes protectedBytes; JObj [];
                            JBytes payloadBytes; JBytes []])) with
          | Throw e => CborCoseEncoder.cose_encoding_failed e
          | Ok buffer =>
              {| CborCoseEncoder.success := true;
                 CborCoseEncoder.data := Some (Base64_fromUint8Array buffer);
                 CborCoseEncoder.error := None |}
          end
      end
  end.
Proof.
  intros Hp Ho Hpl Hph Huh Hs.
  rewrite (encodeCoseSign1_after_checks L input coseData Hp Ho Hpl).
  unfold CborCoseEncoder.signature_bytes, CborCoseEncoder.or_empty_object.
  rewrite Hph, Huh, Hs. reflexivity.
Qed.

(** X8, witness: the input [{"payload": 1, "signature": ""}]. *)
Lemma encodeCoseSign1_defaults_witness :
  CborCoseEncoder.encodeCoseSign1 (L := NodeLib)
    (json_text "{'payload': 1, 'signature': ''}") =
  {| CborCoseEncoder.success := true;
     CborCoseEncoder.data :=
       Some (Base64.encode
               (Cbor.encode
                  (JTagged 18
                     (JArr [JBytes (Cbor.encode (JObj []));
                            JObj [];
                            JBytes (Cbor.encode (JNum 1));
                            JBytes []]))));
     CborCoseEncoder.error := None |}.
Proof.
  rewrite (encodeCoseSign1_defaults NodeLib
             (json_text "{'payload': 1, 'signature': ''}")
             (JObj [("payload", JNum 1); ("signature", JStr "")]));
    vm_compute; reflexivity.
Defined.

(** X9: for an input that parses to an object with a [payload], a
    signature that is truthy and is not a text (a number, [true], an
    array, an object) never gives success.  The headers and the payload
    are encoded first: when [cbor.encode] returns for both, the encoder
    fails with the message about base64 and hex; when it throws for one
    of them, the encoder fails with [COSE Sign1 encoding failed: ] and
    the message of the exception, and the signature is not looked at. *)
Theorem encodeCoseSign1_signature_not_text (L : JsLib) (input : string)
        (coseData : jsval) :
  JSON_parse input = Ok coseData ->
  is_plain_object coseData = true ->
  Js.has_prop "payload" coseData = true ->
  Js.truthy (Js.get_prop "signature" coseData) = true ->
  Cbor.is_string (Js.get_prop "signature" coseData) = false ->
  CborCoseEncoder.encodeCoseSign1 input =
  match cbor_encode (CborCoseEncoder.or_empty_object
                       (Js.get_prop "protected_headers" coseData)) with
  | Throw e => CborCoseEncoder.cose_encoding_failed e
  | Ok _ =>
      match cbor_encode (Js.get_prop "payload" coseData) with
      | Throw e => CborCoseEncoder.cose_encoding_failed e
      | Ok _ => CborCoseEncoder.failure CborCoseEncoder.bad_signature_message
      end
  end.
Proof.
  intros Hp Ho Hpl Ht Hs.
  rewrite (encodeCoseSign1_after_checks L input coseData Hp Ho Hpl).
  unfold CborCoseEncoder.signature_bytes. rewrite Ht.
  destruct (Js.get_prop "signature" coseData); try discriminate Hs;
    reflexivity.
Qed.

(** X9, witness: the input [{"payload": 1, "signature": 5}]. *)
Lemma encodeCoseSign1_signature_not_text_witness :
  CborCoseEncoder.encodeCoseSign1 (L := NodeLib)
    (json_text "{'payload': 1, 'signature': 5}") =
  CborCoseEncoder.failure CborCoseEncoder.bad_signature_message.
Proof.
  rewrite (encodeCoseSign1_signature_not_text NodeLib
             (json_text "{'payload': 1, 'signature': 5}")
             (JObj [("payload", JNum 1); ("signature", JNum 5)]));
    vm_compute; reflexivity.
Defined.

Module HexFacts.

Lemma hex_digit_ok (n : Z) :
  0 <= n < 16 ->
  HexText.is_hex_digit (hex_digit n) = true
  /\ HexText.hex_value (hex_digit n) = n.
Proof.
  intros R.
  assert (H : forallb
                (fun k => HexText.is_hex_digit (hex_digit (Z.of_nat k))
                          && (HexText.hex_value (hex_digit (Z.of_nat k))
                              =? Z.of_nat k))
                (seq 0 16) = true) by (vm_compute; reflexivity).
  pose proof (proj1 (forallb_forall _ _) H (Z.to_nat n)) as Hn.
  cbv beta in Hn. rewrite Z2Nat.id in Hn by lia.
  assert (Hin : In (Z.to_nat n) (seq 0 16)) by (apply in_seq; lia).
  apply Hn in Hin. apply andb_true_iff in Hin as [H1 H2].
  apply Z.eqb_eq in H2. auto.
Qed.

(** A hex digit starts no white space character. *)
Lemma space_width_hex (c : ascii) (rest : string) :
  HexText.is_hex_digit c = true ->
  HexText.space_width (String c rest) = 0%nat.
Proof.
  destruct c as [[] [] [] [] [] [] [] []]; intros H;
    try discriminate H;
    destruct rest as [|d [|e rest]]; reflexivity.
Qed.

Lemma strip_spaces_hex (s : string) :
  HexText.all_hex s = true -> HexText.strip_spaces s = s.
Proof.
  unfold HexText.strip_spaces.
  induction s as [|c s IH]; intros H; [reflexivity|].
  cbn [HexText.all_hex] in H. apply andb_true_iff in H as [Hc Hs].
  cbn [HexText.strip_spaces_from].
  rewrite (space_width_hex c s Hc), (IH Hs). reflexivity.
Qed.

(** A text of hex digits does not start with [0x]. *)
Lemma strip_0x_hex (s : string) :
  HexText.all_hex s = true -> HexText.strip_0x s = s.
Proof.
  intros H. destruct s as [|c [|d s]].
  - reflexivity.
  - destruct c as [[] [] [] [] [] [] [] []]; reflexivity.
  - cbn [HexText.all_hex] in H.
    apply andb_true_iff in H as [_ H]. apply andb_true_iff in H as [Hd _].
    destruct c as [[] [] [] [] [] [] [] []]; try reflexivity.
    destruct d as [[] [] [] [] [] [] [] []]; try reflexivity.
    discriminate Hd.
Qed.

Lemma all_hex_hex_text (bs : list byte) : HexText.all_hex (hex_text bs) = true.
Proof.
  induction bs as [|b bs IH]; [reflexivity|].
  pose proof (byte_to_Z_range b) as R.
  cbn [hex_text HexText.all_hex].
  rewrite (proj1 (hex_digit_ok (byte_to_Z b / 16) ltac:(div_lia))).
  rewrite (proj1 (hex_digit_ok (byte_to_Z b mod 16) ltac:(div_lia))).
  exact IH.
Qed.

Lemma pairs_hex_text (bs : list byte) : HexText.pairs (hex_text bs) = bs.
Proof.
  induction bs as [|b bs IH]; [reflexivity|].
  pose proof (byte_to_Z_range b) as R.
  cbn [hex_text HexText.pairs]. rewrite IH.
  rewrite (proj2 (hex_digit_ok (byte_to_Z b / 16) ltac:(div_lia))).
  rewrite (proj2 (hex_digit_ok (byte_to_Z b mod 16) ltac:(div_lia))).
  replace (16 * (byte_to_Z b / 16) + byte_to_Z b mod 16) with (byte_to_Z b)
    by div_lia.
  unfold byte_to_Z. rewrite N2Z.id, Byte.of_to_N. reflexivity.
Qed.

Lemma pairs_length (s : string) :
  List.length (HexText.pairs s) = Nat.div2 (S (String.length s)).
Proof.
  revert s. fix IH 1. intros [|c [|d s]]; try reflexivity.
  cbn [HexText.pairs List.length String.length Nat.div2].
  rewrite IH. reflexivity.
Qed.

End HexFacts.

(** X10: the hex reading of a signature gives back the bytes of a buffer
    written as hex text, two digits a byte, with or without the prefix
    [0x]; on any text of hex digits it gives one byte for each pair of
    digits and one more for a last single digit. *)
Theorem signature_from_hex_reads_hex_text (bs : list byte) :
  CborCoseEncoder.signature_from_hex (JStr (hex_text bs)) = Ok bs
  /\ CborCoseEncoder.signature_from_hex (JStr ("0x" ++ hex_text bs)) = Ok bs
  /\ (forall s,
         HexText.all_hex s = true ->
         exists out,
           CborCoseEncoder.signature_from_hex (JStr s) = Ok out
           /\ List.length out = Nat.div2 (S (String.length s))).
Proof.
  assert (Hgen : forall s,
             HexText.all_hex s = true ->
             CborCoseEncoder.signature_from_hex (JStr s)
             = Ok (HexText.pairs s)).
  { intros s Hs. unfold CborCoseEncoder.signature_from_hex.
    rewrite (HexFacts.strip_0x_hex s Hs), (HexFacts.strip_spaces_hex s Hs), Hs.
    reflexivity. }
  split; [|split].
  - rewrite Hgen by apply HexFacts.all_hex_hex_text.
    rewrite HexFacts.pairs_hex_text. reflexivity.
  - unfold CborCoseEncoder.signature_from_hex.
    change (HexText.strip_0x ("0x" ++ hex_text bs)) with (hex_text bs).
    rewrite HexFacts.strip_spaces_hex, HexFacts.all_hex_hex_text
      by apply HexFacts.all_hex_hex_text.
    cbn [negb]. rewrite HexFacts.pairs_hex_text. reflexivity.
  - intros s Hs. exists (HexText.pairs s).
    split; [apply Hgen; exact Hs | apply HexFacts.pairs_length].
Qed.

Lemma template_signature_resolves (L : JsLib) :
  exists sig,
    CborCoseEncoder.signature_bytes (JStr "AABBCCDDEEFF") = inr sig.
Proof.
  unfold CborCoseEncoder.signature_bytes.
  cbn [Js.truthy String.eqb negb CborCoseEncoder.signature_from_base64].
  destruct (Base64_toUint8Array "AABBCCDDEEFF"); [eauto|].
  vm_compute. eauto.
Qed.

(** X11: the text that [formatCoseTemplate] returns, once parsed back to
    the object it was made from, passes the three checks of
    [encodeCoseSign1], and its proposed signature is read, whatever the
    base64 library does with it: the template is never turned down with
    a validation message.  The encoder encodes the headers [{alg: -7}],
    the payload kept from the editor or the example payload, and tag 18
    on the array with [{kid: "key-1"}] and the signature read; it
    succeeds when the three calls of [cbor.encode] return, and fails
    with [COSE Sign1 encoding failed: ] and the message when one
    throws. *)
Theorem template_is_accepted (L : JsLib) (existingPayload : option string)
        (template : string) :
  CborCoseEncoder.formatCoseTemplate existingPayload = Ok (Some template) ->
  JSON_parse template = Ok (coseTemplate existingPayload) ->
  exists sig,
    CborCoseEncoder.signature_bytes (JStr "AABBCCDDEEFF") = inr sig
    /\ CborCoseEncoder.encodeCoseSign1 template =
       match cbor_encode (JObj [("alg", JNum (-7))]) with
       | Throw e => CborCoseEncoder.cose_encoding_failed e
       | Ok protectedBytes =>
           match cbor_encode
                   (Js.get_prop "payload" (coseTemplate existingPayload)) with
           | Throw e => CborCoseEncoder.cose_encoding_failed e
           | Ok payloadBytes =>
               match cbor_encode
                       (JTagged 18
                          (JArr [JBytes protectedBytes;
                                 JObj [("kid", JStr "key-1")];
                                 JBytes payloadBytes; JBytes sig])) with
               | Throw e => CborCoseEncoder.cose_encoding_failed e
               | Ok buffer =>
                   {| CborCoseEncoder.success := true;
                      CborCoseEncoder.data :=
                        Some (Base64_fromUint8Array buffer);
                      CborCoseEncoder.error := None |}
               end
           end
       end.
Proof.
  intros _ Hp. destruct (template_signature_resolves L) as [sig Hs].
  exists sig. split; [exact Hs|].
  rewrite (encodeCoseSign1_after_checks L template
             (coseTemplate existingPayload) Hp eq_refl eq_refl).
  change (Js.get_prop "signature" (coseTemplate existingPayload))
    with (JStr "AABBCCDDEEFF").
  rewrite Hs. reflexivity.
Qed.

(** X11, witness: the template made without an existing payload. *)
Lemma template_is_accepted_witness :
  exists sig,
    CborCoseEncoder.signature_bytes (L := NodeLib) (JStr "AABBCCDDEEFF")
    = inr sig
    /\ CborCoseEncoder.success
         (CborCoseEncoder.encodeCoseSign1 (L := NodeLib)
            Samples.template_text)
       = true.
Proof.
  destruct (template_is_accepted NodeLib None Samples.template_text)
    as (sig & Hs & He).
  - vm_compute. reflexivity.
  - vm_compute. reflexivity.
  - exists sig. split; [exact Hs|]. vm_compute. reflexivity.
Defined.

(* ===================================================================== *)
(** * Further properties of the resolution *)

(** X12: when the Sparkplug decoder matches a topic neither by name nor
    by payload, and the CBOR sniffing accepts the latest payload, the
    topic is bound to the CBOR decoder with the format [CBOR], whatever
    the binary and the string decoder would say of the topic name or of
    the payload. *)
Theorem findDecoder_cbor_shadows (L : JsLib)
        (SparkplugDecoder BinaryDecoder StringDecoder : MessageDecoder)
        (node : TreeNode) (m : Message) (p : Base64Message) :
  decoder_matches node SparkplugDecoder = false ->
  node_message node = Some m ->
  payload m = Some p ->
  CborDecoder.canDecodeData p = true ->
  findDecoder SparkplugDecoder BinaryDecoder StringDecoder node
  = Some {| td_decoder := CborDecoder_object; td_format := Some "CBOR" |}.
Proof.
  intros HS Hm Hp Hc.
  unfold findDecoder, findDecoderIn, decoders. cbn [List.find].
  rewrite HS.
  unfold decoder_matches at 1, topic_matches, data_matches.
  rewrite Hm, Hp. cbn [CborDecoder_object canDecodeTopic canDecodeData orb].
  rewrite Hc. reflexivity.
Qed.

(** X12, witness: the topic of the greeting, whose payload is the CBOR
    text string [hello], with a string decoder that claims the topic by
    name. *)
Lemma findDecoder_cbor_shadows_witness :
  option_map td_format
    (findDecoder (L := NodeLib) Examples.sparkplug Examples.binary
       Examples.text_by_topic Examples.greeting)
  = Some (Some "CBOR").
Proof.
  destruct (node_message Examples.greeting) as [m|] eqn:Hm;
    [|discriminate Hm].
  destruct (payload m) as [p|] eqn:Hp;
    [|injection Hm as <-; discriminate Hp].
  rewrite (findDecoder_cbor_shadows NodeLib Examples.sparkplug
             Examples.binary Examples.text_by_topic Examples.greeting m p).
  - reflexivity.
  - vm_compute. reflexivity.
  - exact Hm.
  - exact Hp.
  - injection Hm as <-. injection Hp as <-. vm_compute. reflexivity.
Defined.

(** X13: on a topic with no message, or with a message without a
    payload, resolution is by topic name alone, in the order Sparkplug,
    binary, string: the CBOR decoder is never bound to such a topic. *)
Theorem findDecoder_without_payload (L : JsLib)
        (SparkplugDecoder BinaryDecoder StringDecoder : MessageDecoder)
        (node : TreeNode) :
  match node_message node with
  | Some m => payload m = None
  | None => True
  end ->
  findDecoder SparkplugDecoder BinaryDecoder StringDecoder node
  = match List.find (fun d => topic_matches d (path node))
            [SparkplugDecoder; BinaryDecoder; StringDecoder] with
    | Some d =>
        Some {| td_decoder := d; td_format := List.hd_error (formats d) |}
    | None => None
    end.
Proof.
  intros H.
  assert (Hd : forall d, decoder_matches node d = topic_matches d (path node)).
  { intros d. unfold decoder_matches, data_matches.
    destruct (node_message node) as [m|]; [rewrite H|]; apply orb_false_r. }
  unfold findDecoder, findDecoderIn, decoders. cbn [List.find].
  rewrite !Hd.
  destruct (topic_matches SparkplugDecoder (path node)); [reflexivity|].
  change (topic_matches CborDecoder_object (path node)) with false.
  cbv iota. reflexivity.
Qed.

(** X13, witness: a topic without a message and a string decoder that
    goes by the topic name. *)
Lemma findDecoder_without_payload_witness :
  option_map td_format
    (findDecoder (L := NodeLib) Examples.sparkplug Examples.binary
       Examples.text_by_topic Samples.silent_node)
  = option_map td_format
      (findDecoderIn [Examples.sparkplug; Examples.binary;
                      Examples.text_by_topic] Samples.silent_node).
Proof.
  rewrite (findDecoder_without_payload NodeLib Examples.sparkplug
             Examples.binary Examples.text_by_topic Samples.silent_node I).
  vm_compute. reflexivity.
Defined.

(** X14: when the binary and the string decoder declare no topic-name
    predicate, the single pass of [findDecoder] binds the same decoder
    as a search by topic name over the whole registry followed, when it
    finds nothing, by a search by payload. *)
Theorem findDecoder_two_passes (L : JsLib)
        (SparkplugDecoder BinaryDecoder StringDecoder : MessageDecoder)
        (node : TreeNode) :
  canDecodeTopic BinaryDecoder = None ->
  canDecodeTopic StringDecoder = None ->
  findDecoder SparkplugDecoder BinaryDecoder StringDecoder node
  = Spec.resolve (decoders SparkplugDecoder BinaryDecoder StringDecoder) node.
Proof.
  intros HB HS.
  unfold findDecoder, findDecoderIn, Spec.resolve, decoders.
  cbn [List.find]. unfold decoder_matches, topic_matches.
  rewrite HB, HS. cbn [CborDecoder_object canDecodeTopic orb].
  destruct (canDecodeTopic SparkplugDecoder) as [f|]; cbn [orb];
    [destruct (f (path node)); cbn [orb]; [reflexivity|]|];
    destruct (data_matches SparkplugDecoder (node_message node));
    reflexivity.
Qed.

(** X14, witness: a registry whose string decoder sniffs every payload
    and has no topic-name predicate. *)
Lemma findDecoder_two_passes_witness :
  findDecoder (L := NodeLib) Examples.sparkplug Samples.text_sniffing
    Samples.text_sniffing Examples.greeting
  = Spec.resolve
      (decoders (L := NodeLib) Examples.sparkplug Samples.text_sniffing
         Samples.text_sniffing)
      Examples.greeting.
Proof.
  apply (findDecoder_two_passes NodeLib Examples.sparkplug
           Samples.text_sniffing Samples.text_sniffing Examples.greeting);
    reflexivity.
Defined.

(* ===================================================================== *)
(** * Further properties of the view model *)

(** X15: the first read of the [decoder] property of a view model that
    has no binding yet, on a topic that resolves, stores the binding and
    schedules one notification; the reads that follow return the stored
    binding and schedule nothing, so that the listeners of
    [onDecoderChange] are called exactly once, when the timer fires. *)
Theorem decoder_resolved_once (L : JsLib)
        (SparkplugDecoder BinaryDecoder StringDecoder : MessageDecoder)
        (w : TopicViewModel.World) (b : TopicDecoder) :
  TopicViewModel._decoder (TopicViewModel.vm w) = None ->
  TopicViewModel.owner (TopicViewModel.vm w) = true ->
  TopicViewModel.timers w = [] ->
  findDecoder SparkplugDecoder BinaryDecoder StringDecoder
    (TopicViewModel.node w) = Some b ->
  exists w',
    TopicViewModel.run SparkplugDecoder BinaryDecoder StringDecoder
      [TopicViewModel.ReadDecoder; TopicViewModel.ReadDecoder;
       TopicViewModel.TimerFires; TopicViewModel.ReadDecoder;
       TopicViewModel.TimerFires] w
    = ([Some b; Some b; Some b], w')
    /\ TopicViewModel.dispatched w' = TopicViewModel.dispatched w ++ [Some b]
    /\ TopicViewModel.timers w' = []
    /\ TopicViewModel._decoder (TopicViewModel.vm w') = Some b.
Proof.
  intros Hd Ho Ht Hf.
  unfold TopicViewModel.run, TopicViewModel.step.
  unfold TopicViewModel.get_decoder at 1. rewrite Hd, Ho, Hf.
  unfold TopicViewModel.get_decoder.
  cbn [TopicViewModel.vm TopicViewModel._decoder TopicViewModel.with_decoder].
  unfold TopicViewModel.run_timer.
  cbn [TopicViewModel.timers TopicViewModel.vm TopicViewModel._decoder
       TopicViewModel.dispatched TopicViewModel.node].
  rewrite Ht.
  cbn [app TopicViewModel.timers TopicViewModel.vm TopicViewModel._decoder
       TopicViewModel.dispatched TopicViewModel.node].
  eexists. split; [reflexivity|].
  cbn [TopicViewModel.timers TopicViewModel.vm TopicViewModel._decoder
       TopicViewModel.dispatched].
  auto.
Qed.

(** X15, witness: a fresh view model of the topic of the greeting. *)
Lemma decoder_resolved_once_witness :
  exists w',
    TopicViewModel.run (L := NodeLib) Examples.sparkplug Examples.binary
      Examples.text_by_topic
      [TopicViewModel.ReadDecoder; TopicViewModel.ReadDecoder;
       TopicViewModel.TimerFires; TopicViewModel.ReadDecoder;
       TopicViewModel.TimerFires]
      (TopicViewModel.message_arrives
         {| payload := Some (Examples.payload_of_bytes [101; 104; 101; 108; 108; 111]) |}
         Samples.fresh_world)
    = ([Some (@Samples.cbor_binding NodeLib); Some (@Samples.cbor_binding NodeLib);
        Some (@Samples.cbor_binding NodeLib)], w')
    /\ TopicViewModel.dispatched w' = [Some (@Samples.cbor_binding NodeLib)].
Proof.
  destruct (decoder_resolved_once NodeLib Examples.sparkplug Examples.binary
              Examples.text_by_topic
              (TopicViewModel.message_arrives
                 {| payload := Some (Examples.payload_of_bytes
                                       [101; 104; 101; 108; 108; 111]) |}
                 Samples.fresh_world)
              (@Samples.cbor_binding NodeLib))
    as (w' & Hr & Hd & _); try reflexivity.
  exists w'. split; [exact Hr | exact Hd].
Defined.

(** X16: a read on a topic that no decoder matches returns nothing and
    leaves the view model as it was: nothing is stored and nothing is
    scheduled.  The failure is not remembered: once a message that a
    decoder matches has arrived, the next read returns its binding. *)
Theorem unresolved_decoder_retried (L : JsLib)
        (SparkplugDecoder BinaryDecoder StringDecoder : MessageDecoder)
        (w : TopicViewModel.World) (m : Message) (b : TopicDecoder) :
  TopicViewModel._decoder (TopicViewModel.vm w) = None ->
  TopicViewModel.owner (TopicViewModel.vm w) = true ->
  findDecoder SparkplugDecoder BinaryDecoder StringDecoder
    (TopicViewModel.node w) = None ->
  findDecoder SparkplugDecoder BinaryDecoder StringDecoder
    (TopicViewModel.node (TopicViewModel.message_arrives m w)) = Some b ->
  TopicViewModel.get_decoder SparkplugDecoder BinaryDecoder StringDecoder w
  = (None, w)
  /\ fst (TopicViewModel.run SparkplugDecoder BinaryDecoder StringDecoder
            [TopicViewModel.ReadDecoder; TopicViewModel.MessageArrives m;
             TopicViewModel.ReadDecoder] w)
     = [None; Some b].
Proof.
  intros Hd Ho Hn Hs.
  assert (Hg : TopicViewModel.get_decoder SparkplugDecoder BinaryDecoder
                 StringDecoder w = (None, w)).
  { unfold TopicViewModel.get_decoder. rewrite Hd, Ho, Hn. reflexivity. }
  split; [exact Hg|].
  unfold TopicViewModel.run, TopicViewModel.step. rewrite Hg.
  unfold TopicViewModel.get_decoder.
  replace (TopicViewModel._decoder
             (TopicViewModel.vm (TopicViewModel.message_arrives m w)))
    with (@None TopicDecoder) by (symmetry; exact Hd).
  replace (TopicViewModel.owner
             (TopicViewModel.vm (TopicViewModel.message_arrives m w)))
    with true by (symmetry; exact Ho).
  rewrite Hs. reflexivity.
Qed.

(** X16, witness: a fresh view model of a topic without a message, read
    before and after the CBOR text string [hello] arrives, with decoders
    that match no topic name. *)
Lemma unresolved_decoder_retried_witness :
  fst (TopicViewModel.run (L := NodeLib) Examples.sparkplug Examples.binary
         Examples.binary
         [TopicViewModel.ReadDecoder;
          TopicViewModel.MessageArrives
            {| payload := Some (Examples.payload_of_bytes
                                  [101; 104; 101; 108; 108; 111]) |};
          TopicViewModel.ReadDecoder] Samples.fresh_world)
  = [None; Some (@Samples.cbor_binding NodeLib)].
Proof.
  apply (unresolved_decoder_retried NodeLib Examples.sparkplug
           Examples.binary Examples.binary Samples.fresh_world
           {| payload := Some (Examples.payload_of_bytes
                                 [101; 104; 101; 108; 108; 111]) |}
           (@Samples.cbor_binding NodeLib)); reflexivity.
Defined.

(** X17: writing the [decoder] property calls the listeners of
    [onDecoderChange] once, at once, with the value written, and
    schedules nothing.  A read after the write of a binding returns that
    binding; a read after the write of [undefined] resolves the topic
    again, and schedules a notification when it finds a decoder. *)
Theorem decoder_override (L : JsLib)
        (SparkplugDecoder BinaryDecoder StringDecoder : MessageDecoder)
        (w : TopicViewModel.World) :
  (forall override,
      TopicViewModel.dispatched (TopicViewModel.set_decoder override w)
      = TopicViewModel.dispatched w ++ [override]
      /\ TopicViewModel.timers (TopicViewModel.set_decoder override w)
         = TopicViewModel.timers w)
  /\ (forall b,
         TopicViewModel.run SparkplugDecoder BinaryDecoder StringDecoder
           [TopicViewModel.WriteDecoder (Some b); TopicViewModel.ReadDecoder] w
         = ([Some b], TopicViewModel.set_decoder (Some b) w))
  /\ (forall b,
         TopicViewModel.owner (TopicViewModel.vm w) = true ->
         findDecoder SparkplugDecoder BinaryDecoder StringDecoder
           (TopicViewModel.node w) = Some b ->
         exists w',
           TopicViewModel.run SparkplugDecoder BinaryDecoder StringDecoder
             [TopicViewModel.WriteDecoder None; TopicViewModel.ReadDecoder] w
           = ([Some b], w')
           /\ TopicViewModel.dispatched w'
              = TopicViewModel.dispatched w ++ [None]
           /\ TopicViewModel.timers w' = TopicViewModel.timers w ++ [b]).
Proof.
  split; [|split].
  - intros override. split; reflexivity.
  - intros b. reflexivity.
  - intros b Ho Hf.
    unfold TopicViewModel.run, TopicViewModel.step,
      TopicViewModel.get_decoder.
    cbn [TopicViewModel.set_decoder TopicViewModel.vm TopicViewModel._decoder
         TopicViewModel.with_decoder TopicViewModel.owner
         TopicViewModel.node].
    rewrite Ho, Hf. eexists. split; [reflexivity|]. split; reflexivity.
Qed.

Module CounterFacts.

(** What [retain] and [release] leave alone while the counter stays
    positive. *)
Lemma iter_retain (n : nat) (w : TopicViewModel.World) :
  TopicViewModel.node (Nat.iter n TopicViewModel.retain w)
  = TopicViewModel.node w
  /\ TopicViewModel.owner (TopicViewModel.vm (Nat.iter n TopicViewModel.retain w))
     = TopicViewModel.owner (TopicViewModel.vm w)
  /\ TopicViewModel.referenceCounter
       (TopicViewModel.vm (Nat.iter n TopicViewModel.retain w))
     = TopicViewModel.referenceCounter (TopicViewModel.vm w) + Z.of_nat n.
Proof.
  induction n as [|n (Hn & Ho & Hc)].
  - cbn [Nat.iter nat_rect]. repeat split. cbn [Z.of_nat]. lia.
  - change (Nat.iter (S n) TopicViewModel.retain w)
      with (TopicViewModel.retain (Nat.iter n TopicViewModel.retain w)).
    unfold TopicViewModel.retain at 1 3 5.
    cbn [TopicViewModel.node TopicViewModel.vm TopicViewModel.owner
         TopicViewModel.referenceCounter].
    rewrite Hn, Ho, Hc. repeat split. lia.
Qed.

Lemma iter_release (k : nat) (w : TopicViewModel.World) :
  Z.of_nat k < TopicViewModel.referenceCounter (TopicViewModel.vm w) ->
  TopicViewModel.node (Nat.iter k TopicViewModel.release w)
  = TopicViewModel.node w
  /\ TopicViewModel.owner (TopicViewModel.vm (Nat.iter k TopicViewModel.release w))
     = TopicViewModel.owner (TopicViewModel.vm w)
  /\ TopicViewModel.referenceCounter
       (TopicViewModel.vm (Nat.iter k TopicViewModel.release w))
     = TopicViewModel.referenceCounter (TopicViewModel.vm w) - Z.of_nat k.
Proof.
  induction k as [|k IH]; intros Hk.
  - cbn [Nat.iter nat_rect]. repeat split. cbn [Z.of_nat]. lia.
  - destruct IH as (Hn & Ho & Hc); [lia|].
    change (Nat.iter (S k) TopicViewModel.release w)
      with (TopicViewModel.release (Nat.iter k TopicViewModel.release w)).
    unfold TopicViewModel.release at 1 3 5.
    cbn [TopicViewModel.node TopicViewModel.vm TopicViewModel.owner
         TopicViewModel.referenceCounter].
    rewrite Hc.
    destruct (Z.leb_spec
                (TopicViewModel.referenceCounter (TopicViewModel.vm w)
                 - Z.of_nat k - 1) 0) as [Hle|_]; [lia|].
    cbn [TopicViewModel.node TopicViewModel.vm TopicViewModel.owner
         TopicViewModel.referenceCounter].
    rewrite Hn, Ho. repeat split. lia.
Qed.

(** The release that brings the counter to zero or below cuts the link
    between the view model and its node. *)
Lemma release_last (w : TopicViewModel.World) :
  TopicViewModel.referenceCounter (TopicViewModel.vm w) <= 1 ->
  TopicViewModel.owner (TopicViewModel.vm (TopicViewModel.release w)) = false
  /\ (TopicViewModel.owner (TopicViewModel.vm w) = true ->
      viewModel_linked (TopicViewModel.node (TopicViewModel.release w))
      = false).
Proof.
  intros Hc. unfold TopicViewModel.release.
  cbn [TopicViewModel.vm TopicViewModel.referenceCounter].
  destruct (Z.leb_spec
              (TopicViewModel.referenceCounter (TopicViewModel.vm w) - 1) 0)
    as [_|Hlt]; [|lia].
  unfold TopicViewModel.destroy. cbn [TopicViewModel.vm TopicViewModel.owner].
  destruct (TopicViewModel.owner (TopicViewModel.vm w)) eqn:Ho.
  - split; reflexivity.
  - cbn [TopicViewModel.vm TopicViewModel.owner]. split; [reflexivity|].
    intros H. discriminate H.
Qed.

End CounterFacts.

(** X18: a view model taken by [n] users stays linked to its node while
    fewer than [n] of them have released it, and the [n]-th release
    destroys it: the view model forgets its node and the node its view
    model.  A release that no [retain] preceded destroys the view model
    as well. *)
Theorem release_destroys_with_last_user (w : TopicViewModel.World)
        (n k : nat) :
  TopicViewModel.referenceCounter (TopicViewModel.vm w) = 0 ->
  TopicViewModel.owner (TopicViewModel.vm w) = true ->
  (k < n)%nat ->
  let held := Nat.iter n TopicViewModel.retain w in
  TopicViewModel.owner
    (TopicViewModel.vm (Nat.iter k TopicViewModel.release held)) = true
  /\ TopicViewModel.node (Nat.iter k TopicViewModel.release held)
     = TopicViewModel.node w
  /\ TopicViewModel.owner
       (TopicViewModel.vm (Nat.iter n TopicViewModel.release held)) = false
  /\ viewModel_linked
       (TopicViewModel.node (Nat.iter n TopicViewModel.release held)) = false
  /\ TopicViewModel.owner (TopicViewModel.vm (TopicViewModel.release w))
     = false.
Proof.
  intros Hc Ho Hk held.
  destruct (CounterFacts.iter_retain n w) as (Hn1 & Ho1 & Hc1).
  fold held in Hn1, Ho1, Hc1. rewrite Hc in Hc1.
  destruct (CounterFacts.iter_release k held) as (Hn2 & Ho2 & _); [lia|].
  split; [rewrite Ho2, Ho1; exact Ho|].
  split; [rewrite Hn2; exact Hn1|].
  destruct n as [|n]; [lia|].
  destruct (CounterFacts.iter_release n held) as (Hn3 & Ho3 & Hc3); [lia|].
  change (Nat.iter (S n) TopicViewModel.release held)
    with (TopicViewModel.release (Nat.iter n TopicViewModel.release held)).
  destruct (CounterFacts.release_last
              (Nat.iter n TopicViewModel.release held)) as [H1 H2]; [lia|].
  split; [exact H1|].
  split; [apply H2; rewrite Ho3, Ho1; exact Ho|].
  apply CounterFacts.release_last. lia.
Qed.

(** X18, witness: a fresh view model taken three times and released
    twice, then a third time. *)
Lemma release_destroys_with_last_user_witness :
  TopicViewModel.owner
    (TopicViewModel.vm
       (Nat.iter 2 TopicViewModel.release
          (Nat.iter 3 TopicViewModel.retain Samples.fresh_world))) = true
  /\ TopicViewModel.owner
       (TopicViewModel.vm
          (Nat.iter 3 TopicViewModel.release
             (Nat.iter 3 TopicViewModel.retain Samples.fresh_world))) = false.
Proof.
  destruct (release_destroys_with_last_user Samples.fresh_world 3 2
              eq_refl eq_refl ltac:(lia)) as (H1 & _ & H2 & _).
  split; [exact H1 | exact H2].
Defined.

Lemma step_stays_unresolved (L : JsLib)
      (SparkplugDecoder BinaryDecoder StringDecoder : MessageDecoder)
      (e : TopicViewModel.event) (w : TopicViewModel.World) :
  TopicViewModel.owner (TopicViewModel.vm w) = false ->
  TopicViewModel._decoder (TopicViewModel.vm w) = None ->
  TopicViewModel.is_write e = false ->
  let r := TopicViewModel.step SparkplugDecoder BinaryDecoder StringDecoder
             e w in
  TopicViewModel.owner (TopicViewModel.vm (snd r)) = false
  /\ TopicViewModel._decoder (TopicViewModel.vm (snd r)) = None
  /\ (forall d, fst r = Some d -> d = None).
Proof.
  intros Ho Hd He.
  destruct e; try discriminate He; cbn [TopicViewModel.step].
  - unfold TopicViewModel.get_decoder. rewrite Hd, Ho. cbn [fst snd].
    repeat split; auto. intros d H. injection H as <-. reflexivity.
  - cbn [fst snd TopicViewModel.message_arrives TopicViewModel.vm].
    repeat split; auto. intros d H. discriminate H.
  - unfold TopicViewModel.run_timer. destruct (TopicViewModel.timers w);
      cbn [fst snd TopicViewModel.vm]; repeat split; auto;
      intros d H; discriminate H.
  - cbn [fst snd TopicViewModel.retain TopicViewModel.vm TopicViewModel.owner
         TopicViewModel._decoder].
    repeat split; auto. intros d H. discriminate H.
  - unfold TopicViewModel.release, TopicViewModel.destroy.
    cbn [fst snd TopicViewModel.vm TopicViewModel.owner
         TopicViewModel.referenceCounter].
    rewrite Ho.
    destruct (TopicViewModel.referenceCounter (TopicViewModel.vm w) - 1 <=? 0);
      cbn [TopicViewModel.vm TopicViewModel.owner TopicViewModel._decoder];
      repeat split; auto; intros d H; discriminate H.
  - unfold TopicViewModel.destroy. rewrite Ho. cbn [fst snd].
    repeat split; auto. intros d H. discriminate H.
  - cbn [fst snd TopicViewModel.setSelected TopicViewModel.vm
         TopicViewModel.owner TopicViewModel._decoder].
    repeat split; auto. intros d H. discriminate H.
  - cbn [fst snd TopicViewModel.setExpanded TopicViewModel.vm
         TopicViewModel.owner TopicViewModel._decoder].
    repeat split; auto. intros d H. discriminate H.
Qed.

(** X19: a view model that was destroyed before it resolved a decoder
    never resolves one: whatever messages arrive and whatever else
    happens to it, short of a write of the [decoder] property, every
    read returns nothing. *)
Theorem destroyed_view_model_stays_unresolved (L : JsLib)
        (SparkplugDecoder BinaryDecoder StringDecoder : MessageDecoder)
        (es : list TopicViewModel.event) (w : TopicViewModel.World) :
  TopicViewModel.owner (TopicViewModel.vm w) = false ->
  TopicViewModel._decoder (TopicViewModel.vm w) = None ->
  forallb (fun e => negb (TopicViewModel.is_write e)) es = true ->
  Forall (fun d => d = None)
    (fst (TopicViewModel.run SparkplugDecoder BinaryDecoder StringDecoder
            es w)).
Proof.
  revert w. induction es as [|e es IH]; intros w Ho Hd Hes.
  - constructor.
  - cbn [forallb] in Hes. apply andb_true_iff in Hes as [He Hes].
    apply negb_true_iff in He.
    destruct (step_stays_unresolved L SparkplugDecoder BinaryDecoder
                StringDecoder e w Ho Hd He) as (Ho' & Hd' & Hr).
    cbn [TopicViewModel.run].
    destruct (TopicViewModel.step SparkplugDecoder BinaryDecoder
                StringDecoder e w) as [r w'].
    cbn [fst snd] in Ho', Hd', Hr.
    specialize (IH w' Ho' Hd' Hes).
    destruct (TopicViewModel.run SparkplugDecoder BinaryDecoder
                StringDecoder es w') as [rs w''].
    cbn [fst] in IH |- *.
    destruct r as [d|]; [|exact IH].
    constructor; [apply Hr; reflexivity | exact IH].
Qed.

(** X19, witness: a fresh view model destroyed, then read after the
    CBOR text string [hello] arrived. *)
Lemma destroyed_view_model_stays_unresolved_witness :
  Forall (fun d => d = None)
    (fst (TopicViewModel.run (L := NodeLib) Examples.sparkplug Examples.binary
            Examples.text_by_topic
            [TopicViewModel.MessageArrives
               {| payload := Some (Examples.payload_of_bytes
                                     [101; 104; 101; 108; 108; 111]) |};
             TopicViewModel.ReadDecoder]
            (TopicViewModel.destroy Samples.fresh_world))).
Proof.
  apply (destroyed_view_model_stays_unresolved NodeLib); reflexivity.
Defined.

(* ===================================================================== *)
(** * Properties of the callers *)

(** The loop over the registry returns the result of the first decoder
    that sniffs the payload and decodes it without an error. *)
Lemma try_decoders_first (registry : list MessageDecoder)
      (p : Base64Message) :
  match try_decoders registry p with
  | Some r =>
      exists before d after,
        registry = before ++ d :: after
        /\ Forall (fun d' => sniffs d' p = false
                             \/ no_error (decode d' p None) = false) before
        /\ sniffs d p = true
        /\ no_error (decode d p None) = true
        /\ r = decode d p None
  | None =>
      Forall (fun d' => sniffs d' p = false
                        \/ no_error (decode d' p None) = false) registry
  end.
Proof.
  induction registry as [|d rest IH]; cbn [try_decoders]; [constructor|].
  destruct (sniffs d p) eqn:Hs.
  - destruct (no_error (decode d p None)) eqn:Hn.
    + exists [], d, rest. repeat split; auto.
    + destruct (try_decoders rest p) as [r|].
      * destruct IH as (before & d' & after & -> & Hb & IH).
        exists (d :: before), d', after. split; [reflexivity|].
        split; [constructor; auto | exact IH].
      * constructor; auto.
  - destruct (try_decoders rest p) as [r|].
    + destruct IH as (before & d' & after & -> & Hb & IH).
      exists (d :: before), d', after. split; [reflexivity|].
      split; [constructor; auto | exact IH].
    + constructor; auto.
Qed.

(** An envelope of the CBOR decoder is tagged [NONE] or is a success
    envelope. *)
Lemma decode_tagged (L : JsLib) (p : Base64Message)
      (format : option string) :
  decoder (CborDecoder.decode p format) = NONE
  \/ exists msg, CborDecoder.decode p format = success_envelope msg.
Proof.
  rewrite decode_unfold.
  destruct (Base64Message_toBuffer p) as [buffer|e]; cbn [bind try_catch];
    [|left; reflexivity].
  destruct (cbor_decode buffer) as [decoded|e]; cbn [bind try_catch];
    [|left; reflexivity].
  destruct (JSON_stringify (CborDecoder.rendered_structure decoded))
    as [jsonString|e]; cbn [bind try_catch]; [|left; reflexivity].
  destruct (Base64Message_fromString jsonString) as [msg|e];
    cbn [bind try_catch]; [|left; reflexivity].
  right. exists msg. reflexivity.
Qed.

(** X20: on a topic that is bound to the CBOR decoder, or to no decoder,
    [decodeIndividualMessage] never returns an error.  For a message
    with a payload the result is the success envelope of the CBOR
    decoder of the topic when it has one; otherwise (no binding, or an
    envelope tagged [NONE], as the error envelope is) it is the result
    of the first decoder of the registry that sniffs the payload and
    decodes it without an error, the format left undefined, and, when
    there is none, the payload as it is, tagged [NONE]: the message
    about the failed decoding is dropped.  A message without a payload
    is returned without a payload, tagged [NONE]. *)
Theorem decodeIndividualMessage_drops_cbor_error (L : JsLib)
        (SparkplugDecoder BinaryDecoder StringDecoder : MessageDecoder)
        (binding : option TopicDecoder) (m : Message) :
  match binding with
  | Some b => td_decoder b = CborDecoder_object
  | None => True
  end ->
  no_error (decodeIndividualMessage SparkplugDecoder BinaryDecoder
              StringDecoder binding m) = true
  /\ match payload m with
     | None =>
         decodeIndividualMessage SparkplugDecoder BinaryDecoder
           StringDecoder binding m
         = {| message := None; error := None; decoder := NONE |}
     | Some p =>
         (exists b msg,
             binding = Some b
             /\ CborDecoder.decode p (td_format b) = success_envelope msg
             /\ decodeIndividualMessage SparkplugDecoder BinaryDecoder
                  StringDecoder binding m
                = success_envelope msg)
         \/ ((binding = None
              \/ exists b,
                  binding = Some b
                  /\ decoder (CborDecoder.decode p (td_format b)) = NONE)
             /\ ((exists before d after,
                     decoders SparkplugDecoder BinaryDecoder StringDecoder
                     = before ++ d :: after
                     /\ Forall (fun d' =>
                                  sniffs d' p = false
                                  \/ no_error (decode d' p None) = false)
                               before
                     /\ sniffs d p = true
                     /\ no_error (decode d p None) = true
                     /\ decodeIndividualMessage SparkplugDecoder
                          BinaryDecoder StringDecoder binding m
                        = decode d p None)
                 \/ (Forall (fun d' =>
                               sniffs d' p = false
                               \/ no_error (decode d' p None) = false)
                            (decoders SparkplugDecoder BinaryDecoder
                               StringDecoder)
                     /\ decodeIndividualMessage SparkplugDecoder
                          BinaryDecoder StringDecoder binding m
                        = {| message := Some p; error := None;
                             decoder := NONE |})))
     end.
Proof.
  intros Hb. unfold decodeIndividualMessage, decodeIndividualMessageIn.
  destruct (payload m) as [p|] eqn:Hp; [|split; reflexivity].
  assert (Hloop :
            let r := match try_decoders
                             (decoders SparkplugDecoder BinaryDecoder
                                StringDecoder) p with
                     | Some result => result
                     | None => {| message := Some p; error := None;
                                  decoder := NONE |}
                     end in
            no_error r = true
            /\ ((exists before d after,
                    decoders SparkplugDecoder BinaryDecoder StringDecoder
                    = before ++ d :: after
                    /\ Forall (fun d' =>
                                 sniffs d' p = false
                                 \/ no_error (decode d' p None) = false)
                              before
                    /\ sniffs d p = true
                    /\ no_error (decode d p None) = true
                    /\ r = decode d p None)
                \/ (Forall (fun d' =>
                              sniffs d' p = false
                              \/ no_error (decode d' p None) = false)
                           (decoders SparkplugDecoder BinaryDecoder
                              StringDecoder)
                    /\ r = {| message := Some p; error := None;
                              decoder := NONE |}))).
  { pose proof (try_decoders_first
                  (decoders SparkplugDecoder BinaryDecoder StringDecoder) p)
      as H.
    destruct (try_decoders _ p) as [r|]; cbv zeta.
    - destruct H as (before & d & after & Hreg & Hbefore & Hs & Hn & ->).
      split; [exact Hn|]. left. exists before, d, after. auto.
    - split; [reflexivity|]. right. auto. }
  cbv zeta in Hloop. destruct Hloop as [Hno Hwhich].
  unfold useDecoder_decode. rewrite Hp.
  destruct binding as [b|].
  - rewrite Hb. cbn [CborDecoder_object decode].
    destruct (decode_tagged L p (td_format b)) as [Hnone | [msg Hmsg]].
    + rewrite Hnone. cbn [is_NONE negb]. split; [exact Hno|].
      right. split; [right; exists b; auto | exact Hwhich].
    + rewrite Hmsg. cbn [success_envelope decoder is_NONE negb].
      split; [reflexivity|]. left. exists b, msg. auto.
  - cbn [decoder is_NONE negb]. split; [exact Hno|].
    right. split; [left; reflexivity | exact Hwhich].
Qed.

(** X20, witness: three bytes that are no CBOR data item, on a topic
    bound to the CBOR decoder. *)
Lemma decodeIndividualMessage_drops_cbor_error_witness :
  error (CborDecoder.decode (L := NodeLib) Samples.not_cbor (Some "CBOR"))
  <> None
  /\ no_error
       (decodeIndividualMessage (L := NodeLib) Examples.sparkplug
          Examples.binary Examples.text_by_topic
          (Some (@Samples.cbor_binding NodeLib))
          {| payload := Some Samples.not_cbor |}) = true.
Proof.
  split; [vm_compute; discriminate|].
  apply (decodeIndividualMessage_drops_cbor_error NodeLib Examples.sparkplug
           Examples.binary Examples.text_by_topic
           (Some (@Samples.cbor_binding NodeLib))
           {| payload := Some Samples.not_cbor |}).
  reflexivity.
Defined.

Lemma validation_message_not_empty (e : string) :
  In e cose_validation_messages -> String.eqb e "" = false.
Proof.
  intros [<- | [<- | [<- | [<- | []]]]]; reflexivity.
Qed.

(** X21: in the COSE mode, with a topic and a text in the editor, the
    publish action does not throw.  It either emits one message, whose
    payload is the data of [encodeCoseSign1], or shows one error and
    emits nothing; the error is one of the four validation messages of
    the encoder or, when [cbor.encode] threw,
    [COSE Sign1 encoding failed: ] followed by the message of the
    exception. *)
Theorem publish_cose_emits_or_explains (L : JsLib) (no_data : Base64Message)
        (connectionId : string) (state : PublishState)
        (topic text : string) :
  publish_topic state = Some topic -> topic <> "" ->
  editor_payload state = Some text -> text <> "" ->
  editorMode state = "cose" ->
  (exists d,
      CborCoseEncoder.success (CborCoseEncoder.encodeCoseSign1 text) = true
      /\ CborCoseEncoder.data (CborCoseEncoder.encodeCoseSign1 text) = Some d
      /\ publish no_data connectionId state
         = Ok [Emit connectionId
                 {| mqtt_topic := topic;
                    mqtt_payload := Some (new_Base64Message d);
                    mqtt_retain := retain_flag state;
                    mqtt_qos := qos state |}])
  \/ (exists e,
         In e cose_validation_messages
         /\ CborCoseEncoder.encodeCoseSign1 text = CborCoseEncoder.failure e
         /\ publish no_data connectionId state = Ok [ShowError e])
  \/ (exists e,
         CborCoseEncoder.encodeCoseSign1 text
         = CborCoseEncoder.cose_encoding_failed e
         /\ publish no_data connectionId state
            = Ok [ShowError
                    ("COSE Sign1 encoding failed: " ++ error_message e)]).
Proof.
  intros Ht Hne Hp Hpe Hm. unfold publish.
  rewrite Ht, Hp, Hm.
  rewrite (proj2 (String.eqb_neq topic "") Hne).
  rewrite (proj2 (String.eqb_neq text "") Hpe).
  change (String.eqb "cose" "cbor") with false.
  change (String.eqb "cose" "cose") with true. cbv iota.
  destruct (encodeCoseSign1_cases L text)
    as [[d Hd] | [(e & He & Hf) | [e Hf]]].
  - left. exists d. rewrite Hd. repeat split.
  - right. left. exists e. rewrite Hf.
    cbn [CborCoseEncoder.failure CborCoseEncoder.success
         CborCoseEncoder.error negb text_or].
    rewrite (validation_message_not_empty e He). auto.
  - right. right. exists e. rewrite Hf. split; reflexivity.
Qed.

(** X21, witness: the input [{"foo": 1}], which has no payload. *)
Lemma publish_cose_emits_or_explains_witness :
  publish (L := NodeLib) (new_Base64Message "")
    "connection" (Samples.editor "cose" (Some Examples.missing_payload_text)
                    (Some "a/b"))
  = Ok [ShowError CborCoseEncoder.missing_payload_message].
Proof.
  destruct (publish_cose_emits_or_explains NodeLib (new_Base64Message "")
              "connection"
              (Samples.editor "cose" (Some Examples.missing_payload_text)
                 (Some "a/b"))
              "a/b" Examples.missing_payload_text)
    as [(d & Hs & _) | [(e & _ & Hf & Hr) | (e & Hf & Hr)]];
    try reflexivity; try discriminate.
Defined.

(** X22: in the CBOR mode, with a topic and a text in the editor, the
    publish action does not throw.  The value encoded is the one the
    text parses to as JSON, or the text itself, as a text string, when
    it is no JSON.  When [cbor.encode] returns, the action emits one
    message with the encoded bytes as its payload and shows no error;
    when [cbor.encode] throws, it shows [CBOR encoding failed: ]
    followed by the message of the exception, and emits nothing. *)
Theorem publish_cbor_emits_or_explains (L : JsLib) (no_data : Base64Message)
        (connectionId : string) (state : PublishState)
        (topic text : string) :
  publish_topic state = Some topic -> topic <> "" ->
  editor_payload state = Some text -> text <> "" ->
  editorMode state = "cbor" ->
  publish no_data connectionId state
  = match cbor_encode (match JSON_parse text with
                       | Ok value => value
                       | Throw _ => JStr text
                       end) with
    | Ok cborBuffer =>
        Ok [Emit connectionId
              {| mqtt_topic := topic;
                 mqtt_payload :=
                   Some (new_Base64Message
                           (Base64_fromUint8Array cborBuffer));
                 mqtt_retain := retain_flag state;
                 mqtt_qos := qos state |}]
    | Throw e =>
        Ok [ShowError ("CBOR encoding failed: " ++ error_message e)]
    end.
Proof.
  intros Ht Hne Hp Hpe Hm. unfold publish.
  rewrite Ht, Hp, Hm.
  rewrite (proj2 (String.eqb_neq topic "") Hne).
  rewrite (proj2 (String.eqb_neq text "") Hpe).
  change (String.eqb "cbor" "cbor") with true. cbv iota.
  unfold CborCoseEncoder.encodeCbor.
  destruct (JSON_parse text) as [value|e0]; cbn [try_or bind].
  - destruct (cbor_encode value); reflexivity.
  - destruct (cbor_encode (JStr text)); reflexivity.
Qed.

(** X22, witness: the text [hello world], which is no JSON. *)
Lemma publish_cbor_emits_or_explains_witness :
  publish (L := NodeLib) (new_Base64Message "") "connection"
    (Samples.editor "cbor" (Some "hello world") (Some "a/b"))
  = Ok [Emit "connection"
          {| mqtt_topic := "a/b";
             mqtt_payload :=
               Some (new_Base64Message
                       (Base64.encode (Cbor.encode (JStr "hello world"))));
             mqtt_retain := false;
             mqtt_qos := 0 |}].
Proof.
  rewrite (publish_cbor_emits_or_explains NodeLib (new_Base64Message "")
             "connection"
             (Samples.editor "cbor" (Some "hello world") (Some "a/b"))
             "a/b" "hello world");
    try reflexivity; discriminate.
Defined.

(** X23: with a topic and nothing in the editor (no text, or the empty
    text), the publish action emits one message with the payload [null]
    in every editor mode: in the COSE mode the empty input is not
    validated and no error is shown. *)
Theorem publish_empty_editor (L : JsLib) (no_data : Base64Message)
        (connectionId : string) (state : PublishState) (topic : string) :
  publish_topic state = Some topic -> topic <> "" ->
  editor_payload state = None \/ editor_payload state = Some "" ->
  publish no_data connectionId state
  = Ok [Emit connectionId
          {| mqtt_topic := topic; mqtt_payload := None;
             mqtt_retain := retain_flag state; mqtt_qos := qos state |}].
Proof.
  intros Ht Hne Hp. unfold publish.
  rewrite Ht, (proj2 (String.eqb_neq topic "") Hne).
  destruct Hp as [-> | ->]; reflexivity.
Qed.

(** X23, witness: the COSE mode with an empty editor. *)
Lemma publish_empty_editor_witness :
  publish (L := NodeLib) (new_Base64Message "") "connection"
    (Samples.editor "cose" (Some "") (Some "a/b"))
  = Ok [Emit "connection"
          {| mqtt_topic := "a/b"; mqtt_payload := None;
             mqtt_retain := false; mqtt_qos := 0 |}].
Proof.
  apply (publish_empty_editor NodeLib (new_Base64Message "") "connection"
           (Samples.editor "cose" (Some "") (Some "a/b")) "a/b").
  - reflexivity.
  - discriminate.
  - right. reflexivity.
Defined.

(** X24: the publish action never reads the data of a result that has
    none: whatever [new Base64Message(undefined)] would be, the action
    does the same. *)
Theorem publish_reads_data_of_success_only (L : JsLib)
        (no_data no_data' : Base64Message) (connectionId : string)
        (state : PublishState) :
  publish no_data connectionId state = publish no_data' connectionId state.
Proof.
  unfold publish.
  destruct (publish_topic state) as [topic|]; [|reflexivity].
  destruct (String.eqb topic ""); [reflexivity|].
  destruct (editor_payload state) as [text|]; [|reflexivity].
  destruct (String.eqb text ""); [reflexivity|].
  destruct (String.eqb (editorMode state) "cbor").
  - destruct (encodeCbor_cases L text) as [[d ->] | [e ->]]; reflexivity.
  - destruct (String.eqb (editorMode state) "cose"); [|reflexivity].
    destruct (encodeCoseSign1_cases L text)
      as [[d ->] | [(e & _ & ->) | [e ->]]];
      reflexivity.
Qed.

(** X25: the [publish] callback of the component records the topic and
    the text of the editor in the history whenever the connection and
    the manual topic are set and the action returns, whether the action
    emitted the message or showed an error instead; a message published
    to the selected topic, without a manual topic, is not recorded. *)
Theorem Publish_records_attempts (L : JsLib) (no_data : Base64Message)
        (connectionId : string) (now : Z) (state : PublishState)
        (history : list SentMessage) (effects : list effect) :
  connectionId <> "" ->
  publish no_data connectionId state = Ok effects ->
  (forall topic,
      manualTopic state = Some topic -> topic <> "" ->
      Publish_publish no_data (Some connectionId) now state history
      = Ok (effects,
            amendToHistory now history topic (editor_payload state)))
  /\ (manualTopic state = None ->
      Publish_publish no_data (Some connectionId) now state history
      = Ok (effects, history)).
Proof.
  intros Hc Hp. unfold Publish_publish.
  rewrite (proj2 (String.eqb_neq connectionId "") Hc), Hp. cbn [bind].
  split.
  - intros topic Ht Hne. rewrite Ht. cbn [text_or].
    rewrite (proj2 (String.eqb_neq topic "") Hne). cbv iota.
    rewrite (proj2 (String.eqb_neq topic "") Hne). reflexivity.
  - intros ->. reflexivity.
Qed.

(** X25, witness: a COSE input without a payload is shown as an error
    and recorded in the history all the same. *)
Lemma Publish_records_attempts_witness :
  Publish_publish (L := NodeLib) (new_Base64Message "") (Some "connection")
    7 (Samples.editor "cose" (Some Examples.missing_payload_text)
         (Some "a/b")) []
  = Ok ([ShowError CborCoseEncoder.missing_payload_message],
        [{| sent_topic := "a/b";
            sent_payload := Some Examples.missing_payload_text;
            sent := 7 |}]).
Proof.
  apply (Publish_records_attempts NodeLib (new_Base64Message "")
           "connection" 7
           (Samples.editor "cose" (Some Examples.missing_payload_text)
              (Some "a/b")) []
           [ShowError CborCoseEncoder.missing_payload_message]);
    try reflexivity; discriminate.
Defined.

Module HistoryFacts.

Lemma same_text_eq (a b : option string) : same_text a b = true <-> a = b.
Proof.
  destruct a as [x|], b as [y|]; cbn [same_text];
    try (split; [discriminate | intros H; discriminate H]).
  - rewrite String.eqb_eq. split; [intros ->; reflexivity|].
    intros H. injection H as ->. reflexivity.
  - split; reflexivity.
Qed.

(** The filter of [amendToHistory] keeps the entries that differ from the
    new one in topic or in payload. *)
Lemma kept_differs (topic : string) (text : option string) (e : SentMessage) :
  negb (same_text (sent_payload e) text)
  || negb (String.eqb (sent_topic e) topic) = true
  <-> entry_key e <> (topic, text).
Proof.
  unfold entry_key. split.
  - intros H Heq. injection Heq as Ht Hp.
    apply (proj2 (same_text_eq _ _)) in Hp.
    apply (proj2 (String.eqb_eq _ _)) in Ht.
    rewrite Hp, Ht in H. discriminate H.
  - intros H.
    destruct (same_text (sent_payload e) text) eqn:Hp; [|reflexivity].
    destruct (String.eqb (sent_topic e) topic) eqn:Ht; [|reflexivity].
    exfalso. apply H. apply same_text_eq in Hp. apply String.eqb_eq in Ht.
    rewrite Hp, Ht. reflexivity.
Qed.

Lemma slice_last_length {A : Type} (n : nat) (l : list A) :
  (List.length (slice_last n l) <= n)%nat.
Proof. unfold slice_last. rewrite length_skipn. lia. Qed.

Lemma slice_last_In {A : Type} (n : nat) (l : list A) (x : A) :
  In x (slice_last n l) -> In x l.
Proof.
  unfold slice_last. intros H.
  rewrite <- (firstn_skipn (List.length l - n) l).
  apply in_or_app. right. exact H.
Qed.

Lemma slice_last_all {A : Type} (n : nat) (l : list A) :
  (List.length l <= n)%nat -> slice_last n l = l.
Proof.
  unfold slice_last. intros H.
  replace (List.length l - n)%nat with 0%nat by lia. reflexivity.
Qed.

Lemma filter_all {A : Type} (f : A -> bool) (l : list A) :
  (forall x, In x l -> f x = true) -> filter f l = l.
Proof.
  induction l as [|a l IH]; intros H; [reflexivity|].
  cbn [filter]. rewrite (H a (or_introl eq_refl)), IH; [reflexivity|].
  intros x Hx. apply H. right. exact Hx.
Qed.

Lemma NoDup_map_filter {A B : Type} (k : A -> B) (f : A -> bool)
      (l : list A) :
  NoDup (map k l) -> NoDup (map k (filter f l)).
Proof.
  induction l as [|a l IH]; intros H; [exact H|].
  cbn [map] in H. apply NoDup_cons_iff in H as [Ha Hl].
  cbn [filter]. destruct (f a); [|exact (IH Hl)].
  cbn [map]. constructor; [|exact (IH Hl)].
  intros Hin. apply Ha. apply in_map_iff in Hin as (x & Hx & Hin).
  apply in_map_iff. exists x. split; [exact Hx|].
  apply filter_In in Hin. tauto.
Qed.

Lemma NoDup_map_slice_last {A B : Type} (k : A -> B) (n : nat) (l : list A) :
  NoDup (map k l) -> NoDup (map k (slice_last n l)).
Proof.
  unfold slice_last. intros H.
  rewrite <- (firstn_skipn (List.length l - n) l), map_app in H.
  exact (NoDup_app_remove_l _ _ H).
Qed.

Lemma NoDup_snoc {B : Type} (l : list B) (x : B) :
  NoDup l -> ~ In x l -> NoDup (l ++ [x]).
Proof.
  induction l as [|a l IH]; intros Hl Hx.
  - constructor; [intros []|constructor].
  - apply NoDup_cons_iff in Hl as [Ha Hl]. cbn [app]. constructor.
    + intros Hin. apply in_app_or in Hin as [Hin | [-> | []]];
        [exact (Ha Hin)|]. apply Hx. left. reflexivity.
    + apply IH; [exact Hl|]. intros Hin. apply Hx. right. exact Hin.
Qed.

Lemma amendToHistory_invariant (now : Z) (history : list SentMessage)
      (topic : string) (text : option string) :
  NoDup (map entry_key history) ->
  (List.length (amendToHistory now history topic text) <= 8)%nat
  /\ NoDup (map entry_key (amendToHistory now history topic text)).
Proof.
  intros H. unfold amendToHistory. split.
  - rewrite length_app. cbn [List.length].
    pose proof (slice_last_length 7
                  (filter (fun e => negb (same_text (sent_payload e) text)
                                    || negb (String.eqb (sent_topic e) topic))
                          history)).
    lia.
  - rewrite map_app. cbn [map]. apply NoDup_snoc.
    + apply NoDup_map_slice_last, NoDup_map_filter. exact H.
    + intros Hin. apply in_map_iff in Hin as (e & He & Hin).
      apply slice_last_In, filter_In in Hin. destruct Hin as [_ Hf].
      apply kept_differs in Hf. exact (Hf He).
Qed.

End HistoryFacts.

(** X26: [amendToHistory] returns at most seven entries of the history
    it was given, in their order, followed by the new entry.  Every
    entry it keeps differs from the new one in topic or in payload; a
    history of at most seven entries none of which has the topic and the
    payload of the new one is kept whole. *)
Theorem amendToHistory_shape (now : Z) (history : list SentMessage)
        (topic : string) (text : option string) :
  exists dropped kept,
    amendToHistory now history topic text
    = kept ++ [{| sent_topic := topic; sent_payload := text; sent := now |}]
    /\ (List.length kept <= 7)%nat
    /\ filter (fun e => negb (same_text (sent_payload e) text)
                        || negb (String.eqb (sent_topic e) topic)) history
       = dropped ++ kept
    /\ (forall e, In e kept -> In e history /\ entry_key e <> (topic, text))
    /\ ((List.length history <= 7)%nat
        /\ (forall e, In e history -> entry_key e <> (topic, text))
        -> kept = history).
Proof.
  set (f := fun e => negb (same_text (sent_payload e) text)
                     || negb (String.eqb (sent_topic e) topic)).
  exists (firstn (List.length (filter f history) - 7) (filter f history)),
         (slice_last 7 (filter f history)).
  split; [reflexivity|].
  split; [apply HistoryFacts.slice_last_length|].
  split; [symmetry; apply firstn_skipn|].
  split.
  - intros e He. apply HistoryFacts.slice_last_In, filter_In in He.
    destruct He as [Hin Hf]. split; [exact Hin|].
    apply HistoryFacts.kept_differs. exact Hf.
  - intros [Hlen Hall].
    rewrite (HistoryFacts.filter_all f history).
    + apply HistoryFacts.slice_last_all. exact Hlen.
    + intros e He. apply HistoryFacts.kept_differs. exact (Hall e He).
Qed.

(** X27: a history that starts empty and grows by [amendToHistory] never
    holds more than eight entries, and never two entries with the same
    topic and the same payload. *)
Theorem history_bounded_without_duplicates
        (calls : list (Z * string * option string)) :
  (List.length (amend_all calls []) <= 8)%nat
  /\ NoDup (map entry_key (amend_all calls [])).
Proof.
  assert (H : forall history,
             (List.length history <= 8)%nat ->
             NoDup (map entry_key history) ->
             (List.length (amend_all calls history) <= 8)%nat
             /\ NoDup (map entry_key (amend_all calls history))).
  { unfold amend_all.
    induction calls as [|[[now topic] text] calls IH]; intros history Hl Hn.
    - split; assumption.
    - cbn [fold_left].
      destruct (HistoryFacts.amendToHistory_invariant now history topic text
                  Hn) as [Hl' Hn'].
      apply IH; assumption. }
  apply H; [cbn [List.length]; lia | constructor].
Qed.
